(** * Quest_Scraper: the batch scraper (MultiScraper/QuestScraper.py) and the
    single-run scraper (SingelRunScraper/QuestScraperSingelRun.py).

    Python strings are sequences of Unicode code points; the parsed page is
    the tree BeautifulSoup hands back; Selenium, the clock and the file
    system are an environment that answers the calls the scripts make.
    Console output ([print]) is not part of the model; the error log is the
    sequence of messages handed to [log_error]. *)

From Stdlib Require Import List NArith Bool Lia String Ascii Arith.
Import ListNotations.

Set Implicit Arguments.
Set Warnings "-register-all".

(* ================================================================== *)
(** ** Python strings *)

(** A [str] is a list of code points. *)
Definition pystr := list N.

Definition py (s : string) : pystr :=
  List.map N_of_ascii (list_ascii_of_string s).

Fixpoint pystr_eqb (a b : pystr) : bool :=
  match a, b with
  | [], [] => true
  | x :: a', y :: b' => N.eqb x y && pystr_eqb a' b'
  | _, _ => false
  end.

(** [s.startswith(p)] *)
Fixpoint startswith (p s : pystr) : bool :=
  match p, s with
  | [], _ => true
  | x :: p', y :: s' => N.eqb x y && startswith p' s'
  | _ :: _, [] => false
  end.

(** [p in s] for two strings: [p] occurs in [s] as a substring. *)
Fixpoint str_contains (p s : pystr) : bool :=
  startswith p s ||
  match s with
  | [] => false
  | _ :: s' => str_contains p s'
  end.

(** [sep.join(l)] *)
Fixpoint join (sep : pystr) (l : list pystr) : pystr :=
  match l with
  | [] => []
  | [x] => x
  | x :: l' => x ++ sep ++ join sep l'
  end.

(** [c.isspace()]: the code points CPython's [str.strip()] removes. *)
Definition isspace (c : N) : bool :=
  ((9 <=? c) && (c <=? 13) || (28 <=? c) && (c <=? 32)
   || (c =? 133) || (c =? 160) || (c =? 5760)
   || (8192 <=? c) && (c <=? 8202)
   || (c =? 8232) || (c =? 8233) || (c =? 8239) || (c =? 8287)
   || (c =? 12288))%N.

Fixpoint lstrip (s : pystr) : pystr :=
  match s with
  | c :: s' => if isspace c then lstrip s' else s
  | [] => []
  end.

Definition rstrip (s : pystr) : pystr := rev (lstrip (rev s)).

(** [s.strip()] *)
Definition strip (s : pystr) : pystr := rstrip (lstrip s).

(** [c.isalnum()] on the ASCII range. *)
Definition ascii_isalnum (c : N) : bool :=
  ((48 <=? c) && (c <=? 57) || (65 <=? c) && (c <=? 90)
   || (97 <=? c) && (c <=? 122))%N.

(** [c.isalnum()] below U+0100: the ASCII letters and digits, and the
    Latin-1 letters, superscript digits and vulgar fractions. *)
Definition latin1_isalnum (c : N) : bool :=
  (ascii_isalnum c
   || (c =? 170) || (c =? 178) || (c =? 179) || (c =? 181)
   || (c =? 185) || (c =? 186) || (188 <=? c) && (c <=? 190)
   || (192 <=? c) && (c <=? 214) || (216 <=? c) && (c <=? 246)
   || (248 <=? c) && (c <=? 255))%N.

(** [c.isalnum()]: from U+0100 on the answer is read from the Unicode
    character database of the running interpreter, the table [ucd]. *)
Definition str_isalnum (ucd : N -> bool) (c : N) : bool :=
  if (c <? 256)%N then latin1_isalnum c else ucd c.

(** [c in ('-', '_')] *)
Definition is_dash_or_underscore (c : N) : bool :=
  existsb (pystr_eqb [c]) [py "-"; py "_"].

(** QuestScraper.py, line 297:
    [safe_username = "".join(c if c.isalnum() or c in ('-', '_') else '_'
                             for c in username)] *)
Definition safe_username (ucd : N -> bool) (username : pystr) : pystr :=
  join []
    (List.map
       (fun c => if str_isalnum ucd c || is_dash_or_underscore c
                 then [c] else py "_")
       username).

(** The sanitizer as the specification words it: every character outside
    [[A-Za-z0-9_-]] becomes an underscore. *)
Definition in_filename_class (c : N) : bool :=
  (ascii_isalnum c || (c =? 95) || (c =? 45))%N.

Definition sanitize_spec (username : pystr) : pystr :=
  List.map (fun c => if in_filename_class c then c else 95%N) username.

(** [OUTPUT_FILENAME_TEMPLATE.format(username=safe_username)] *)
Definition OUTPUT_FILENAME_TEMPLATE (username : pystr) : pystr :=
  username ++ py "_quest_status.json".

(* ================================================================== *)
(** ** Exceptions *)

(** Instances of [Exception] that the scripts can meet. *)
Inductive exception :=
| KeyError
| TypeError
| AttributeError
| IOError
| TimeoutException
| NoSuchElementException
| ElementClickInterceptedException
| WebDriverException
| VerificationFailed        (* Exception("Username input verification failed") *)
| OtherException (tag : nat).

(** Everything that can be raised: an [Exception], or a [BaseException]
    that [except Exception] lets through. *)
Inductive raised :=
| Exc (e : exception)
| KeyboardInterrupt
| SystemExit.

Inductive exn_class :=
| CTimeoutException
| CNoSuchElementException
| CElementClickInterceptedException
| CWebDriverException
| CIOError.

(** [isinstance(e, cls)]: the three Selenium exceptions named here derive
    from [WebDriverException]. *)
Definition isinstance (e : exception) (cls : exn_class) : bool :=
  match cls, e with
  | CTimeoutException, TimeoutException => true
  | CNoSuchElementException, NoSuchElementException => true
  | CElementClickInterceptedException, ElementClickInterceptedException => true
  | CWebDriverException,
    (WebDriverException | TimeoutException | NoSuchElementException
     | ElementClickInterceptedException) => true
  | CIOError, IOError => true
  | _, _ => false
  end.

(** Outcome of a pure Python expression that may raise an [Exception]. *)
Inductive outcome (A : Type) :=
| Ok (a : A)
| Err (e : exception).
Arguments Ok {A} a.
Arguments Err {A} e.

Definition obind {A B} (x : outcome A) (f : A -> outcome B) : outcome B :=
  match x with
  | Ok a => f a
  | Err e => Err e
  end.

Notation "x <~ c ; k" := (obind c (fun x => k))
  (at level 61, c at next level, right associativity).

(* ================================================================== *)
(** ** The tree BeautifulSoup builds *)

(** An attribute value: a string, or a list of strings for the
    multi-valued attributes ([class], [rel], ...). *)
Inductive attrval :=
| AStr (s : pystr)
| AList (l : list pystr).

(** [NavigableString] and its subclasses. *)
Inductive strkind := KText | KCData | KComment | KOther.

Inductive node :=
| Str (k : strkind) (s : pystr)
| Tag (name : pystr) (attrs : list (pystr * attrval)) (contents : list node).

(** What [quest_title] can end up holding: a [str], or the [ResultSet] of
    tags that calling a [Tag] returns. *)
Inductive pyval :=
| VStr (s : pystr)
| VTags (l : list node).

(** One entry of [scraped_data]: [{'title': ..., 'status': ...}]. *)
Record quest := { title : pyval; status : pystr }.

Fixpoint assoc (key : pystr) (d : list (pystr * attrval)) : option attrval :=
  match d with
  | [] => None
  | (k, v) :: d' => if pystr_eqb key k then Some v else assoc key d'
  end.

(** [tag.attrs.get(key)] *)
Definition attr_get (n : node) (key : pystr) : option attrval :=
  match n with
  | Tag _ a _ => assoc key a
  | Str _ _ => None
  end.

(** [tag.contents] *)
Definition contents_of (n : node) : list node :=
  match n with
  | Tag _ _ cs => cs
  | Str _ _ => []
  end.

(** [tag.descendants]: every node below [n], in document order. *)
Fixpoint descendants (n : node) : list node :=
  match n with
  | Str _ _ => []
  | Tag _ _ cs =>
      (fix walk (l : list node) : list node :=
         match l with
         | [] => []
         | c :: l' => c :: descendants c ++ walk l'
         end) cs
  end.

Definition is_tag (n : node) : bool :=
  match n with Tag _ _ _ => true | Str _ _ => false end.

Definition tag_named (nm : pystr) (n : node) : bool :=
  match n with
  | Tag nm' _ _ => pystr_eqb nm nm'
  | Str _ _ => false
  end.

(** The [class_=cls] filter: some value of the attribute is [cls], or the
    values joined by spaces are. *)
Definition class_matches (cls : pystr) (n : node) : bool :=
  match attr_get n (py "class") with
  | Some (AList l) => existsb (pystr_eqb cls) l || pystr_eqb cls (join (py " ") l)
  | Some (AStr s) => pystr_eqb cls s
  | None => false
  end.

(** The [key=True] filter: the attribute is there. *)
Definition has_attr (key : pystr) (n : node) : bool :=
  match attr_get n key with
  | Some _ => true
  | None => false
  end.

(** [tag.find_all(name, <filters>)] *)
Definition find_all (nm : pystr) (flt : node -> bool) (n : node) : list node :=
  filter (fun d => tag_named nm d && flt d) (descendants n).

(** [tag.find(name, <filters>)] *)
Definition find (nm : pystr) (flt : node -> bool) (n : node) : option node :=
  hd_error (find_all nm flt n).

Definition no_filter (n : node) : bool := true.

(** [tag[key]] *)
Definition getitem (n : node) (key : pystr) : outcome attrval :=
  match attr_get n key with
  | Some v => Ok v
  | None => Err KeyError
  end.

(** [v.startswith(p)]: a list has no such method. *)
Definition val_startswith (v : attrval) (p : pystr) : outcome bool :=
  match v with
  | AStr s => Ok (startswith p s)
  | AList _ => Err AttributeError
  end.

(** [v.strip()] on an attribute value. *)
Definition val_strip (v : attrval) : outcome pystr :=
  match v with
  | AStr s => Ok (strip s)
  | AList _ => Err AttributeError
  end.

(** [x in v] *)
Definition py_in (x : pystr) (v : attrval) : bool :=
  match v with
  | AList l => existsb (pystr_eqb x) l
  | AStr s => str_contains x s
  end.

(** [tag.get_text(strip=True)]: the strings below the tag that are plain
    text or CDATA, each stripped, the empty ones dropped, concatenated. *)
Definition text_piece (n : node) : list pystr :=
  match n with
  | Str (KText | KCData) s =>
      match strip s with
      | [] => []
      | t => [t]
      end
  | _ => []
  end.

Definition get_text_strip (n : node) : pystr :=
  join [] (flat_map text_piece (descendants n)).

(** [child.strip()] for a child of a tag.  A string is stripped.  A [Tag]
    has no attribute [strip], so [child.strip] is [child.find('strip')];
    calling [None] raises [TypeError], calling a tag is [find_all()]. *)
Definition child_strip (child : node) : outcome pyval :=
  match child with
  | Str _ s => Ok (VStr (strip s))
  | Tag _ _ _ =>
      match find (py "strip") no_filter child with
      | None => Err TypeError
      | Some t => Ok (VTags (filter is_tag (descendants t)))
      end
  end.

(* ================================================================== *)
(** ** The body of the per-link [try] in [parse_data] *)

(** Lines 179-201 of QuestScraper.py (186-210 of the single-run script,
    the same statements): the value is [scraped_data] after the body, or
    the exception that left it.  Nothing is appended before a statement
    that can raise. *)
Definition link_body (link : node) (scraped_data : list quest)
  : outcome (list quest) :=
  href <~ getitem link (py "href");
  is_quest <~ val_startswith href (py "/w/");
  if is_quest then
    match find (py "span") (class_matches (py "rs-qc-icon")) link with
    | Some qc_icon_span =>
        match find (py "img") no_filter qc_icon_span with
        | Some status_img =>
            let status0 := py "unknown" in
            let img_classes :=
              match attr_get status_img (py "class") with
              | Some v => v
              | None => AList []
              end in
            let status1 :=
              if py_in (py "qc-complete") img_classes then py "complete"
              else if py_in (py "qc-not-started") img_classes
                   then py "not started"
                   else status0 in
            t0 <~ val_strip (match attr_get link (py "title") with
                             | Some v => v
                             | None => AStr []
                             end);
            quest_title <~
              (match t0 with
               | [] =>
                   match contents_of link with
                   | c0 :: _ => child_strip c0
                   | [] => Ok (VStr (get_text_strip link))
                   end
               | _ => Ok (VStr t0)
               end);
            if negb (pystr_eqb status1 (py "unknown"))
            then Ok (scraped_data
                       ++ [{| title := quest_title; status := status1 |}])
            else Ok scraped_data
        | None => Ok scraped_data
        end
    | None => Ok scraped_data
    end
  else Ok scraped_data.

(* ================================================================== *)
(** ** The environment: browser, clock, file system *)

(** A [WebElement] handle. *)
Definition elem := N.

Inductive locator :=
| ByXPath (s : pystr)
| ByCssSelector (s : pystr).

Inductive condition :=
| visibility_of_element_located
| element_to_be_clickable
| presence_of_element_located.

(** The calls that leave the script. *)
Inductive command :=
| ChromeStart                                  (* webdriver.Chrome(...) *)
| DriverGet (url : pystr)                      (* driver.get(url) *)
| ImplicitlyWait (seconds : nat)               (* driver.implicitly_wait(s) *)
| WaitUntil (timeout : nat) (c : condition) (l : locator)
                                  (* WebDriverWait(driver, t).until(c(l)) *)
| ElemClear (e : elem)                         (* e.clear() *)
| ElemSendKeys (e : elem) (keys : pystr)       (* e.send_keys(keys) *)
| ElemGetAttribute (e : elem) (name : pystr)   (* e.get_attribute(name) *)
| ElemClick (e : elem)                         (* e.click() *)
| ExecuteScript (script : pystr) (e : elem)    (* driver.execute_script(s, e) *)
| PageSource                                   (* driver.page_source *)
| DriverQuit                                   (* driver.quit() *)
| JsonDump (filename : pystr) (data : list quest).
                                  (* open(filename, 'w') and json.dump *)

Definition reply (c : command) : Type :=
  match c with
  | WaitUntil _ _ _ => elem
  | ElemGetAttribute _ _ => option pystr
  | PageSource => pystr
  | _ => unit
  end.

(** What a statement leaves behind: a value, or something raised. *)
Inductive result (A : Type) :=
| Return (a : A)
| Raised (r : raised).
Arguments Return {A} a.
Arguments Raised {A} r.

(** The messages handed to [log_error], by call site. *)
Inductive log_entry :=
| LogSetupFailed (e : exception)
| LogAttemptFailed (attempt : nat) (username : pystr) (e : exception)
| LogNoContainers (user : option pystr)
| LogLinkError (user : option pystr) (e : exception) (link : node)
| LogMajorParseError (user : option pystr) (e : exception)
| LogWriteError (filename : pystr) (e : exception)
| LogSaveError (filename : pystr) (e : exception)
| LogFetchFailed (username : pystr)
| LogMainError (e : exception)
| LogLookupTimeout
| LogLookupError (e : exception)
| LogInputTimeout
| LogNoSuchElement (e : exception)
| LogInteractionError (e : exception).

(** What an observer of a run sees, in order. *)
Inductive action :=
| ACall (c : command)
| ASleep (ms : nat)
| ALog (entry : log_entry).

(** The environment answers every call from its own state [B] and moves on;
    time passing changes it too. *)
Record environment (B : Type) := {
  respond : forall c : command, B -> result (reply c) * B;
  elapse : nat -> B -> B
}.

Record world (B : Type) := { browser : B; trace : list action }.

(** Statements: state passing with exceptions; what was done before an
    exception stays done. *)
Definition M (B A : Type) := world B -> result A * world B.

Section Statements.
Context {B : Type} (env : environment B).

Definition ret {A} (a : A) : M B A := fun w => (Return a, w).

Definition bind {A C} (m : M B A) (k : A -> M B C) : M B C :=
  fun w =>
    match m w with
    | (Return a, w') => k a w'
    | (Raised r, w') => (Raised r, w')
    end.

Definition raise {A} (e : exception) : M B A := fun w => (Raised (Exc e), w).

(** A pure expression evaluated as a statement. *)
Definition eval {A} (x : outcome A) : M B A :=
  match x with
  | Ok a => ret a
  | Err e => raise e
  end.

Definition call (c : command) : M B (reply c) :=
  fun w =>
    let (r, b') := respond env c (browser w) in
    (r, {| browser := b'; trace := trace w ++ [ACall c] |}).

(** [time.sleep(ms / 1000)] *)
Definition sleep (ms : nat) : M B unit :=
  fun w =>
    (Return tt, {| browser := elapse env ms (browser w);
                   trace := trace w ++ [ASleep ms] |}).

(** [log_error(message)]: never raises, whatever happens to the file. *)
Definition log_error (entry : log_entry) : M B unit :=
  fun w =>
    (Return tt, {| browser := browser w; trace := trace w ++ [ALog entry] |}).

(** [try: body / except Exception as e: handler] *)
Definition try_except {A} (body : M B A) (handler : exception -> M B A)
  : M B A :=
  fun w =>
    match body w with
    | (Raised (Exc e), w') => handler e w'
    | other => other
    end.

(** [try: body / finally: cleanup] *)
Definition try_finally {A} (body : M B A) (cleanup : M B unit) : M B A :=
  fun w =>
    match body w with
    | (r, w') =>
        match cleanup w' with
        | (Return _, w'') => (r, w'')
        | (Raised x, w'') => (Raised x, w'')
        end
    end.
End Statements.

Notation "x <- c ;; k" := (bind c (fun x => k))
  (at level 61, c at next level, right associativity).
Notation "c ;;; k" := (bind c (fun _ => k))
  (at level 61, right associativity).

Definition TARGET_URL : pystr :=
  py "https://oldschool.runescape.wiki/w/RuneScape:WikiSync/Tracker".

(** The entries of [trace] that went to the error log. *)
Definition log_of (t : list action) : list log_entry :=
  flat_map (fun a => match a with ALog e => [e] | _ => [] end) t.

(* ================================================================== *)
(** ** What the two scripts share *)

Section Shared.
Context {B : Type} (env : environment B).

(** The parser: [BeautifulSoup(html_content, 'html.parser')] gives a tree
    whose root is the document, or raises. *)
Variable BeautifulSoup : pystr -> outcome node.

(** [setup_driver()] *)
Definition setup_driver : M B (option unit) :=
  try_except
    (driver <- call env ChromeStart ;; ret (Some driver))
    (fun e =>
       if isinstance e CWebDriverException then ret None
       else log_error (LogSetupFailed e) ;;; ret None).

(** The local variables of [parse_data]. *)
Record locals := {
  scraped_data : list quest;
  total_links_found : nat;
  parsing_errors : nat
}.

(** [for link in quest_links: try: ... except Exception as e_link: ...] *)
Fixpoint for_links (user : option pystr) (quest_links : list node)
    (st : locals) : M B locals :=
  match quest_links with
  | [] => ret st
  | link :: rest =>
      st' <- try_except
               (sd <- eval (link_body link (scraped_data st)) ;;
                ret {| scraped_data := sd;
                       total_links_found := total_links_found st;
                       parsing_errors := parsing_errors st |})
               (fun e_link =>
                  log_error (LogLinkError user e_link link) ;;;
                  ret {| scraped_data := scraped_data st;
                         total_links_found := total_links_found st;
                         parsing_errors := parsing_errors st + 1 |}) ;;
      for_links user rest st'
  end.

(** [container.find_all('a', href=True, title=True)] *)
Definition quest_links_of (container : node) : list node :=
  find_all (py "a")
    (fun a => has_attr (py "href") a && has_attr (py "title") a) container.

(** [for container in quest_containers: ...] *)
Fixpoint for_containers (user : option pystr) (quest_containers : list node)
    (st : locals) : M B locals :=
  match quest_containers with
  | [] => ret st
  | container :: rest =>
      let quest_links := quest_links_of container in
      st' <- for_links user quest_links
               {| scraped_data := scraped_data st;
                  total_links_found :=
                    total_links_found st + List.length quest_links;
                  parsing_errors := parsing_errors st |} ;;
      for_containers user rest st'
  end.

(** [parse_data], with the user the messages name ([None] in the
    single-run script, whose messages name nobody). *)
Definition parse_data_for (user : option pystr) (html_content : pystr)
  : M B (list quest) :=
  match html_content with
  | [] => ret []
  | _ =>
      try_except
        (soup <- eval (BeautifulSoup html_content) ;;
         let quest_containers :=
           find_all (py "div") (class_matches (py "div-col")) soup in
         match quest_containers with
         | [] => log_error (LogNoContainers user) ;;; ret []
         | _ =>
             st <- for_containers user quest_containers
                     {| scraped_data := [];
                        total_links_found := 0;
                        parsing_errors := 0 |} ;;
             ret (scraped_data st)
         end)
        (fun e_main => log_error (LogMajorParseError user e_main) ;;; ret [])
  end.

(** [save_to_json(data, filename)] *)
Definition save_to_json (data : list quest) (filename : pystr) : M B unit :=
  match data with
  | [] => ret tt
  | _ =>
      try_except
        (call env (JsonDump filename data))
        (fun e =>
           if isinstance e CIOError
           then log_error (LogWriteError filename e)
           else log_error (LogSaveError filename e))
  end.

(** The click on the look-up button, with its fallback. *)
Definition click_lookup (fetch_button : elem) : M B unit :=
  try_except
    (call env (ElemClick fetch_button))
    (fun e =>
       if isinstance e CElementClickInterceptedException
       then call env (ExecuteScript (py "arguments[0].click();") fetch_button)
       else raise e).
End Shared.

Definition username_input_selector : locator :=
  ByXPath (py "//input[@placeholder='Display name']").
Definition fetch_button_selector : locator :=
  ByXPath (py "//button[contains(., 'Look up')]").
Definition results_container_selector : locator :=
  ByCssSelector (py "div.div-col").

Definition wait_time_long : nat := 45.
Definition wait_time_short : nat := 20.

(* ================================================================== *)
(** ** MultiScraper/QuestScraper.py *)

Module QuestScraper.
Section Script.
Context {B : Type} (env : environment B).
Variable BeautifulSoup : pystr -> outcome node.
Variable ucd : N -> bool.

Definition attempts : nat := 3.

(** The body of the [try] in [fetch_and_interact], lines 85-133: one
    round trip, ending in [return driver.page_source]. *)
Definition interaction (url username : pystr) : M B pystr :=
  call env (DriverGet url) ;;;
  username_input <-
    call env (WaitUntil wait_time_long visibility_of_element_located
                username_input_selector) ;;
  call env (ElemClear username_input) ;;;
  sleep env 500 ;;;
  call env (ElemSendKeys username_input username) ;;;
  sleep env 500 ;;;
  entered_value <- call env (ElemGetAttribute username_input (py "value")) ;;
  (match entered_value with
   | Some v => if pystr_eqb v username then ret tt
               else raise VerificationFailed
   | None => raise VerificationFailed
   end) ;;;
  fetch_button <-
    call env (WaitUntil wait_time_short element_to_be_clickable
                fetch_button_selector) ;;
  click_lookup env fetch_button ;;;
  call env (WaitUntil wait_time_long presence_of_element_located
              results_container_selector) ;;;
  sleep env 5000 ;;;
  call env PageSource.

(** [for attempt in range(attempts): try: ... except Exception as e: ...]
    over the attempts still to make.  The inner value says whether the
    function has returned ([Some r]) or the loop goes on ([None]). *)
Fixpoint attempt_loop (url username : pystr) (range : list nat)
  : M B (option pystr) :=
  match range with
  | [] => ret None
  | attempt :: rest =>
      returned <-
        try_except
          (page_source <- interaction url username ;;
           ret (Some (Some page_source)))
          (fun e =>
             log_error (LogAttemptFailed (attempt + 1) username e) ;;;
             if attempt <? attempts - 1
             then sleep env 2000 ;;; ret None
             else ret (Some None)) ;;
      match returned with
      | Some r => ret r
      | None => attempt_loop url username rest
      end
  end.

(** [fetch_and_interact(driver, url, username)] *)
Definition fetch_and_interact (url username : pystr) : M B (option pystr) :=
  attempt_loop url username (seq 0 attempts).

(** [parse_data(html_content, username)] *)
Definition parse_data (html_content username : pystr) : M B (list quest) :=
  parse_data_for BeautifulSoup (Some username) html_content.

(** The body of [for username in usernames], lines 295-310. *)
Definition process_user (username : pystr) : M B unit :=
  let output_file := OUTPUT_FILENAME_TEMPLATE (safe_username ucd username) in
  html_after_interaction <- fetch_and_interact TARGET_URL username ;;
  (match html_after_interaction with
   | Some ((_ :: _) as html) =>
       extracted_data <- parse_data html username ;;
       save_to_json env extracted_data output_file
   | _ => log_error (LogFetchFailed username)
   end) ;;;
  sleep env 2000.

Fixpoint for_usernames (usernames : list pystr) : M B unit :=
  match usernames with
  | [] => ret tt
  | username :: rest => process_user username ;;; for_usernames rest
  end.

(** The main block from line 288 on, given the list read from
    [usernames.json]. *)
Definition main (usernames : list pystr) : M B unit :=
  match usernames with
  | [] => ret tt
  | _ =>
      driver <- setup_driver env ;;
      match driver with
      | Some _ =>
          try_finally
            (try_except (for_usernames usernames)
               (fun e_main_exec => log_error (LogMainError e_main_exec)))
            (call env DriverQuit)
      | None => ret tt
      end
  end.
End Script.
End QuestScraper.

(* ================================================================== *)
(** ** SingelRunScraper/QuestScraperSingelRun.py *)

Module QuestScraperSingelRun.
Section Script.
Context {B : Type} (env : environment B).
Variable BeautifulSoup : pystr -> outcome node.

Definition USERNAME_TO_SELECT : pystr := py "UsernameHere".
Definition OUTPUT_FILENAME : pystr := py "runescape_quest_status.json".

(** The inner [try], lines 93-127: [Some None] when a handler has
    returned [None] from the function, [None] when control falls through
    to [return driver.page_source]. *)
Definition lookup_and_wait : M B (option (option pystr)) :=
  try_except
    (fetch_button <-
       call env (WaitUntil wait_time_short element_to_be_clickable
                   fetch_button_selector) ;;
     click_lookup env fetch_button ;;;
     call env (WaitUntil wait_time_long presence_of_element_located
                 results_container_selector) ;;;
     sleep env 5000 ;;;
     ret None)
    (fun e =>
       if isinstance e CTimeoutException
       then log_error LogLookupTimeout ;;; ret (Some None)
       else log_error (LogLookupError e) ;;; ret (Some None)).

(** [fetch_and_interact(driver, url, username)] *)
Definition fetch_and_interact (url username : pystr) : M B (option pystr) :=
  try_except
    (call env (DriverGet url) ;;;
     call env (ImplicitlyWait 5) ;;;
     username_input <-
       call env (WaitUntil wait_time_long visibility_of_element_located
                   username_input_selector) ;;
     call env (ElemClear username_input) ;;;
     sleep env 500 ;;;
     call env (ElemSendKeys username_input username) ;;;
     sleep env 500 ;;;
     returned <- lookup_and_wait ;;
     match returned with
     | Some r => ret r
     | None => page_source <- call env PageSource ;; ret (Some page_source)
     end)
    (fun e =>
       if isinstance e CTimeoutException
       then log_error LogInputTimeout ;;; ret None
       else if isinstance e CNoSuchElementException
       then log_error (LogNoSuchElement e) ;;; ret None
       else log_error (LogInteractionError e) ;;; ret None).

(** [parse_data(html_content)] *)
Definition parse_data (html_content : pystr) : M B (list quest) :=
  parse_data_for BeautifulSoup None html_content.

(** The main block. *)
Definition main : M B unit :=
  driver <- setup_driver env ;;
  match driver with
  | Some _ =>
      try_finally
        (try_except
           (html_after_interaction <-
              fetch_and_interact TARGET_URL USERNAME_TO_SELECT ;;
            match html_after_interaction with
            | Some ((_ :: _) as html) =>
                extracted_data <- parse_data html ;;
                save_to_json env extracted_data OUTPUT_FILENAME
            | _ => ret tt
            end)
           (fun e_main_exec => log_error (LogMainError e_main_exec)))
        (call env DriverQuit)
  | None => ret tt
  end.
End Script.
End QuestScraperSingelRun.

(* ================================================================== *)
(** ** Reading the results of a run *)

(** [w] after the actions [t]. *)
Definition emit {B} (t : list action) (w : world B) : world B :=
  {| browser := browser w; trace := trace w ++ t |}.

(** What one enumerated link adds to [scraped_data], and to the log. *)
Definition link_quests (link : node) : list quest :=
  match link_body link [] with
  | Ok l => l
  | Err _ => []
  end.

Definition link_logs (user : option pystr) (link : node) : list log_entry :=
  match link_body link [] with
  | Ok _ => []
  | Err e => [LogLinkError user e link]
  end.

(** The links [parse_data] walks through: those of the first container,
    then those of the second, and so on. *)
Definition quest_containers_of (soup : node) : list node :=
  find_all (py "div") (class_matches (py "div-col")) soup.

Definition quest_anchors (soup : node) : list node :=
  flat_map quest_links_of (quest_containers_of soup).

(* ================================================================== *)
(** ** The page, described *)

(** The first node of a list that satisfies [P]. *)
Inductive first_such (P : node -> Prop) : list node -> node -> Prop :=
| first_here d l : P d -> first_such P (d :: l) d
| first_later d l x : ~ P d -> first_such P l x -> first_such P (d :: l) x.

(** An element with tag name [nm]. *)
Definition is_element (nm : pystr) (n : node) : Prop :=
  exists attrs cs, n = Tag nm attrs cs.

(** An element that carries the class [cls]. *)
Inductive has_class (cls : pystr) : node -> Prop :=
| has_class_in_list nm attrs cs l :
    assoc (py "class") attrs = Some (AList l) -> In cls l ->
    has_class cls (Tag nm attrs cs)
| has_class_as_string nm attrs cs :
    assoc (py "class") attrs = Some (AStr cls) ->
    has_class cls (Tag nm attrs cs).

(** [span.rs-qc-icon] *)
Definition icon_span (n : node) : Prop :=
  is_element (py "span") n /\ has_class (py "rs-qc-icon") n.

(** [div.div-col] *)
Definition marker_container (n : node) : Prop :=
  is_element (py "div") n /\ has_class (py "div-col") n.

(** The status image of a link: the first [img] below the first
    [span.rs-qc-icon] below the link, in document order. *)
Definition status_image (link img : node) : Prop :=
  exists span,
    first_such icon_span (descendants link) span /\
    first_such (is_element (py "img")) (descendants span) img.

(** The class list of an element (empty when it has no [class]). *)
Inductive class_list (n : node) : list pystr -> Prop :=
| class_list_some l : attr_get n (py "class") = Some (AList l) -> class_list n l
| class_list_none : attr_get n (py "class") = None -> class_list n [].

(** The status a class list stands for. *)
Inductive recognised (l : list pystr) : pystr -> Prop :=
| recognised_complete :
    In (py "qc-complete") l -> recognised l (py "complete")
| recognised_not_started :
    ~ In (py "qc-complete") l -> In (py "qc-not-started") l ->
    recognised l (py "not started").

(** A quest anchor and the record it stands for: the href is an article
    path, the title attribute is not blank, and the status image carries a
    recognised class. *)
Inductive record_for (link : node) : quest -> Prop :=
| record_for_intro href ttl img l s :
    attr_get link (py "href") = Some (AStr href) ->
    startswith (py "/w/") href = true ->
    attr_get link (py "title") = Some (AStr ttl) ->
    strip ttl <> [] ->
    status_image link img ->
    class_list img l ->
    recognised l s ->
    record_for link {| title := VStr (strip ttl); status := s |}.

(** An anchor that stands for no record. *)
Inductive no_record (link : node) : Prop :=
| no_record_href href :
    attr_get link (py "href") = Some (AStr href) ->
    startswith (py "/w/") href = false ->
    no_record link
| no_record_span href :
    attr_get link (py "href") = Some (AStr href) ->
    Forall (fun d => ~ icon_span d) (descendants link) ->
    no_record link
| no_record_img href span :
    attr_get link (py "href") = Some (AStr href) ->
    first_such icon_span (descendants link) span ->
    Forall (fun d => ~ is_element (py "img") d) (descendants span) ->
    no_record link
| no_record_class href img l :
    attr_get link (py "href") = Some (AStr href) ->
    status_image link img ->
    class_list img l ->
    ~ In (py "qc-complete") l -> ~ In (py "qc-not-started") l ->
    no_record link.

(** [anchors] sorted into those that stand for a record, kept in order in
    [kept], and those that stand for none. *)
Inductive sorted_out : list node -> list node -> Prop :=
| sorted_nil : sorted_out [] []
| sorted_keep a q l kept :
    record_for a q -> sorted_out l kept -> sorted_out (a :: l) (a :: kept)
| sorted_drop a l kept :
    no_record a -> sorted_out l kept -> sorted_out (a :: l) kept.

(** A well-formed quest anchor in the words of the specification: an href
    under [/w/], a title attribute, and below it a [span.rs-qc-icon] that
    contains an [img] whose class list includes one of the two classes. *)
Definition well_formed_as_specified (link : node) : Prop :=
  (exists href, attr_get link (py "href") = Some (AStr href)
                /\ startswith (py "/w/") href = true) /\
  (exists t, attr_get link (py "title") = Some t) /\
  exists span img l,
    In span (descendants link) /\ icon_span span /\
    In img (descendants span) /\ is_element (py "img") img /\
    class_list img l /\
    (In (py "qc-complete") l \/ In (py "qc-not-started") l).

(* ================================================================== *)
(** ** Pages and environments used as examples *)

Definition text (s : string) : node := Str KText (py s).
Definition img_with (classes : list pystr) : node :=
  Tag (py "img") [(py "class", AList classes)] [].
Definition icon (cs : list node) : node :=
  Tag (py "span") [(py "class", AList [py "rs-qc-icon"])] cs.
Definition anchor (href ttl : string) (cs : list node) : node :=
  Tag (py "a") [(py "href", AStr (py href)); (py "title", AStr (py ttl))] cs.
Definition div_col (cs : list node) : node :=
  Tag (py "div") [(py "class", AList [py "div-col"])] cs.
Definition document (cs : list node) : node := Tag (py "[document]") [] cs.

(** A parser that answers [soup]. *)
Definition parser_giving (soup : node) : pystr -> outcome node :=
  fun _ => Ok soup.

(** A run that starts with nothing done. *)
Definition fresh : world unit := {| browser := tt; trace := [] |}.

(** [<div class='div-col'>
      <a href='/w/Cook' title='Cook&#39;s Assistant'>
        <span class='rs-qc-icon'><img class='qc-complete'></span>Cook's Assistant</a>
      <a href='/w/Demon' title='Demon Slayer'>
        <span class='rs-qc-icon'><img class='qc-not-started'></span>Demon Slayer</a>
      <a href='/w/Dragon' title='Dragon Slayer'>
        <span class='rs-qc-icon'><img class='qc-in-progress'></span>Dragon Slayer</a>
    </div>], without the white space between the tags. *)
Definition cooks_anchor : node :=
  anchor "/w/Cook" "Cook's Assistant"
    [icon [img_with [py "qc-complete"]]; text "Cook's Assistant"].
Definition demon_anchor : node :=
  anchor "/w/Demon" "Demon Slayer"
    [icon [img_with [py "qc-not-started"]]; text "Demon Slayer"].
Definition dragon_anchor : node :=
  anchor "/w/Dragon" "Dragon Slayer"
    [icon [img_with [py "qc-in-progress"]]; text "Dragon Slayer"].
Definition page_three_quests : node :=
  document [div_col [cooks_anchor; demon_anchor; dragon_anchor]].
Definition html_three_quests : pystr :=
  py "<div class='div-col'><a href='/w/Cook' title='Cook&#39;s Assistant'><span class='rs-qc-icon'><img class='qc-complete'></span>Cook's Assistant</a><a href='/w/Demon' title='Demon Slayer'><span class='rs-qc-icon'><img class='qc-not-started'></span>Demon Slayer</a><a href='/w/Dragon' title='Dragon Slayer'><span class='rs-qc-icon'><img class='qc-in-progress'></span>Dragon Slayer</a></div>".

(** [<div class='div-col'><a href='/w/Cook' title='Cook&#39;s Assistant'>
      <span class='rs-qc-icon'><img class='icon'><img class='qc-complete'>
      </span></a></div>]: the recognised class sits on the second image. *)
Definition second_image_anchor : node :=
  anchor "/w/Cook" "Cook's Assistant"
    [icon [img_with [py "icon"]; img_with [py "qc-complete"]]].
Definition page_second_image : node :=
  document [div_col [second_image_anchor]].
Definition html_second_image : pystr :=
  py "<div class='div-col'><a href='/w/Cook' title='Cook&#39;s Assistant'><span class='rs-qc-icon'><img class='icon'><img class='qc-complete'></span></a></div>".

(** [<p>No results</p>] *)
Definition page_no_container : node :=
  document [Tag (py "p") [] [text "No results"]].
Definition html_no_container : pystr := py "<p>No results</p>".

(** What the parser makes of the empty string. *)
Definition empty_document : node := document [].

(** [<div class='div-col'><a href='/w/Cook' title=''> <span
    class='rs-qc-icon'><img class='qc-complete'></span></a></div>]: a blank
    title attribute, and a single space before the icon. *)
Definition blank_text_anchor : node :=
  anchor "/w/Cook" "" [text " "; icon [img_with [py "qc-complete"]]].
Definition page_blank_text : node := document [div_col [blank_text_anchor]].
Definition html_blank_text : pystr :=
  py "<div class='div-col'><a href='/w/Cook' title=''> <span class='rs-qc-icon'><img class='qc-complete'></span></a></div>".

(** [<div class='div-col'><a href='/w/Cook' title=''><span
    class='rs-qc-icon'><img class='qc-complete'></span>Cook's Assistant</a>
    </div>]: a blank title attribute, the icon first, the name after it. *)
Definition icon_first_anchor : node :=
  anchor "/w/Cook" ""
    [icon [img_with [py "qc-complete"]]; text "Cook's Assistant"].
Definition page_icon_first : node := document [div_col [icon_first_anchor]].
Definition html_icon_first : pystr :=
  py "<div class='div-col'><a href='/w/Cook' title=''><span class='rs-qc-icon'><img class='qc-complete'></span>Cook's Assistant</a></div>".

(** [<div class='div-col'><a href='/w/Cook' title='Cook&#39;s Assistant'>
    Cook's Assistant</a></div>]: a quest link without a status icon. *)
Definition plain_anchor : node :=
  anchor "/w/Cook" "Cook's Assistant" [text "Cook's Assistant"].
Definition page_plain : node := document [div_col [plain_anchor]].
Definition html_plain : pystr :=
  py "<div class='div-col'><a href='/w/Cook' title='Cook&#39;s Assistant'>Cook's Assistant</a></div>".

(** The page of three quests with the icon-first anchor put between the
    first two. *)
Definition page_with_failure : node :=
  document [div_col [cooks_anchor; icon_first_anchor; demon_anchor]].
Definition html_with_failure : pystr :=
  py "<div class='div-col'><a href='/w/Cook' title='Cook&#39;s Assistant'><span class='rs-qc-icon'><img class='qc-complete'></span>Cook's Assistant</a><a href='/w/Cook' title=''><span class='rs-qc-icon'><img class='qc-complete'></span>Cook's Assistant</a><a href='/w/Demon' title='Demon Slayer'><span class='rs-qc-icon'><img class='qc-not-started'></span>Demon Slayer</a></div>".

(** [<div class='div-col'><a href='/w/Cook' title='Cook&#39;s Assistant'>
    <span class='rs-qc-icon'><img class='qc-not-started qc-complete'></span>
    </a></div>]: both classes on the image. *)
Definition both_classes_anchor : node :=
  anchor "/w/Cook" "Cook's Assistant"
    [icon [img_with [py "qc-not-started"; py "qc-complete"]]].
Definition page_both_classes : node :=
  document [div_col [both_classes_anchor]].
Definition html_both_classes : pystr :=
  py "<div class='div-col'><a href='/w/Cook' title='Cook&#39;s Assistant'><span class='rs-qc-icon'><img class='qc-not-started qc-complete'></span></a></div>".

(** [<div class='div-col'><a href='/images/Cook.png' title='Cook&#39;s
    Assistant'><span class='rs-qc-icon'><img class='qc-not-started
    qc-complete'></span></a></div>]: both classes on the image of a link
    that does not lead to an article. *)
Definition both_classes_elsewhere_anchor : node :=
  anchor "/images/Cook.png" "Cook's Assistant"
    [icon [img_with [py "qc-not-started"; py "qc-complete"]]].
Definition page_both_classes_elsewhere : node :=
  document [div_col [both_classes_elsewhere_anchor]].
Definition html_both_classes_elsewhere : pystr :=
  py "<div class='div-col'><a href='/images/Cook.png' title='Cook&#39;s Assistant'><span class='rs-qc-icon'><img class='qc-not-started qc-complete'></span></a></div>".

(** [<div class='div-col'><a href='/w/Cook' title=''><span
    class='rs-qc-icon'><img class='qc-not-started qc-complete'></span>Cook's
    Assistant</a></div>]: both classes on the image, a blank title
    attribute, the icon first. *)
Definition both_classes_icon_first_anchor : node :=
  anchor "/w/Cook" ""
    [icon [img_with [py "qc-not-started"; py "qc-complete"]];
     text "Cook's Assistant"].
Definition page_both_classes_icon_first : node :=
  document [div_col [both_classes_icon_first_anchor]].
Definition html_both_classes_icon_first : pystr :=
  py "<div class='div-col'><a href='/w/Cook' title=''><span class='rs-qc-icon'><img class='qc-not-started qc-complete'></span>Cook's Assistant</a></div>".

(** [<div class='div-col'><a href='/w/Cook' title=''> Cook's Assistant <span
    class='rs-qc-icon'><img class='qc-not-started qc-complete'></span></a>
    </div>]: both classes on the image, a blank title attribute, the name
    first. *)
Definition both_classes_text_first_anchor : node :=
  anchor "/w/Cook" ""
    [text " Cook's Assistant ";
     icon [img_with [py "qc-not-started"; py "qc-complete"]]].
Definition page_both_classes_text_first : node :=
  document [div_col [both_classes_text_first_anchor]].
Definition html_both_classes_text_first : pystr :=
  py "<div class='div-col'><a href='/w/Cook' title=''> Cook's Assistant <span class='rs-qc-icon'><img class='qc-not-started qc-complete'></span></a></div>".

(** A link without its status icon: no [span.rs-qc-icon] below it, or no
    image below that span. *)
Definition lacks_icon (link : node) : Prop :=
  (exists href, attr_get link (py "href") = Some (AStr href)) /\
  (Forall (fun d => ~ icon_span d) (descendants link)
   \/ exists span,
        first_such icon_span (descendants link) span /\
        Forall (fun d => ~ is_element (py "img") d) (descendants span)).

(** The title attribute of a link is missing or blank. *)
Definition title_blank (link : node) : Prop :=
  attr_get link (py "title") = None
  \/ exists ttl, attr_get link (py "title") = Some (AStr ttl) /\ strip ttl = [].

(** How the title of an emitted record came about: from the title
    attribute, or, that one being blank, from the first child, or from the
    text of a link without children. *)
Inductive title_resolved (link : node) : pyval -> Prop :=
| title_from_attribute ttl :
    attr_get link (py "title") = Some (AStr ttl) -> strip ttl <> [] ->
    title_resolved link (VStr (strip ttl))
| title_from_first_child c0 rest t :
    title_blank link ->
    contents_of link = c0 :: rest -> child_strip c0 = Ok t ->
    title_resolved link t
| title_from_text :
    title_blank link ->
    contents_of link = [] -> title_resolved link (VStr (get_text_strip link)).

(* ================================================================== *)
(** ** Describing runs *)

(** The world after [time.sleep(ms / 1000)]. *)
Definition pause {B} (env : environment B) (ms : nat) (w : world B) : world B :=
  {| browser := elapse env ms (browser w); trace := trace w ++ [ASleep ms] |}.

(** The world after a failed attempt that is followed by another one: the
    failure is logged, then the script sleeps two seconds. *)
Definition retry_pause {B} (env : environment B) (attempt : nat)
    (username : pystr) (e : exception) (w : world B) : world B :=
  pause env 2000 (emit [ALog (LogAttemptFailed attempt username e)] w).

(** The world after the main loop has given up on a user. *)
Definition next_user {B} (env : environment B) (username : pystr)
    (w : world B) : world B :=
  pause env 2000 (emit [ALog (LogFetchFailed username)] w).

(** [m] only ever adds actions that satisfy [P] to the trace. *)
Definition adds {B A} (P : action -> bool) (m : M B A) : Prop :=
  forall w r w',
    m w = (r, w') -> exists t, trace w' = trace w ++ t /\ forallb P t = true.

(** The actions of one round trip, after the navigation. *)
Definition attempt_step (a : action) : bool :=
  match a with
  | ACall (WaitUntil _ _ _ | ElemClear _ | ElemSendKeys _ _
          | ElemGetAttribute _ _ | ElemClick _ | ExecuteScript _ _
          | PageSource) => true
  | ASleep ms => (ms =? 500) || (ms =? 5000)
  | _ => false
  end.

Definition is_navigation (a : action) : bool :=
  match a with ACall (DriverGet _) => true | _ => false end.

(** The number of attempts made: each one opens with [driver.get]. *)
Definition attempts_made (t : list action) : nat :=
  List.length (filter is_navigation t).

Definition is_quit (a : action) : bool :=
  match a with ACall DriverQuit => true | _ => false end.

Definition is_json_dump (a : action) : bool :=
  match a with ACall (JsonDump _ _) => true | _ => false end.

(** What [fetch_and_interact] can do: navigate, the steps of a round trip,
    log a failed attempt, sleep two seconds. *)
Definition fetch_step (a : action) : bool :=
  attempt_step a || is_navigation a ||
  match a with
  | ALog (LogAttemptFailed _ _ _) => true
  | ASleep ms => ms =? 2000
  | _ => false
  end.

(** What the processing of the users can do: everything but start or quit
    the browser. *)
Definition loop_step (a : action) : bool :=
  match a with
  | ACall (ChromeStart | DriverQuit | ImplicitlyWait _) => false
  | _ => true
  end.


(** A browser for the examples.  Its state is the text in the username
    field; [results] is what waiting for the results container gives, and
    [echo] what reading the field back gives. *)
Definition sample_page_source : pystr :=
  py "<html><body><div class='div-col'></div></body></html>".

Definition scripted (results : result elem) (echo : pystr -> option pystr)
  : environment pystr :=
  {| respond := fun c =>
       match c as c0 return pystr -> result (reply c0) * pystr with
       | ChromeStart => fun b => (Return tt, b)
       | DriverGet _ => fun _ => (Return tt, [])
       | ImplicitlyWait _ => fun b => (Return tt, b)
       | WaitUntil _ cnd _ =>
           fun b =>
             (match cnd with
              | presence_of_element_located => results
              | _ => Return 0%N
              end, b)
       | ElemClear _ => fun _ => (Return tt, [])
       | ElemSendKeys _ keys => fun b => (Return tt, b ++ keys)
       | ElemGetAttribute _ _ => fun b => (Return (echo b), b)
       | ElemClick _ => fun b => (Return tt, b)
       | ExecuteScript _ _ => fun b => (Return tt, b)
       | PageSource => fun b => (Return sample_page_source, b)
       | DriverQuit => fun b => (Return tt, b)
       | JsonDump _ _ => fun b => (Return tt, b)
       end;
     elapse := fun _ b => b |}.

(** The results container never shows up. *)
Definition results_time_out : environment pystr :=
  scripted (Raised (Exc TimeoutException)) Some.

(** The user interrupts the wait for the results container. *)
Definition interrupted : environment pystr :=
  scripted (Raised KeyboardInterrupt) Some.

(** The input field gives back nothing. *)
Definition echo_lost : environment pystr :=
  scripted (Return 0%N) (fun _ => None).

(** The input field always reads [Zezima]. *)
Definition echo_zezima : environment pystr :=
  scripted (Return 0%N) (fun _ => Some (py "Zezima")).

Definition started : world pystr := {| browser := []; trace := [] |}.

(** Alice's three attempts against [results_time_out]: the worlds in which
    each of them ends. *)
Definition alice_first : world pystr :=
  snd (QuestScraper.interaction results_time_out TARGET_URL (py "Alice")
         started).
Definition alice_second : world pystr :=
  snd (QuestScraper.interaction results_time_out TARGET_URL (py "Alice")
         (retry_pause results_time_out 1 (py "Alice") TimeoutException
            alice_first)).
Definition alice_third : world pystr :=
  snd (QuestScraper.interaction results_time_out TARGET_URL (py "Alice")
         (retry_pause results_time_out 2 (py "Alice") TimeoutException
            alice_second)).





(* ================================================================== *)
(** ** The usernames file (QuestScraper.py, lines 258-285) *)

(** What [json.load] can return. *)
Inductive json :=
| JNull
| JBool (b : bool)
| JNumber (literal : pystr)
| JString (s : pystr)
| JArray (items : list json)
| JObject (members : list (pystr * json)).

(** What the script finds when it turns to [usernames.json]: no such file,
    a file [json.load] cannot decode, anything else going wrong while it
    is opened and read, or a JSON value. *)
Inductive usernames_file :=
| NotFound
| Undecodable
| Unreadable (e : exception)
| Holds (v : json).

(** The messages the loader hands to [log_error]. *)
Inductive load_message :=
| UsernamesFileNotFound
| UsernamesNotAList
| UsernamesNotAllStrings
| UsernamesDecodeError
| UsernamesReadError (e : exception).

(** [all(isinstance(u, str) for u in usernames)], with the strings. *)
Fixpoint strings_of (items : list json) : option (list pystr) :=
  match items with
  | [] => Some []
  | JString s :: rest =>
      match strings_of rest with
      | Some l => Some (s :: l)
      | None => None
      end
  | _ :: _ => None
  end.

(** Lines 258-285: the list the processing starts from, and what was
    logged on the way. *)
Definition load_usernames (file : usernames_file)
  : list pystr * list load_message :=
  match file with
  | NotFound => ([], [UsernamesFileNotFound])
  | Undecodable => ([], [UsernamesDecodeError])
  | Unreadable e => ([], [UsernamesReadError e])
  | Holds (JArray items) =>
      match strings_of items with
      | Some usernames => (usernames, [])
      | None => ([], [UsernamesNotAllStrings])
      end
  | Holds _ => ([], [UsernamesNotAList])
  end.

(** The main block of the batch script from its first line: load the
    usernames, handing what goes wrong to [log_error] (lines 258-285),
    then process them (lines 288-324).  The value is what the loader has
    logged, and the run that follows it. *)
Definition batch_script {B} (env : environment B)
    (BeautifulSoup : pystr -> outcome node) (ucd : N -> bool)
    (file : usernames_file) (w : world B)
  : list load_message * (result unit * world B) :=
  let (usernames, logged) := load_usernames file in
  (logged, QuestScraper.main env BeautifulSoup ucd usernames w).

(* ================================================================== *)
(** ** Describing runs, continued *)

(** A status that may be written out. *)
Definition status_ok (q : quest) : bool :=
  pystr_eqb (status q) (py "complete")
  || pystr_eqb (status q) (py "not started").

(** What the main loop does for [username] once the driver is back: log
    what parsing, saving or the failed fetch have to say, sleep two
    seconds, and write that user's file with records in it. *)
Definition user_step (ucd : N -> bool) (username : pystr) (a : action) : bool :=
  match a with
  | ALog (LogNoContainers _ | LogLinkError _ _ _ | LogMajorParseError _ _
          | LogWriteError _ _ | LogSaveError _ _ | LogFetchFailed _) => true
  | ASleep ms => ms =? 2000
  | ACall (JsonDump filename data) =>
      pystr_eqb filename (OUTPUT_FILENAME_TEMPLATE (safe_username ucd username))
      && negb (Nat.eqb (List.length data) 0)
      && forallb status_ok data
  | _ => false
  end.

(** What the main loop does for a list of users. *)
Definition batch_step (ucd : N -> bool) (usernames : list pystr) (a : action)
  : bool :=
  fetch_step a || existsb (fun u => user_step ucd u a) usernames.

(** Anything but starting or quitting the browser. *)
Definition inside_session (a : action) : bool :=
  match a with
  | ACall (ChromeStart | DriverQuit) => false
  | _ => true
  end.

(** A character [safe_username] lets through. *)
Definition filename_char (ucd : N -> bool) (c : N) : bool :=
  (str_isalnum ucd c || (c =? 45) || (c =? 95))%N.

(** The results container shows up at the second attempt: the browser
    counts the navigations. *)
Definition second_time_lucky : environment nat :=
  {| respond := fun c =>
       match c as c0 return nat -> result (reply c0) * nat with
       | ChromeStart => fun b => (Return tt, b)
       | DriverGet _ => fun b => (Return tt, S b)
       | ImplicitlyWait _ => fun b => (Return tt, b)
       | WaitUntil _ cnd _ =>
           fun b =>
             (match cnd with
              | presence_of_element_located =>
                  if b <? 2 then Raised (Exc TimeoutException)
                  else Return 0%N
              | _ => Return 0%N
              end, b)
       | ElemClear _ => fun b => (Return tt, b)
       | ElemSendKeys _ _ => fun b => (Return tt, b)
       | ElemGetAttribute _ _ => fun b => (Return (Some (py "Zezima")), b)
       | ElemClick _ => fun b => (Return tt, b)
       | ExecuteScript _ _ => fun b => (Return tt, b)
       | PageSource => fun b => (Return sample_page_source, b)
       | DriverQuit => fun b => (Return tt, b)
       | JsonDump _ _ => fun b => (Return tt, b)
       end;
     elapse := fun _ b => b |}.

(** The browser cannot be started. *)
Definition no_browser (e : exception) : environment unit :=
  {| respond := fun c =>
       match c as c0 return unit -> result (reply c0) * unit with
       | ChromeStart => fun b => (Raised (Exc e), b)
       | DriverGet _ => fun b => (Return tt, b)
       | ImplicitlyWait _ => fun b => (Return tt, b)
       | WaitUntil _ _ _ => fun b => (Return 0%N, b)
       | ElemClear _ => fun b => (Return tt, b)
       | ElemSendKeys _ _ => fun b => (Return tt, b)
       | ElemGetAttribute _ _ => fun b => (Return None, b)
       | ElemClick _ => fun b => (Return tt, b)
       | ExecuteScript _ _ => fun b => (Return tt, b)
       | PageSource => fun b => (Return [], b)
       | DriverQuit => fun b => (Return tt, b)
       | JsonDump _ _ => fun b => (Return tt, b)
       end;
     elapse := fun _ b => b |}.

(** The messages [parse_data] can log. *)
Definition parse_entry (en : log_entry) : bool :=
  match en with
  | LogNoContainers _ | LogLinkError _ _ _ | LogMajorParseError _ _ => true
  | _ => false
  end.

(** A parser that knows one page: it answers the page of three quests to
    [sample_page_source], and raises on anything else. *)
Definition sample_parser (html : pystr) : outcome node :=
  if pystr_eqb html sample_page_source then Ok page_three_quests
  else Err (OtherException 1).

(** What one call of the single-run driver leaves behind: one navigation,
    no file, no [Exception], and a log entry exactly for a failure. *)
Definition single_run_account {B} (w : world B)
    (run : result (option pystr) * world B) : Prop :=
  exists t,
    trace (snd run) = trace w ++ t
    /\ attempts_made t = 1
    /\ existsb is_json_dump t = false
    /\ match fst run with
       | Return (Some _) => log_of t = []
       | Return None => List.length (log_of t) = 1
       | Raised (Exc _) => False
       | Raised _ => log_of t = []
       end.

Unset Implicit Arguments.

(* ================================================================== *)
(** ** Strings: basic facts *)

Lemma pystr_eqb_eq (a b : pystr) : pystr_eqb a b = true <-> a = b.
Proof.
  revert b; induction a as [|x a IH]; intros [|y b]; simpl; split;
    try congruence; try reflexivity.
  - intros H. apply andb_true_iff in H as [Hx Hab].
    apply N.eqb_eq in Hx. apply IH in Hab. congruence.
  - intros H. injection H as -> ->.
    rewrite N.eqb_refl. simpl. now apply IH.
Qed.

Lemma pystr_eqb_refl (a : pystr) : pystr_eqb a a = true.
Proof. now apply pystr_eqb_eq. Qed.

Lemma pystr_eqb_neq (a b : pystr) : pystr_eqb a b = false <-> a <> b.
Proof.
  split.
  - intros H Heq. apply pystr_eqb_eq in Heq. congruence.
  - intros H. destruct (pystr_eqb a b) eqn:E; [|reflexivity].
    apply pystr_eqb_eq in E. contradiction.
Qed.

Lemma existsb_pystr_In (x : pystr) (l : list pystr) :
  existsb (pystr_eqb x) l = true <-> In x l.
Proof.
  rewrite existsb_exists. split.
  - intros [y [Hy E]]. apply pystr_eqb_eq in E. now subst.
  - intros H. exists x. split; [assumption | apply pystr_eqb_refl].
Qed.

Lemma existsb_pystr_not_In (x : pystr) (l : list pystr) :
  existsb (pystr_eqb x) l = false <-> ~ In x l.
Proof.
  rewrite <- existsb_pystr_In. destruct (existsb _ l); split; congruence.
Qed.

Lemma lstrip_head (s : pystr) :
  match lstrip s with
  | [] => True
  | c :: _ => isspace c = false
  end.
Proof.
  induction s as [|c s IH]; simpl; [exact I|].
  destruct (isspace c) eqn:E; [exact IH | exact E].
Qed.

Lemma lstrip_suffix (s : pystr) : exists p, s = p ++ lstrip s.
Proof.
  induction s as [|c s [p Hp]]; simpl.
  - now exists [].
  - destruct (isspace c).
    + exists (c :: p). simpl. now f_equal.
    + now exists [].
Qed.

(** [lstrip] leaves a string alone once its first character is not a
    space. *)
Lemma lstrip_fixed (s : pystr) :
  match s with [] => True | c :: _ => isspace c = false end -> lstrip s = s.
Proof. destruct s as [|c s]; simpl; [reflexivity|]. now intros ->. Qed.

(** A string with no white space at either end. *)
Definition trimmed (s : pystr) : Prop :=
  match s with [] => True | c :: _ => isspace c = false end /\
  match rev s with [] => True | c :: _ => isspace c = false end.

Lemma strip_trimmed (s : pystr) : trimmed (strip s).
Proof.
  unfold trimmed, strip, rstrip. split.
  - pose proof (lstrip_head s) as Hh.
    destruct (lstrip_suffix (rev (lstrip s))) as [p Hp].
    assert (Hs : lstrip s = rev (lstrip (rev (lstrip s))) ++ rev p).
    { rewrite <- rev_app_distr, <- Hp. now rewrite rev_involutive. }
    destruct (rev (lstrip (rev (lstrip s)))) as [|c r] eqn:E; [exact I|].
    rewrite Hs in Hh. exact Hh.
  - rewrite rev_involutive. apply lstrip_head.
Qed.

Lemma strip_of_trimmed (s : pystr) : trimmed s -> strip s = s.
Proof.
  intros [Hl Hr]. unfold strip, rstrip.
  rewrite (lstrip_fixed s Hl), (lstrip_fixed (rev s) Hr).
  apply rev_involutive.
Qed.

(* ================================================================== *)
(** ** Worlds and traces: basic facts *)

Lemma emit_nil {B} (w : world B) : emit [] w = w.
Proof. destruct w. unfold emit. simpl. now rewrite app_nil_r. Qed.

Lemma emit_emit {B} (t1 t2 : list action) (w : world B) :
  emit t2 (emit t1 w) = emit (t1 ++ t2) w.
Proof. unfold emit. simpl. now rewrite app_assoc. Qed.

Lemma log_of_app (t1 t2 : list action) :
  log_of (t1 ++ t2) = log_of t1 ++ log_of t2.
Proof. unfold log_of. apply flat_map_app. Qed.

Lemma log_of_logs (l : list log_entry) : log_of (List.map ALog l) = l.
Proof. induction l as [|e l IH]; simpl; [reflexivity | now rewrite IH]. Qed.

(* ================================================================== *)
(** ** [parse_data]: the loops unrolled *)

Lemma link_body_app (link : node) (sd : list quest) :
  link_body link sd =
  match link_body link [] with
  | Ok l => Ok (sd ++ l)
  | Err e => Err e
  end.
Proof.
  unfold link_body, obind.
  repeat match goal with
         | |- context [match ?x with _ => _ end] =>
             lazymatch x with
             | context [match _ with _ => _ end] => fail
             | _ => destruct x
             end
         end; simpl; try reflexivity; now rewrite ?app_nil_r.
Qed.

Section ParseFacts.
Context {B : Type}.
Variable BeautifulSoup : pystr -> outcome node.
Variable user : option pystr.

Lemma for_links_unrolled (links : list node) (st : locals) (w : world B) :
  for_links user links st w =
  (Return {| scraped_data := scraped_data st ++ flat_map link_quests links;
             total_links_found := total_links_found st;
             parsing_errors :=
               parsing_errors st
               + List.length (flat_map (link_logs user) links) |},
   emit (List.map ALog (flat_map (link_logs user) links)) w).
Proof.
  revert st w. induction links as [|link rest IH]; intros st w; simpl.
  - unfold ret. rewrite emit_nil, app_nil_r, Nat.add_0_r.
    now destruct st.
  - unfold bind, try_except, eval.
    rewrite (link_body_app link (scraped_data st)).
    assert (Hq : link_quests link =
                 match link_body link [] with Ok l => l | Err _ => [] end)
      by reflexivity.
    assert (Hl : link_logs user link =
                 match link_body link [] with
                 | Ok _ => []
                 | Err e => [LogLinkError user e link]
                 end) by reflexivity.
    rewrite Hq, Hl. clear Hq Hl.
    destruct (link_body link []) as [l|e]; simpl.
    + rewrite IH. simpl. now rewrite app_assoc.
    + unfold log_error, ret, raise; simpl. rewrite IH. simpl.
      unfold emit; simpl. rewrite <- app_assoc. simpl.
      do 3 f_equal. lia.
Qed.

Lemma for_containers_unrolled (cs : list node) (st : locals) (w : world B) :
  exists st',
    for_containers user cs st w =
    (Return st',
     emit (List.map ALog
             (flat_map (link_logs user) (flat_map quest_links_of cs))) w)
    /\ scraped_data st' =
       scraped_data st
       ++ flat_map link_quests (flat_map quest_links_of cs).
Proof.
  revert st w. induction cs as [|c cs IH]; intros st w; simpl.
  - exists st. unfold ret. now rewrite emit_nil, app_nil_r.
  - unfold bind. rewrite for_links_unrolled. simpl.
    match goal with
    | |- context [for_containers user cs ?s ?w'] =>
        destruct (IH s w') as [st' [Hrun Hsd]]
    end.
    exists st'. split.
    + rewrite Hrun, emit_emit.
      now rewrite !flat_map_app, map_app.
    + rewrite Hsd. simpl. now rewrite !flat_map_app, app_assoc.
Qed.

(** [parse_data] in one equation. *)
Lemma parse_data_unrolled (html : pystr) (w : world B) :
  parse_data_for BeautifulSoup user html w =
  match html with
  | [] => (Return [], w)
  | _ =>
      match BeautifulSoup html with
      | Err e => (Return [], emit [ALog (LogMajorParseError user e)] w)
      | Ok soup =>
          match quest_containers_of soup with
          | [] => (Return [], emit [ALog (LogNoContainers user)] w)
          | _ =>
              (Return (flat_map link_quests (quest_anchors soup)),
               emit (List.map ALog
                       (flat_map (link_logs user) (quest_anchors soup))) w)
          end
      end
  end.
Proof.
  destruct html as [|c html]; [reflexivity|].
  unfold parse_data_for, try_except, bind, eval, quest_anchors.
  fold (quest_containers_of).
  destruct (BeautifulSoup (c :: html)) as [soup|e]; simpl.
  - unfold quest_containers_of.
    destruct (find_all (py "div") (class_matches (py "div-col")) soup)
      as [|c0 cs] eqn:E.
    + reflexivity.
    + match goal with
      | |- context [for_containers user ?l ?s ?w'] =>
          destruct (for_containers_unrolled l s w') as [st' [Hrun Hsd]]
      end.
      rewrite Hrun. unfold ret. now rewrite Hsd.
  - reflexivity.
Qed.
End ParseFacts.

(* ================================================================== *)
(** ** The tree: [find] and [find_all] against the description *)

Lemma tag_named_iff (nm : pystr) (d : node) :
  tag_named nm d = true <-> is_element nm d.
Proof.
  destruct d as [k s|nm' attrs cs]; simpl; split.
  - discriminate.
  - intros [a [c H]]. discriminate.
  - intros H. apply pystr_eqb_eq in H. subst. now exists attrs, cs.
  - intros [a [c H]]. injection H as -> _ _. apply pystr_eqb_refl.
Qed.

Lemma join_space_In (cls : pystr) (l : list pystr) :
  cls <> [] -> ~ In 32%N cls -> cls = join (py " ") l -> In cls l.
Proof.
  intros Hne Hsp Hj. destruct l as [|x [|y l]].
  - simpl in Hj. contradiction.
  - simpl in Hj. subst. now left.
  - exfalso. apply Hsp. rewrite Hj.
    change (join (py " ") (x :: y :: l))
      with (x ++ py " " ++ join (py " ") (y :: l)).
    apply in_or_app. right. now left.
Qed.

Lemma class_matches_iff (cls : pystr) (d : node) :
  cls <> [] -> ~ In 32%N cls ->
  class_matches cls d = true <-> has_class cls d.
Proof.
  intros Hne Hsp. unfold class_matches.
  destruct d as [k s|nm attrs cs]; simpl.
  - split; [discriminate | intros H; inversion H].
  - destruct (assoc (py "class") attrs) as [[s|l]|] eqn:E.
    + split.
      * intros H. apply pystr_eqb_eq in H. subst.
        now apply has_class_as_string.
      * intros H. inversion H; subst; try congruence.
        assert (s = cls) by congruence. subst. apply pystr_eqb_refl.
    + split.
      * intros H. apply orb_true_iff in H as [H|H].
        -- apply existsb_pystr_In in H. eapply has_class_in_list; eauto.
        -- apply pystr_eqb_eq in H.
           eapply has_class_in_list; eauto.
           now apply join_space_In.
      * intros H. inversion H; subst; try congruence.
        assert (l0 = l) by congruence. subst.
        apply orb_true_iff. left. now apply existsb_pystr_In.
    + split; [discriminate | intros H; inversion H; congruence].
Qed.

Lemma icon_span_iff (d : node) :
  tag_named (py "span") d && class_matches (py "rs-qc-icon") d = true
  <-> icon_span d.
Proof.
  unfold icon_span. rewrite andb_true_iff, tag_named_iff.
  rewrite class_matches_iff; [tauto | discriminate |].
  vm_compute. intuition discriminate.
Qed.

Lemma marker_container_iff (d : node) :
  tag_named (py "div") d && class_matches (py "div-col") d = true
  <-> marker_container d.
Proof.
  unfold marker_container. rewrite andb_true_iff, tag_named_iff.
  rewrite class_matches_iff; [tauto | discriminate |].
  vm_compute. intuition discriminate.
Qed.

Lemma img_iff (d : node) :
  tag_named (py "img") d && no_filter d = true <-> is_element (py "img") d.
Proof. unfold no_filter. now rewrite andb_true_r, tag_named_iff. Qed.

Section FirstMatch.
Variable f : node -> bool.
Variable P : node -> Prop.
Hypothesis f_P : forall d, f d = true <-> P d.

Lemma filter_first (l : list node) (x : node) :
  first_such P l x -> hd_error (filter f l) = Some x.
Proof.
  induction 1 as [d l Hd|d l x Hd _ IH]; simpl.
  - apply f_P in Hd. now rewrite Hd.
  - destruct (f d) eqn:E; [|exact IH].
    apply f_P in E. contradiction.
Qed.

Lemma filter_none (l : list node) :
  Forall (fun d => ~ P d) l <-> filter f l = [].
Proof.
  induction l as [|d l IH]; simpl.
  - split; [reflexivity | constructor].
  - destruct (f d) eqn:E.
    + split; [|discriminate].
      intros H. inversion H; subst. apply f_P in E. contradiction.
    + rewrite <- IH. split.
      * intros H. now inversion H.
      * intros H. constructor; [|assumption].
        intros HP. apply f_P in HP. congruence.
Qed.

Lemma first_of_filter (l : list node) (x : node) :
  hd_error (filter f l) = Some x -> first_such P l x.
Proof.
  induction l as [|d l IH]; simpl; [discriminate|].
  destruct (f d) eqn:E; simpl.
  - intros H. injection H as <-. constructor. now apply f_P.
  - intros H. apply first_later; [|now apply IH].
    intros HP. apply f_P in HP. congruence.
Qed.
End FirstMatch.

Lemma find_icon_span (link span : node) :
  first_such icon_span (descendants link) span ->
  find (py "span") (class_matches (py "rs-qc-icon")) link = Some span.
Proof. apply filter_first. apply icon_span_iff. Qed.

Lemma find_icon_span_none (link : node) :
  Forall (fun d => ~ icon_span d) (descendants link) ->
  find (py "span") (class_matches (py "rs-qc-icon")) link = None.
Proof.
  intros H. unfold find, find_all.
  apply (proj1 (filter_none _ _ icon_span_iff _)) in H. now rewrite H.
Qed.

Lemma find_img (span img : node) :
  first_such (is_element (py "img")) (descendants span) img ->
  find (py "img") no_filter span = Some img.
Proof. apply filter_first. apply img_iff. Qed.

Lemma find_img_none (span : node) :
  Forall (fun d => ~ is_element (py "img") d) (descendants span) ->
  find (py "img") no_filter span = None.
Proof.
  intros H. unfold find, find_all.
  apply (proj1 (filter_none _ _ img_iff _)) in H. now rewrite H.
Qed.

Lemma no_marker_container (soup : node) :
  Forall (fun d => ~ marker_container d) (descendants soup) <->
  quest_containers_of soup = [].
Proof. apply filter_none. apply marker_container_iff. Qed.

(* ================================================================== *)
(** ** One link *)

Lemma complete_known : pystr_eqb (py "complete") (py "unknown") = false.
Proof. reflexivity. Qed.

Lemma not_started_known : pystr_eqb (py "not started") (py "unknown") = false.
Proof. reflexivity. Qed.

Lemma unknown_unknown : pystr_eqb (py "unknown") (py "unknown") = true.
Proof. reflexivity. Qed.

Ltac break_link_body :=
  repeat match goal with
         | |- context [match ?x with _ => _ end] =>
             lazymatch x with
             | context [match _ with _ => _ end] => fail
             | _ => destruct x eqn:?
             end
         end.

(** A link that stands for a record runs through the body without an
    exception and appends that record. *)
Lemma record_for_body (link : node) (q : quest) :
  record_for link q -> link_body link [] = Ok [q].
Proof.
  intros H. destruct H as [href ttl img l s Hhref Hw Httl Hne [span [Hs Hi]] Hl Hr].
  unfold link_body, getitem, obind. rewrite Hhref. unfold val_startswith.
  cbv iota. rewrite Hw.
  rewrite (find_icon_span _ _ Hs), (find_img _ _ Hi), Httl.
  unfold val_strip. cbv iota.
  destruct (strip ttl) as [|c t] eqn:Et; [contradiction|].
  assert (Hcls : match attr_get img (py "class") with
                 | Some v => v
                 | None => AList []
                 end = AList l).
  { destruct Hl as [l Hl|Hl]; now rewrite Hl. }
  rewrite Hcls. unfold py_in.
  destruct Hr as [Hc|Hc Hn].
  - apply existsb_pystr_In in Hc. rewrite Hc, complete_known. reflexivity.
  - apply existsb_pystr_not_In in Hc. apply existsb_pystr_In in Hn.
    rewrite Hc, Hn, not_started_known. reflexivity.
Qed.

Lemma record_for_quests (link : node) (q : quest) :
  record_for link q -> link_quests link = [q].
Proof. intros H. unfold link_quests. now rewrite (record_for_body _ _ H). Qed.

Lemma record_for_logs (user : option pystr) (link : node) (q : quest) :
  record_for link q -> link_logs user link = [].
Proof. intros H. unfold link_logs. now rewrite (record_for_body _ _ H). Qed.

Lemma record_for_status (link : node) (q : quest) :
  record_for link q ->
  status q = py "complete" \/ status q = py "not started".
Proof.
  intros H. destruct H as [href ttl img l s _ _ _ _ _ _ Hr]. simpl.
  destruct Hr; [now left | now right].
Qed.

(** A link that stands for no record adds none, whether or not its title
    can be resolved. *)
Lemma no_record_quests (link : node) : no_record link -> link_quests link = [].
Proof.
  intros H. unfold link_quests, link_body, getitem, obind.
  destruct H as [href Hhref Hw|href Hhref Hs|href span Hhref Hs Hi
                |href img l Hhref [span [Hs Hi]] Hl Hc Hn];
    rewrite Hhref; unfold val_startswith; cbv iota.
  - now rewrite Hw.
  - rewrite (find_icon_span_none _ Hs). now destruct (startswith _ href).
  - rewrite (find_icon_span _ _ Hs), (find_img_none _ Hi).
    now destruct (startswith _ href).
  - rewrite (find_icon_span _ _ Hs), (find_img _ _ Hi).
    assert (Hcls : match attr_get img (py "class") with
                   | Some v => v
                   | None => AList []
                   end = AList l).
    { destruct Hl as [l Hl|Hl]; now rewrite Hl. }
    rewrite Hcls. unfold py_in.
    apply existsb_pystr_not_In in Hc. apply existsb_pystr_not_In in Hn.
    rewrite Hc, Hn, unknown_unknown. simpl negb. cbv iota.
    break_link_body; reflexivity.
Qed.

Lemma sorted_out_quests (anchors kept : list node) :
  sorted_out anchors kept ->
  Forall2 record_for kept (flat_map link_quests anchors).
Proof.
  induction 1 as [|a q l kept Hq _ IH|a l kept Hn _ IH]; simpl.
  - constructor.
  - rewrite (record_for_quests _ _ Hq). simpl. now constructor.
  - now rewrite (no_record_quests _ Hn).
Qed.

Lemma Forall2_length_eq {A C} (R : A -> C -> Prop) (l : list A) (m : list C) :
  Forall2 R l m -> List.length m = List.length l.
Proof. induction 1; simpl; congruence. Qed.

(* ================================================================== *)
(** ** The Result Extractor *)

(** C5, the claim as stated, at the empty string: [parse_data] returns the
    empty list before anything is parsed, and the log is left as it was; no
    warning is written. *)
Lemma empty_string_logs_nothing :
  descendants empty_document = []
  /\ QuestScraper.parse_data (parser_giving empty_document) [] (py "Zezima")
       fresh = (Return [], fresh)
  /\ log_of (trace fresh) = [].
Proof. repeat split. Qed.

(** C5, amended: for every non-empty markup whose tree holds no
    [div.div-col] element, [parse_data] returns the empty list and hands
    exactly one message, the structural warning, to the error log; for the
    empty string it returns the empty list and logs nothing. *)
Theorem parse_data_without_containers :
  forall (B : Type) (BeautifulSoup : pystr -> outcome node)
         (html username : pystr) (soup : node) (w : world B),
    html <> [] ->
    BeautifulSoup html = Ok soup ->
    Forall (fun d => ~ marker_container d) (descendants soup) ->
    QuestScraper.parse_data BeautifulSoup html username w
    = (Return [], emit [ALog (LogNoContainers (Some username))] w)
    /\ QuestScraper.parse_data BeautifulSoup [] username w = (Return [], w).
Proof.
  intros B bs html username soup w Hne Hparse Hnone.
  unfold QuestScraper.parse_data. rewrite !parse_data_unrolled.
  split; [|reflexivity].
  destruct html as [|c html]; [contradiction|].
  rewrite Hparse.
  apply no_marker_container in Hnone. now rewrite Hnone.
Qed.

Lemma parse_data_without_containers_witness :
  html_no_container <> []
  /\ parser_giving page_no_container html_no_container = Ok page_no_container
  /\ Forall (fun d => ~ marker_container d) (descendants page_no_container)
  /\ QuestScraper.parse_data (parser_giving page_no_container)
       html_no_container (py "Zezima") fresh
     = (Return [], emit [ALog (LogNoContainers (Some (py "Zezima")))] fresh).
Proof.
  assert (Hne : html_no_container <> []) by discriminate.
  assert (Hnone : Forall (fun d => ~ marker_container d)
                    (descendants page_no_container)).
  { apply no_marker_container. reflexivity. }
  split; [exact Hne|]. split; [reflexivity|]. split; [exact Hnone|].
  exact (proj1 (parse_data_without_containers unit
                  (parser_giving page_no_container) html_no_container
                  (py "Zezima") page_no_container fresh Hne eq_refl Hnone)).
Defined.

(** C1, the claim as stated, on a page whose one anchor has an href under
    [/w/], a title, and an icon span containing an image of class
    [qc-complete]: the anchor is well formed in the words of the claim, and
    [parse_data] returns no record, because it reads the class of the first
    image of the span only. *)
Lemma second_image_is_ignored :
  quest_anchors page_second_image = [second_image_anchor]
  /\ well_formed_as_specified second_image_anchor
  /\ QuestScraper.parse_data (parser_giving page_second_image)
       html_second_image (py "Zezima") fresh = (Return [], fresh).
Proof.
  split; [reflexivity|]. split; [|reflexivity].
  split; [exists (py "/w/Cook"); split; reflexivity|].
  split; [eexists; reflexivity|].
  exists (icon [img_with [py "icon"]; img_with [py "qc-complete"]]),
         (img_with [py "qc-complete"]), [py "qc-complete"].
  split; [simpl; auto|].
  split.
  { split; [eexists; eexists; reflexivity|].
    eapply has_class_in_list; [reflexivity | now left]. }
  split; [simpl; auto|].
  split; [eexists; eexists; reflexivity|].
  split; [now constructor | left; now left].
Qed.

(** C1, amended: let the anchors enumerated in the marker containers
    (container by container, in document order) be sorted into those that
    stand for a record -- the href is a string under [/w/], the title
    attribute is not blank, and the first image of the first
    [span.rs-qc-icon] carries [qc-complete] or [qc-not-started] -- and
    those that stand for none (href elsewhere, no icon span, no image in
    it, or an image with neither class).  Then [parse_data], in both
    scripts, returns exactly one record per anchor of the first kind, in
    their order, with the trimmed title attribute and the status
    [complete] for [qc-complete], else [not started]; no record has the
    status [unknown]. *)
Theorem parse_data_well_formed_anchors :
  forall (B : Type) (BeautifulSoup : pystr -> outcome node)
         (html username : pystr) (soup : node) (kept : list node)
         (w : world B),
    html <> [] ->
    BeautifulSoup html = Ok soup ->
    sorted_out (quest_anchors soup) kept ->
    exists rs,
      fst (QuestScraper.parse_data BeautifulSoup html username w) = Return rs
      /\ fst (QuestScraperSingelRun.parse_data BeautifulSoup html w) = Return rs
      /\ Forall2 record_for kept rs
      /\ List.length rs = List.length kept
      /\ Forall (fun q => status q <> py "unknown") rs.
Proof.
  intros B bs html username soup kept w Hne Hparse Hsorted.
  pose proof (sorted_out_quests _ _ Hsorted) as Hrec.
  exists (flat_map link_quests (quest_anchors soup)).
  unfold QuestScraper.parse_data, QuestScraperSingelRun.parse_data.
  rewrite !parse_data_unrolled.
  destruct html as [|c html]; [contradiction|].
  rewrite Hparse.
  assert (Hret : forall t1 t2 : list action,
             fst (match quest_containers_of soup with
                  | [] => (Return (@nil quest), emit t1 w)
                  | _ :: _ =>
                      (Return (flat_map link_quests (quest_anchors soup)),
                       emit t2 w)
                  end)
             = Return (flat_map link_quests (quest_anchors soup))).
  { intros t1 t2. unfold quest_anchors.
    destruct (quest_containers_of soup); reflexivity. }
  repeat split.
  - apply Hret.
  - apply Hret.
  - exact Hrec.
  - exact (Forall2_length_eq _ _ _ Hrec).
  - clear Hret Hsorted. revert Hrec.
    generalize (flat_map link_quests (quest_anchors soup)).
    intros rs Hrec.
    induction Hrec as [|a q kept' rs Hq _ IH]; constructor.
    + destruct (record_for_status _ _ Hq) as [E|E]; rewrite E; discriminate.
    + exact IH.
Qed.

Lemma icon_is_icon_span (cs : list node) : icon_span (icon cs).
Proof.
  split; [eexists; eexists; reflexivity|].
  eapply has_class_in_list; [reflexivity | now left].
Qed.

Lemma img_with_is_img (l : list pystr) : is_element (py "img") (img_with l).
Proof. eexists; eexists; reflexivity. Qed.

Lemma anchor_status_image (href ttl : string) (l : list pystr)
    (more after : list node) :
  status_image (anchor href ttl (icon (img_with l :: more) :: after))
    (img_with l).
Proof.
  exists (icon (img_with l :: more)). split.
  - apply first_here. apply icon_is_icon_span.
  - apply first_here. apply img_with_is_img.
Qed.

Lemma three_quests_sorted :
  sorted_out (quest_anchors page_three_quests) [cooks_anchor; demon_anchor].
Proof.
  change (quest_anchors page_three_quests)
    with [cooks_anchor; demon_anchor; dragon_anchor].
  eapply sorted_keep.
  { eapply record_for_intro
      with (href := py "/w/Cook") (ttl := py "Cook's Assistant")
           (img := img_with [py "qc-complete"]) (l := [py "qc-complete"])
           (s := py "complete").
    - reflexivity.
    - reflexivity.
    - reflexivity.
    - discriminate.
    - apply anchor_status_image.
    - now constructor.
    - apply recognised_complete. now left. }
  eapply sorted_keep.
  { eapply record_for_intro
      with (href := py "/w/Demon") (ttl := py "Demon Slayer")
           (img := img_with [py "qc-not-started"])
           (l := [py "qc-not-started"]) (s := py "not started").
    - reflexivity.
    - reflexivity.
    - reflexivity.
    - discriminate.
    - apply anchor_status_image.
    - now constructor.
    - apply recognised_not_started.
      + intros [H|[]]. discriminate.
      + now left. }
  apply sorted_drop; [|constructor].
  eapply no_record_class
    with (href := py "/w/Dragon") (img := img_with [py "qc-in-progress"])
         (l := [py "qc-in-progress"]).
  - reflexivity.
  - apply anchor_status_image.
  - now constructor.
  - intros [H|[]]. discriminate.
  - intros [H|[]]. discriminate.
Qed.

Lemma parse_data_well_formed_anchors_witness :
  html_three_quests <> []
  /\ parser_giving page_three_quests html_three_quests = Ok page_three_quests
  /\ sorted_out (quest_anchors page_three_quests) [cooks_anchor; demon_anchor]
  /\ exists rs,
      fst (QuestScraper.parse_data (parser_giving page_three_quests)
             html_three_quests (py "Zezima") fresh) = Return rs
      /\ fst (QuestScraperSingelRun.parse_data
                (parser_giving page_three_quests) html_three_quests fresh)
         = Return rs
      /\ Forall2 record_for [cooks_anchor; demon_anchor] rs
      /\ List.length rs = 2
      /\ Forall (fun q => status q <> py "unknown") rs.
Proof.
  assert (Hne : html_three_quests <> []) by discriminate.
  split; [exact Hne|]. split; [reflexivity|].
  split; [exact three_quests_sorted|].
  exact (parse_data_well_formed_anchors unit
           (parser_giving page_three_quests) html_three_quests (py "Zezima")
           page_three_quests [cooks_anchor; demon_anchor] fresh
           Hne eq_refl three_quests_sorted).
Defined.

(** The scenario of the specification: the two recognised quests come out
    in order, the third one is dropped. *)
Example three_quests_extracted :
  fst (QuestScraper.parse_data (parser_giving page_three_quests)
         html_three_quests (py "Zezima") fresh)
  = Return [ {| title := VStr (py "Cook's Assistant");
                status := py "complete" |};
             {| title := VStr (py "Demon Slayer");
                status := py "not started" |} ].
Proof. reflexivity. Qed.

Section Records.
Context {B : Type}.
Variable BeautifulSoup : pystr -> outcome node.
Variable user : option pystr.

Lemma anchors_give_containers (soup : node) (before after : list node)
    (link : node) :
  quest_anchors soup = before ++ link :: after ->
  quest_containers_of soup <> [].
Proof.
  unfold quest_anchors. intros H E. rewrite E in H. simpl in H.
  now destruct before.
Qed.

(** The records returned for a page that parsed. *)
Lemma parse_data_records (html : pystr) (soup : node) (w : world B) :
  html <> [] -> BeautifulSoup html = Ok soup ->
  fst (parse_data_for BeautifulSoup user html w)
  = Return (flat_map link_quests (quest_anchors soup)).
Proof.
  intros Hne Hparse. rewrite parse_data_unrolled.
  destruct html as [|c html]; [contradiction|]. rewrite Hparse.
  unfold quest_anchors. now destruct (quest_containers_of soup).
Qed.

(** The run on a page that parsed and has a link to enumerate. *)
Lemma parse_data_with_links (html : pystr) (soup : node) (w : world B)
    (before after : list node) (link : node) :
  html <> [] -> BeautifulSoup html = Ok soup ->
  quest_anchors soup = before ++ link :: after ->
  parse_data_for BeautifulSoup user html w
  = (Return (flat_map link_quests before ++ link_quests link
             ++ flat_map link_quests after),
     emit (List.map ALog (flat_map (link_logs user) before
                          ++ link_logs user link
                          ++ flat_map (link_logs user) after)) w).
Proof.
  intros Hne Hparse Hsplit. rewrite parse_data_unrolled.
  destruct html as [|c html]; [contradiction|]. rewrite Hparse.
  pose proof (anchors_give_containers _ _ _ _ Hsplit) as Hc.
  destruct (quest_containers_of soup) as [|c0 cs] eqn:E; [contradiction|].
  rewrite Hsplit. now rewrite !flat_map_app.
Qed.

(** [parse_data] always returns, and only adds messages to the log. *)
Lemma parse_data_returns (html : pystr) (w : world B) :
  exists rs entries,
    parse_data_for BeautifulSoup user html w
    = (Return rs, emit (List.map ALog entries) w).
Proof.
  rewrite parse_data_unrolled.
  destruct html as [|c html].
  - exists [], []. now rewrite emit_nil.
  - destruct (BeautifulSoup (c :: html)) as [soup|e].
    + destruct (quest_containers_of soup).
      * now exists [], [LogNoContainers user].
      * eexists; eexists; reflexivity.
    + now exists [], [LogMajorParseError user e].
Qed.
End Records.

Lemma lacks_icon_body (link : node) : lacks_icon link -> link_body link [] = Ok [].
Proof.
  intros [[href Hhref] Hicon].
  unfold link_body, getitem, obind. rewrite Hhref. unfold val_startswith.
  cbv iota. destruct (startswith (py "/w/") href); [|reflexivity].
  destruct Hicon as [Hs|[span [Hs Hi]]].
  - now rewrite (find_icon_span_none _ Hs).
  - now rewrite (find_icon_span _ _ Hs), (find_img_none _ Hi).
Qed.

Lemma no_children_no_text (link : node) :
  contents_of link = [] -> get_text_strip link = [].
Proof.
  destruct link as [k s|nm attrs cs]; simpl; [reflexivity|].
  now intros ->.
Qed.

(** What the body of the per-link [try] can leave in [scraped_data]. *)
Lemma link_body_ok_inv (link : node) (l : list quest) :
  link_body link [] = Ok l ->
  l = [] \/
  exists t s,
    l = [{| title := t; status := s |}]
    /\ (s = py "complete" \/ s = py "not started")
    /\ title_resolved link t.
Proof.
  unfold link_body, getitem, obind, val_startswith, val_strip.
  destruct (attr_get link (py "href")) as [[href|hl]|]; try discriminate.
  destruct (startswith (py "/w/") href); [|intros H; injection H as <-; now left].
  destruct (find (py "span") (class_matches (py "rs-qc-icon")) link)
    as [span|]; [|intros H; injection H as <-; now left].
  destruct (find (py "img") no_filter span)
    as [img|]; [|intros H; injection H as <-; now left].
  set (cls := match attr_get img (py "class") with
              | Some v => v
              | None => AList []
              end).
  assert (Hst :
    forall t,
      (if negb (pystr_eqb
                  (if py_in (py "qc-complete") cls then py "complete"
                   else if py_in (py "qc-not-started") cls
                        then py "not started" else py "unknown")
                  (py "unknown"))
       then Ok ([] ++ [{| title := t;
                          status :=
                            if py_in (py "qc-complete") cls then py "complete"
                            else if py_in (py "qc-not-started") cls
                                 then py "not started" else py "unknown" |}])
       else Ok []) = Ok l ->
      l = [] \/
      exists t' s,
        l = [{| title := t'; status := s |}]
        /\ (s = py "complete" \/ s = py "not started") /\ t' = t).
  { intros t.
    destruct (py_in (py "qc-complete") cls);
      [|destruct (py_in (py "qc-not-started") cls)].
    - rewrite complete_known. simpl. intros H; injection H as <-.
      right. eexists; eexists; repeat split. now left.
    - rewrite not_started_known. simpl. intros H; injection H as <-.
      right. eexists; eexists; repeat split. now right.
    - rewrite unknown_unknown. simpl. intros H; injection H as <-. now left. }
  destruct (attr_get link (py "title")) as [[ttl|tl]|] eqn:Et; try discriminate.
  - destruct (strip ttl) as [|c t0] eqn:Es.
    + assert (Hb : title_blank link) by (right; exists ttl; now split).
      destruct (contents_of link) as [|c0 rest] eqn:Ec.
      * intros H. apply Hst in H. destruct H as [H|[t' [s [H1 [H2 H3]]]]];
          [now left|]. right. exists t', s. repeat split; try assumption.
        subst t'. now apply title_from_text.
      * destruct (child_strip c0) as [t|e] eqn:Ecs; [|discriminate].
        intros H. apply Hst in H. destruct H as [H|[t' [s [H1 [H2 H3]]]]];
          [now left|]. right. exists t', s. repeat split; try assumption.
        subst t'. eapply title_from_first_child; eauto.
    + intros H. apply Hst in H. destruct H as [H|[t' [s [H1 [H2 H3]]]]];
        [now left|]. right. exists t', s. repeat split; try assumption.
      subst t'. rewrite <- Es. apply title_from_attribute; [assumption|].
      rewrite Es. discriminate.
  - change (strip []) with (@nil N). cbv iota.
    assert (Hb : title_blank link) by now left.
    destruct (contents_of link) as [|c0 rest] eqn:Ec.
    + intros H. apply Hst in H. destruct H as [H|[t' [s [H1 [H2 H3]]]]];
        [now left|]. right. exists t', s. repeat split; try assumption.
      subst t'. now apply title_from_text.
    + destruct (child_strip c0) as [t|e] eqn:Ecs; [|discriminate].
      intros H. apply Hst in H. destruct H as [H|[t' [s [H1 [H2 H3]]]]];
        [now left|]. right. exists t', s. repeat split; try assumption.
      subst t'. eapply title_from_first_child; eauto.
Qed.

Lemma title_resolved_trimmed (link : node) (t : pyval) (s : pystr) :
  title_resolved link t -> t = VStr s -> trimmed s.
Proof.
  intros H E. destruct H as [ttl _ _|c0 rest t _ Hc Hs|_ Hc].
  - injection E as <-. apply strip_trimmed.
  - destruct c0 as [k x|nm attrs cs]; simpl in Hs.
    + injection Hs as <-. injection E as <-. apply strip_trimmed.
    + destruct (find (py "strip") no_filter (Tag nm attrs cs));
        [|discriminate].
      injection Hs as <-. discriminate.
  - rewrite (no_children_no_text _ Hc) in E. injection E as <-.
    split; exact I.
Qed.

Lemma link_quests_inv (link : node) (q : quest) :
  In q (link_quests link) ->
  link_quests link = [q]
  /\ (status q = py "complete" \/ status q = py "not started")
  /\ title_resolved link (title q).
Proof.
  unfold link_quests.
  destruct (link_body link []) as [l|e] eqn:E; [|intros []].
  destruct (link_body_ok_inv _ _ E) as [->|[t [s [-> [Hs Ht]]]]]; [intros []|].
  intros [<-|[]]. simpl. repeat split; assumption.
Qed.

Lemma Forall_flat_map_quests (P : quest -> Prop) (l : list node) :
  (forall link q, In link l -> In q (link_quests link) -> P q) ->
  Forall P (flat_map link_quests l).
Proof.
  intros H. apply Forall_forall. intros q Hq.
  apply in_flat_map in Hq as [link [Hl Hq]]. eauto.
Qed.

(** A link whose status image carries [qc-complete] only ever yields the
    status [complete], whatever else the class list holds. *)
Lemma complete_class_status (link img : node) (l : list pystr) (q : quest) :
  status_image link img -> class_list img l -> In (py "qc-complete") l ->
  In q (link_quests link) -> status q = py "complete".
Proof.
  intros [span [Hs Hi]] Hl Hc.
  unfold link_quests, link_body, getitem, obind, val_startswith, val_strip.
  rewrite (find_icon_span _ _ Hs), (find_img _ _ Hi).
  assert (Hcls : match attr_get img (py "class") with
                 | Some v => v
                 | None => AList []
                 end = AList l).
  { destruct Hl as [l Hl|Hl]; now rewrite Hl. }
  rewrite Hcls. unfold py_in.
  apply existsb_pystr_In in Hc. rewrite Hc, complete_known.
  simpl negb. cbv iota.
  break_link_body; simpl; intros H; try contradiction;
    destruct H as [<-|[]]; reflexivity.
Qed.

Lemma raising_link (user : option pystr) (link : node) (e : exception) :
  link_body link [] = Err e ->
  link_quests link = [] /\ link_logs user link = [LogLinkError user e link].
Proof. intros H. unfold link_quests, link_logs. now rewrite H. Qed.

Lemma returning_link (user : option pystr) (link : node) (l : list quest) :
  link_body link [] = Ok l ->
  link_quests link = l /\ link_logs user link = [].
Proof. intros H. unfold link_quests, link_logs. now rewrite H. Qed.

(** C3, the claim as stated, on a quest link that lacks its status icon:
    the missing substructure suppresses the record, and nothing is written
    to the log for it. *)
Lemma missing_icon_is_not_logged :
  quest_anchors page_plain = [plain_anchor]
  /\ lacks_icon plain_anchor
  /\ QuestScraper.parse_data (parser_giving page_plain) html_plain
       (py "Zezima") fresh = (Return [], fresh).
Proof.
  split; [reflexivity|]. split; [|reflexivity].
  split; [eexists; reflexivity|]. left.
  constructor; [|constructor].
  intros [[attrs [cs H]] _]. discriminate.
Qed.

(** C3, amended: [parse_data] always returns a list and raises nothing,
    adding only messages to the log.  When the body of the per-link [try]
    raises an exception on one enumerated link, that link adds no record
    and exactly one message, and the records and messages of the links
    before and after it are what they are without it.  A link that lacks
    its status icon (no icon span, or no image in it) is passed over
    silently: no record and no message. *)
Theorem parse_data_isolates_failures :
  forall (B : Type) (BeautifulSoup : pystr -> outcome node)
         (html username : pystr) (w : world B),
    (exists rs entries,
        QuestScraper.parse_data BeautifulSoup html username w
        = (Return rs, emit (List.map ALog entries) w))
    /\ forall (soup : node) (before after : list node) (link : node),
        html <> [] ->
        BeautifulSoup html = Ok soup ->
        quest_anchors soup = before ++ link :: after ->
        (forall e,
            link_body link [] = Err e ->
            QuestScraper.parse_data BeautifulSoup html username w
            = (Return (flat_map link_quests before
                       ++ flat_map link_quests after),
               emit (List.map ALog
                       (flat_map (link_logs (Some username)) before
                        ++ [LogLinkError (Some username) e link]
                        ++ flat_map (link_logs (Some username)) after)) w))
        /\ (lacks_icon link ->
            QuestScraper.parse_data BeautifulSoup html username w
            = (Return (flat_map link_quests before
                       ++ flat_map link_quests after),
               emit (List.map ALog
                       (flat_map (link_logs (Some username)) before
                        ++ flat_map (link_logs (Some username)) after)) w)).
Proof.
  intros B bs html username w. unfold QuestScraper.parse_data. split.
  - apply parse_data_returns.
  - intros soup before after link Hne Hparse Hsplit.
    rewrite (parse_data_with_links bs (Some username) html soup w
               before after link Hne Hparse Hsplit).
    split.
    + intros e He.
      destruct (raising_link (Some username) link e He) as [-> ->].
      reflexivity.
    + intros Hl.
      destruct (returning_link (Some username) link []
                  (lacks_icon_body _ Hl)) as [-> ->].
      reflexivity.
Qed.

Lemma parse_data_isolates_failures_witness :
  html_with_failure <> []
  /\ parser_giving page_with_failure html_with_failure = Ok page_with_failure
  /\ quest_anchors page_with_failure
     = [cooks_anchor] ++ icon_first_anchor :: [demon_anchor]
  /\ link_body icon_first_anchor [] = Err TypeError
  /\ QuestScraper.parse_data (parser_giving page_with_failure)
       html_with_failure (py "Zezima") fresh
     = (Return (flat_map link_quests [cooks_anchor]
                ++ flat_map link_quests [demon_anchor]),
        emit (List.map ALog
                (flat_map (link_logs (Some (py "Zezima"))) [cooks_anchor]
                 ++ [LogLinkError (Some (py "Zezima")) TypeError
                       icon_first_anchor]
                 ++ flat_map (link_logs (Some (py "Zezima"))) [demon_anchor]))
          fresh).
Proof.
  assert (Hne : html_with_failure <> []) by discriminate.
  split; [exact Hne|]. split; [reflexivity|]. split; [reflexivity|].
  split; [reflexivity|].
  exact (proj1 (proj2 (parse_data_isolates_failures unit
                         (parser_giving page_with_failure) html_with_failure
                         (py "Zezima") fresh)
                  page_with_failure [cooks_anchor] [demon_anchor]
                  icon_first_anchor Hne eq_refl eq_refl)
           TypeError eq_refl).
Defined.

(** C7, the claim as stated, on a link with a blank title attribute whose
    first child is a single space: a record is emitted, and its title is
    the empty string. *)
Lemma blank_title_is_emitted :
  QuestScraper.parse_data (parser_giving page_blank_text) html_blank_text
    (py "Zezima") fresh
  = (Return [{| title := VStr []; status := py "complete" |}], fresh).
Proof. reflexivity. Qed.

(** C7, amended: every title that [parse_data] emits as a string has no
    white space at either end; and when every enumerated anchor has a
    title attribute that is not blank, every emitted title is a non-empty
    string. *)
Theorem titles_are_trimmed :
  forall (B : Type) (BeautifulSoup : pystr -> outcome node)
         (html username : pystr) (w : world B),
  exists rs,
    fst (QuestScraper.parse_data BeautifulSoup html username w) = Return rs
    /\ Forall (fun q => forall t, title q = VStr t -> trimmed t) rs
    /\ forall soup,
        html <> [] ->
        BeautifulSoup html = Ok soup ->
        Forall (fun a => exists ttl,
                    attr_get a (py "title") = Some (AStr ttl)
                    /\ strip ttl <> []) (quest_anchors soup) ->
        Forall (fun q => exists t, title q = VStr t /\ t <> [] /\ trimmed t) rs.
Proof.
  intros B bs html username w. unfold QuestScraper.parse_data.
  destruct html as [|c html].
  { exists []. rewrite parse_data_unrolled. repeat split; constructor. }
  destruct (bs (c :: html)) as [soup|e] eqn:Hparse.
  - exists (flat_map link_quests (quest_anchors soup)).
    split; [apply parse_data_records; [discriminate | assumption]|].
    split.
    + apply Forall_flat_map_quests. intros link q _ Hq t Ht.
      destruct (link_quests_inv _ _ Hq) as [_ [_ Hres]].
      exact (title_resolved_trimmed _ _ _ Hres Ht).
    + intros soup' _ E Hall. injection E as <-.
      apply Forall_flat_map_quests. intros link q Hin Hq.
      rewrite Forall_forall in Hall.
      destruct (Hall _ Hin) as [ttl [Httl Hne]].
      destruct (link_quests_inv _ _ Hq) as [_ [_ Hres]].
      destruct Hres as [ttl' Httl' Hne'|c0 rest t Hb _ _|Hb _].
      * exists (strip ttl'). repeat split;
          [assumption | apply (proj1 (strip_trimmed ttl'))
           | apply (proj2 (strip_trimmed ttl'))].
      * destruct Hb as [Hb|[ttl' [Hb Hs]]]; [congruence|].
        assert (ttl' = ttl) by congruence. subst. contradiction.
      * destruct Hb as [Hb|[ttl' [Hb Hs]]]; [congruence|].
        assert (ttl' = ttl) by congruence. subst. contradiction.
  - exists []. rewrite parse_data_unrolled, Hparse.
    repeat split; constructor.
Qed.

(** C8: the batch script on a quest link with a blank title attribute whose
    first child is the icon span and whose text comes after it.  The
    fallback calls [strip] on the span, which raises [TypeError]; the link
    is given up, no record is emitted, one error is logged. *)
Theorem title_fallback_raises_on_element_child :
  link_body icon_first_anchor [] = Err TypeError
  /\ get_text_strip icon_first_anchor = py "Cook's Assistant"
  /\ QuestScraper.parse_data (parser_giving page_icon_first) html_icon_first
       (py "Zezima") fresh
     = (Return [],
        emit [ALog (LogLinkError (Some (py "Zezima")) TypeError
                      icon_first_anchor)] fresh)
  /\ QuestScraperSingelRun.parse_data (parser_giving page_icon_first)
       html_icon_first fresh
     = (Return [],
        emit [ALog (LogLinkError None TypeError icon_first_anchor)] fresh).
Proof. repeat split. Qed.

(** A quest link with a recognised status image and a blank title takes
    its title from its first child, when [strip] on that child returns. *)
Lemma first_child_body (link img : node) (href : pystr) (l : list pystr)
    (s : pystr) (c0 : node) (rest : list node) (t : pyval) :
  attr_get link (py "href") = Some (AStr href) ->
  startswith (py "/w/") href = true ->
  status_image link img ->
  class_list img l ->
  recognised l s ->
  title_blank link ->
  contents_of link = c0 :: rest ->
  child_strip c0 = Ok t ->
  link_body link [] = Ok [{| title := t; status := s |}].
Proof.
  intros Hhref Hw [span [Hs Hi]] Hl Hr Hb Hc Ht.
  unfold link_body, getitem, obind. rewrite Hhref. unfold val_startswith.
  cbv iota. rewrite Hw.
  rewrite (find_icon_span _ _ Hs), (find_img _ _ Hi).
  assert (Hcls : match attr_get img (py "class") with
                 | Some v => v
                 | None => AList []
                 end = AList l).
  { destruct Hl as [l Hl|Hl]; now rewrite Hl. }
  rewrite Hcls. unfold py_in.
  assert (Ht0 : val_strip match attr_get link (py "title") with
                          | Some v => v
                          | None => AStr []
                          end = Ok []).
  { destruct Hb as [Hb|[ttl [Hb Hs']]]; rewrite Hb; unfold val_strip;
      [reflexivity | now rewrite Hs']. }
  rewrite Ht0. cbv iota. rewrite Hc, Ht.
  destruct Hr as [Hcm|Hcm Hn].
  - apply existsb_pystr_In in Hcm. rewrite Hcm, complete_known. reflexivity.
  - apply existsb_pystr_not_In in Hcm. apply existsb_pystr_In in Hn.
    rewrite Hcm, Hn, not_started_known. reflexivity.
Qed.

(** C10, the claim as stated, on two links whose status image carries both
    classes.  The first does not lead to an article: the guard on the href
    passes it over, and nothing is emitted or logged.  The second has a
    blank title attribute and the icon as its first child: the title
    fallback raises, and the link is given up with one logged error. *)
Lemma both_classes_without_record :
  status_image both_classes_elsewhere_anchor
    (img_with [py "qc-not-started"; py "qc-complete"])
  /\ status_image both_classes_icon_first_anchor
       (img_with [py "qc-not-started"; py "qc-complete"])
  /\ class_list (img_with [py "qc-not-started"; py "qc-complete"])
       [py "qc-not-started"; py "qc-complete"]
  /\ quest_anchors page_both_classes_elsewhere
     = [both_classes_elsewhere_anchor]
  /\ QuestScraper.parse_data (parser_giving page_both_classes_elsewhere)
       html_both_classes_elsewhere (py "Zezima") fresh = (Return [], fresh)
  /\ QuestScraperSingelRun.parse_data
       (parser_giving page_both_classes_elsewhere)
       html_both_classes_elsewhere fresh = (Return [], fresh)
  /\ quest_anchors page_both_classes_icon_first
     = [both_classes_icon_first_anchor]
  /\ QuestScraper.parse_data (parser_giving page_both_classes_icon_first)
       html_both_classes_icon_first (py "Zezima") fresh
     = (Return [],
        emit [ALog (LogLinkError (Some (py "Zezima")) TypeError
                      both_classes_icon_first_anchor)] fresh)
  /\ QuestScraperSingelRun.parse_data
       (parser_giving page_both_classes_icon_first)
       html_both_classes_icon_first fresh
     = (Return [],
        emit [ALog (LogLinkError None TypeError
                      both_classes_icon_first_anchor)] fresh).
Proof.
  split; [apply anchor_status_image|].
  split; [apply anchor_status_image|].
  split; [now constructor|].
  repeat split.
Qed.

(** C10, amended: in both scripts, for an enumerated link whose href is
    under [/w/] and whose status image carries both [qc-complete] and
    [qc-not-started], every record emitted for that link has the status
    [complete], and at most one is.  Exactly that record is emitted, in the
    link's place, with a title attribute that is not blank (the title is
    the attribute, trimmed) and with a blank title attribute and a string
    as the first child (the title is that string, trimmed). *)
Theorem complete_takes_precedence :
  forall (B : Type) (BeautifulSoup : pystr -> outcome node)
         (html username : pystr) (soup : node) (before after : list node)
         (link img : node) (href : pystr) (l : list pystr) (w : world B),
    html <> [] ->
    BeautifulSoup html = Ok soup ->
    quest_anchors soup = before ++ link :: after ->
    attr_get link (py "href") = Some (AStr href) ->
    startswith (py "/w/") href = true ->
    status_image link img ->
    class_list img l ->
    In (py "qc-complete") l ->
    In (py "qc-not-started") l ->
    exists mid,
      fst (QuestScraper.parse_data BeautifulSoup html username w)
      = Return (flat_map link_quests before ++ mid
                ++ flat_map link_quests after)
      /\ fst (QuestScraperSingelRun.parse_data BeautifulSoup html w)
         = Return (flat_map link_quests before ++ mid
                   ++ flat_map link_quests after)
      /\ Forall (fun q => status q = py "complete") mid
      /\ List.length mid <= 1
      /\ (forall ttl,
             attr_get link (py "title") = Some (AStr ttl) ->
             strip ttl <> [] ->
             mid = [{| title := VStr (strip ttl); status := py "complete" |}])
      /\ (forall k s rest,
             title_blank link ->
             contents_of link = Str k s :: rest ->
             mid = [{| title := VStr (strip s); status := py "complete" |}]).
Proof.
  intros B bs html username soup before after link img href l w
         Hne Hparse Hsplit Hhref Hw Himg Hl Hc Hn.
  exists (link_quests link).
  unfold QuestScraper.parse_data, QuestScraperSingelRun.parse_data.
  rewrite !(parse_data_with_links bs _ html soup w before after link
              Hne Hparse Hsplit).
  split; [reflexivity|]. split; [reflexivity|].
  split; [|split; [|split]].
  - apply Forall_forall. intros q Hq.
    exact (complete_class_status link img l q Himg Hl Hc Hq).
  - destruct (link_quests link) as [|q rest] eqn:E; [simpl; lia|].
    assert (Hq : In q (link_quests link)) by (rewrite E; now left).
    destruct (link_quests_inv _ _ Hq) as [E' _].
    rewrite E in E'. injection E' as ->. simpl. lia.
  - intros ttl Httl Hnb.
    apply record_for_quests.
    apply record_for_intro with (href := href) (img := img) (l := l);
      try assumption.
    now apply recognised_complete.
  - intros k s rest Hb Hcs. unfold link_quests.
    rewrite (first_child_body link img href l (py "complete") (Str k s) rest
               (VStr (strip s)) Hhref Hw Himg Hl
               (recognised_complete l Hc) Hb Hcs eq_refl).
    reflexivity.
Qed.

Lemma complete_takes_precedence_witness :
  html_both_classes <> []
  /\ parser_giving page_both_classes html_both_classes = Ok page_both_classes
  /\ quest_anchors page_both_classes = [] ++ both_classes_anchor :: []
  /\ attr_get both_classes_anchor (py "href") = Some (AStr (py "/w/Cook"))
  /\ startswith (py "/w/") (py "/w/Cook") = true
  /\ status_image both_classes_anchor
       (img_with [py "qc-not-started"; py "qc-complete"])
  /\ class_list (img_with [py "qc-not-started"; py "qc-complete"])
       [py "qc-not-started"; py "qc-complete"]
  /\ In (py "qc-complete") [py "qc-not-started"; py "qc-complete"]
  /\ In (py "qc-not-started") [py "qc-not-started"; py "qc-complete"]
  /\ exists mid,
      fst (QuestScraper.parse_data (parser_giving page_both_classes)
             html_both_classes (py "Zezima") fresh)
      = Return (flat_map link_quests [] ++ mid ++ flat_map link_quests [])
      /\ fst (QuestScraperSingelRun.parse_data
                (parser_giving page_both_classes) html_both_classes fresh)
         = Return (flat_map link_quests [] ++ mid ++ flat_map link_quests [])
      /\ Forall (fun q => status q = py "complete") mid
      /\ List.length mid <= 1
      /\ (forall ttl,
             attr_get both_classes_anchor (py "title") = Some (AStr ttl) ->
             strip ttl <> [] ->
             mid = [{| title := VStr (strip ttl); status := py "complete" |}])
      /\ (forall k s rest,
             title_blank both_classes_anchor ->
             contents_of both_classes_anchor = Str k s :: rest ->
             mid = [{| title := VStr (strip s); status := py "complete" |}]).
Proof.
  assert (Hne : html_both_classes <> []) by discriminate.
  assert (Hi : status_image both_classes_anchor
                 (img_with [py "qc-not-started"; py "qc-complete"]))
    by apply anchor_status_image.
  assert (Hl : class_list (img_with [py "qc-not-started"; py "qc-complete"])
                 [py "qc-not-started"; py "qc-complete"])
    by now constructor.
  assert (Hc : In (py "qc-complete") [py "qc-not-started"; py "qc-complete"])
    by (right; now left).
  assert (Hn : In (py "qc-not-started")
                 [py "qc-not-started"; py "qc-complete"]) by now left.
  repeat (split; [first [exact Hne | exact Hi | exact Hl | exact Hc
                        | exact Hn | reflexivity]|]).
  exact (complete_takes_precedence unit (parser_giving page_both_classes)
           html_both_classes (py "Zezima") page_both_classes [] []
           both_classes_anchor
           (img_with [py "qc-not-started"; py "qc-complete"])
           (py "/w/Cook") [py "qc-not-started"; py "qc-complete"] fresh
           Hne eq_refl eq_refl eq_refl eq_refl Hi Hl Hc Hn).
Defined.

(** The record for the link with both classes. *)
Example both_classes_extracted :
  fst (QuestScraper.parse_data (parser_giving page_both_classes)
         html_both_classes (py "Zezima") fresh)
  = Return [ {| title := VStr (py "Cook's Assistant");
                status := py "complete" |} ].
Proof. reflexivity. Qed.

(** With a blank title attribute and the name first, the record takes the
    name, trimmed, as its title. *)
Example both_classes_text_first_extracted :
  title_blank both_classes_text_first_anchor
  /\ contents_of both_classes_text_first_anchor
     = [text " Cook's Assistant ";
        icon [img_with [py "qc-not-started"; py "qc-complete"]]]
  /\ QuestScraper.parse_data (parser_giving page_both_classes_text_first)
       html_both_classes_text_first (py "Zezima") fresh
     = (Return [ {| title := VStr (py "Cook's Assistant");
                    status := py "complete" |} ], fresh)
  /\ QuestScraperSingelRun.parse_data
       (parser_giving page_both_classes_text_first)
       html_both_classes_text_first fresh
     = (Return [ {| title := VStr (py "Cook's Assistant");
                    status := py "complete" |} ], fresh).
Proof.
  split; [right; exists []; split; reflexivity|]. repeat split.
Qed.

Lemma titles_are_trimmed_witness :
  exists rs,
    fst (QuestScraper.parse_data (parser_giving page_three_quests)
           html_three_quests (py "Zezima") fresh) = Return rs
    /\ Forall (fun q => forall t, title q = VStr t -> trimmed t) rs
    /\ forall soup,
        html_three_quests <> [] ->
        parser_giving page_three_quests html_three_quests = Ok soup ->
        Forall (fun a => exists ttl,
                    attr_get a (py "title") = Some (AStr ttl)
                    /\ strip ttl <> []) (quest_anchors soup) ->
        Forall (fun q => exists t, title q = VStr t /\ t <> [] /\ trimmed t) rs.
Proof.
  exact (titles_are_trimmed unit (parser_giving page_three_quests)
           html_three_quests (py "Zezima") fresh).
Defined.

(* ================================================================== *)
(** ** The file-name identifier *)

Lemma join_nil_cons (x : pystr) (l : list pystr) :
  join [] (x :: l) = x ++ join [] l.
Proof. destruct l as [|y l]; simpl; [now rewrite app_nil_r | reflexivity]. Qed.

Lemma is_dash_or_underscore_eqb (c : N) :
  is_dash_or_underscore c = ((c =? 45) || (c =? 95))%N.
Proof.
  unfold is_dash_or_underscore. simpl.
  now rewrite !andb_true_r, orb_false_r.
Qed.

(** The generator expression, character by character. *)
Lemma safe_username_map (ucd : N -> bool) (username : pystr) :
  safe_username ucd username =
  List.map (fun c => if (str_isalnum ucd c || (c =? 45) || (c =? 95))%N
                     then c else 95%N) username.
Proof.
  unfold safe_username.
  induction username as [|c u IH]; [reflexivity|].
  cbn [List.map]. rewrite join_nil_cons, IH, is_dash_or_underscore_eqb.
  rewrite orb_assoc.
  now destruct (str_isalnum ucd c || (c =? 45) || (c =? 95))%N.
Qed.

Lemma ascii_str_isalnum (ucd : N -> bool) (c : N) :
  (c < 128)%N -> str_isalnum ucd c = ascii_isalnum c.
Proof.
  intros Hc. unfold str_isalnum, latin1_isalnum.
  assert (H256 : (c <? 256)%N = true) by (apply N.ltb_lt; lia).
  rewrite H256.
  repeat match goal with
         | |- context [(c =? ?k)%N] =>
             replace (c =? k)%N with false by (symmetry; apply N.eqb_neq; lia)
         | |- context [(?k <=? c)%N] =>
             lazymatch k with
             | 188%N => idtac | 192%N => idtac | 216%N => idtac | 248%N => idtac
             end;
             replace (k <=? c)%N with false by (symmetry; apply N.leb_gt; lia)
         end.
  simpl. now rewrite !orb_false_r.
Qed.

(** C6, the claim as stated, at the one-letter username U+00E9 (e with an
    acute accent): [isalnum] holds of it in every interpreter, so the script
    keeps it, where the claim replaces it by an underscore. *)
Lemma accented_letter_is_kept :
  (forall ucd, safe_username ucd [233%N] = [233%N])
  /\ in_filename_class 233 = false
  /\ sanitize_spec [233%N] = py "_".
Proof. repeat split. Qed.

(** C6, amended: the identifier has the length of the username and, at
    every position, the username's character when that character is
    alphanumeric in Python's sense ([str.isalnum], which holds of letters
    and digits beyond ASCII too), a hyphen or an underscore, and an
    underscore otherwise.  On usernames of ASCII characters this is the
    replacement of every character outside [[A-Za-z0-9_-]]; ["Zezima!"]
    becomes ["Zezima_"]. *)
Theorem safe_username_characters :
  forall (ucd : N -> bool) (username : pystr),
    List.length (safe_username ucd username) = List.length username
    /\ (forall i c,
           nth_error username i = Some c ->
           nth_error (safe_username ucd username) i
           = Some (if (str_isalnum ucd c || (c =? 45) || (c =? 95))%N
                   then c else 95%N))
    /\ (Forall (fun c => (c < 128)%N) username ->
        safe_username ucd username = sanitize_spec username)
    /\ safe_username ucd (py "Zezima!") = py "Zezima_".
Proof.
  intros ucd username. rewrite safe_username_map. repeat split.
  - apply length_map.
  - intros i c H.
    exact (map_nth_error
             (fun c => if (str_isalnum ucd c || (c =? 45) || (c =? 95))%N
                       then c else 95%N) i username H).
  - intros Hall. unfold sanitize_spec. apply map_ext_in.
    intros c Hc. rewrite Forall_forall in Hall.
    rewrite (ascii_str_isalnum ucd c (Hall c Hc)).
    unfold in_filename_class.
    now rewrite <- !orb_assoc, (orb_comm (c =? 45)%N).
Qed.

Lemma safe_username_characters_witness :
  Forall (fun c => (c < 128)%N) (py "Zezima!")
  /\ safe_username (fun _ => false) (py "Zezima!") = sanitize_spec (py "Zezima!").
Proof.
  assert (H : Forall (fun c => (c < 128)%N) (py "Zezima!")).
  { repeat constructor. }
  split; [exact H|].
  exact (proj1 (proj2 (proj2 (safe_username_characters (fun _ => false)
                                (py "Zezima!")))) H).
Defined.

(* ================================================================== *)
(** ** Statements and the traces they leave *)

Lemma forallb_single (P : action -> bool) (a : action) :
  P a = true -> forallb P [a] = true.
Proof. intros H. simpl. now rewrite H. Qed.

Lemma attempts_made_app (t1 t2 : list action) :
  attempts_made (t1 ++ t2) = attempts_made t1 + attempts_made t2.
Proof. unfold attempts_made. now rewrite filter_app, length_app. Qed.

Lemma attempt_steps_no_navigation (t : list action) :
  forallb attempt_step t = true -> attempts_made t = 0.
Proof.
  unfold attempts_made. induction t as [|a t IH]; simpl; [reflexivity|].
  intros H. apply andb_true_iff in H as [Ha Ht].
  destruct a as [[]| |]; simpl in *; try discriminate; auto.
Qed.

Lemma attempt_steps_no_log (t : list action) :
  forallb attempt_step t = true -> log_of t = [].
Proof.
  induction t as [|a t IH]; simpl; [reflexivity|].
  intros H. apply andb_true_iff in H as [Ha Ht].
  destruct a as [c|ms|entry]; simpl in *; try discriminate; auto.
Qed.

Lemma forallb_weaken (P Q : action -> bool) (t : list action) :
  (forall a, P a = true -> Q a = true) ->
  forallb P t = true -> forallb Q t = true.
Proof.
  intros HPQ. rewrite !forallb_forall. auto.
Qed.

Lemma attempt_step_fetch_step (a : action) :
  attempt_step a = true -> fetch_step a = true.
Proof. intros H. unfold fetch_step. now rewrite H. Qed.

Lemma fetch_step_loop_step (a : action) :
  fetch_step a = true -> loop_step a = true.
Proof.
  destruct a as [[]|ms|[]]; unfold fetch_step, loop_step; simpl; intros H;
    solve [reflexivity | discriminate].
Qed.

Lemma loop_step_no_quit (t : list action) :
  forallb loop_step t = true -> filter is_quit t = [].
Proof.
  induction t as [|a t IH]; simpl; [reflexivity|].
  intros H. apply andb_true_iff in H as [Ha Ht].
  destruct a as [[]|ms|entry]; simpl in *; try discriminate; auto.
Qed.

Lemma fetch_step_no_json (t : list action) :
  forallb fetch_step t = true -> existsb is_json_dump t = false.
Proof.
  induction t as [|a t IH]; simpl; [reflexivity|].
  intros H. apply andb_true_iff in H as [Ha Ht].
  destruct a as [[]|ms|entry]; simpl in *; try discriminate; auto.
Qed.

Section Traces.
Context {B : Type} (env : environment B).

Lemma bind_inv {A C} (m : M B A) (k : A -> M B C) (w w' : world B)
    (r : result C) :
  bind m k w = (r, w') ->
  (exists a w1, m w = (Return a, w1) /\ k a w1 = (r, w'))
  \/ (exists x, m w = (Raised x, w') /\ r = Raised x).
Proof.
  unfold bind. destruct (m w) as [[a|x] w1]; intros H.
  - left. now exists a, w1.
  - right. injection H as <- <-. now exists x.
Qed.

Lemma call_trace (c : command) (w w1 : world B) (r : result (reply c)) :
  call env c w = (r, w1) -> trace w1 = trace w ++ [ACall c].
Proof.
  unfold call. destruct (respond env c (browser w)) as [r0 b].
  intros H. injection H as _ <-. reflexivity.
Qed.

Lemma adds_ret {A} (P : action -> bool) (a : A) : adds P (ret a : M B A).
Proof.
  intros w r w' H. injection H as _ <-. exists []. now rewrite app_nil_r.
Qed.

Lemma adds_raise {A} (P : action -> bool) (e : exception) :
  adds P (raise e : M B A).
Proof.
  intros w r w' H. injection H as _ <-. exists []. now rewrite app_nil_r.
Qed.

Lemma adds_eval {A} (P : action -> bool) (x : outcome A) :
  adds P (eval x : M B A).
Proof. destruct x; [apply adds_ret | apply adds_raise]. Qed.

Lemma adds_bind {A C} (P : action -> bool) (m : M B A) (k : A -> M B C) :
  adds P m -> (forall a, adds P (k a)) -> adds P (bind m k).
Proof.
  intros Hm Hk w r w' H.
  apply bind_inv in H as [[a [w1 [H1 H2]]]|[x [H1 _]]].
  - destruct (Hm _ _ _ H1) as [t1 [E1 F1]].
    destruct (Hk a _ _ _ H2) as [t2 [E2 F2]].
    exists (t1 ++ t2). rewrite E2, E1, app_assoc. split; [reflexivity|].
    now rewrite forallb_app, F1, F2.
  - exact (Hm _ _ _ H1).
Qed.

Lemma adds_call (P : action -> bool) (c : command) :
  P (ACall c) = true -> adds P (call env c).
Proof.
  intros HP w r w' H. exists [ACall c].
  split; [exact (call_trace _ _ _ _ H) | now apply forallb_single].
Qed.

Lemma adds_sleep (P : action -> bool) (ms : nat) :
  P (ASleep ms) = true -> adds P (sleep env ms).
Proof.
  intros HP w r w' H. injection H as _ <-. exists [ASleep ms].
  split; [reflexivity | now apply forallb_single].
Qed.

Lemma adds_log (P : action -> bool) (entry : log_entry) :
  P (ALog entry) = true -> adds P (log_error entry : M B unit).
Proof.
  intros HP w r w' H. injection H as _ <-. exists [ALog entry].
  split; [reflexivity | now apply forallb_single].
Qed.

Lemma adds_try_except {A} (P : action -> bool) (body : M B A)
    (handler : exception -> M B A) :
  adds P body -> (forall e, adds P (handler e)) ->
  adds P (try_except body handler).
Proof.
  intros Hb Hh w r w'. unfold try_except.
  destruct (body w) as [[a|[e| |]] w1] eqn:E; intros H;
    try (injection H as <- <-; exact (Hb _ _ _ E)).
  destruct (Hb _ _ _ E) as [t1 [E1 F1]].
  destruct (Hh e _ _ _ H) as [t2 [E2 F2]].
  exists (t1 ++ t2). rewrite E2, E1, app_assoc. split; [reflexivity|].
  now rewrite forallb_app, F1, F2.
Qed.

Lemma adds_weaken {A} (P Q : action -> bool) (m : M B A) :
  (forall a, P a = true -> Q a = true) -> adds P m -> adds Q m.
Proof.
  intros HPQ Hm w r w' H. destruct (Hm _ _ _ H) as [t [E F]].
  exists t. split; [assumption | exact (forallb_weaken _ _ _ HPQ F)].
Qed.
End Traces.

Ltac solve_adds :=
  repeat first
    [ apply adds_ret
    | apply adds_raise
    | apply adds_eval
    | match goal with
      | |- adds ?P (call ?e ?c) => exact (adds_call e P c eq_refl)
      end
    | (apply adds_sleep; reflexivity)
    | (apply adds_log; reflexivity)
    | (apply adds_bind; [|intros; cbv beta])
    | (apply adds_try_except; [|intros; cbv beta])
    | match goal with
      | |- adds _ (match ?x with _ => _ end) => destruct x
      end ].

Section Driver.
Context {B : Type} (env : environment B).
Variable BeautifulSoup : pystr -> outcome node.
Variable ucd : N -> bool.

Lemma click_lookup_adds (fetch_button : elem) :
  adds attempt_step (click_lookup env fetch_button).
Proof. unfold click_lookup. solve_adds. Qed.

(** One round trip: the navigation, then steps of the round trip. *)
Lemma interaction_trace (url username : pystr) (w w' : world B)
    (r : result pystr) :
  QuestScraper.interaction env url username w = (r, w') ->
  exists t,
    trace w' = trace w ++ ACall (DriverGet url) :: t
    /\ forallb attempt_step t = true.
Proof.
  unfold QuestScraper.interaction. intros H.
  apply bind_inv in H as [[a [w1 [H1 H2]]]|[x [H1 _]]].
  - cbv beta in H2.
    match type of H2 with
    | ?m _ = _ => assert (Ha : adds attempt_step m)
    end.
    { pose proof click_lookup_adds. solve_adds; auto. }
    destruct (Ha _ _ _ H2) as [t [E F]]. exists t.
    rewrite E, (call_trace _ _ _ _ _ H1), <- app_assoc.
    split; [reflexivity | assumption].
  - exists []. split; [exact (call_trace _ _ _ _ _ H1) | reflexivity].
Qed.

Lemma attempt_loop_trace (url username : pystr) (range : list nat)
    (w w' : world B) (r : result (option pystr)) :
  QuestScraper.attempt_loop env url username range w = (r, w') ->
  exists t,
    trace w' = trace w ++ t
    /\ attempts_made t <= List.length range
    /\ forallb fetch_step t = true.
Proof.
  revert w. induction range as [|attempt rest IH]; intros w;
    cbn [QuestScraper.attempt_loop].
  - intros H. injection H as _ <-. exists [].
    rewrite app_nil_r.
    split; [reflexivity | split; [unfold attempts_made; simpl; lia
                                 | reflexivity]].
  - cbn [List.length]. unfold bind at 1. unfold try_except. unfold bind at 1.
    destruct (QuestScraper.interaction env url username w)
      as [[html|[e| |]] w1] eqn:Hi;
      destruct (interaction_trace _ _ _ _ _ Hi) as [t1 [E1 F1]];
      pose proof (attempt_steps_no_navigation _ F1) as N1;
      pose proof (forallb_weaken _ _ _ attempt_step_fetch_step F1) as G1.
    + unfold ret. intros H. injection H as _ <-.
      exists (ACall (DriverGet url) :: t1). repeat split; try assumption.
      * change (attempts_made (ACall (DriverGet url) :: t1))
          with (S (attempts_made t1)). lia.
    + unfold bind, log_error.
      destruct (attempt <? QuestScraper.attempts - 1).
      * unfold sleep, ret. intros H. apply IH in H.
        destruct H as [t2 [E2 [N2 F2]]]. simpl in E2.
        exists ((ACall (DriverGet url) :: t1)
                ++ [ALog (LogAttemptFailed (attempt + 1) username e);
                    ASleep 2000] ++ t2).
        rewrite E2, E1. repeat split.
        -- now rewrite <- !app_assoc.
        -- rewrite !attempts_made_app.
           change (attempts_made (ACall (DriverGet url) :: t1))
             with (S (attempts_made t1)).
           change (attempts_made
                     [ALog (LogAttemptFailed (attempt + 1) username e);
                      ASleep 2000]) with 0.
           lia.
        -- rewrite !forallb_app. cbn [forallb]. rewrite G1, F2. reflexivity.
      * unfold ret. intros H. injection H as _ <-. simpl.
        exists ((ACall (DriverGet url) :: t1)
                ++ [ALog (LogAttemptFailed (attempt + 1) username e)]).
        rewrite E1. repeat split.
        -- now rewrite <- !app_assoc.
        -- rewrite attempts_made_app.
           change (attempts_made (ACall (DriverGet url) :: t1))
             with (S (attempts_made t1)).
           change (attempts_made
                     [ALog (LogAttemptFailed (attempt + 1) username e)])
             with 0.
           lia.
        -- rewrite forallb_app. cbn [forallb]. rewrite G1. reflexivity.
    + intros H. injection H as _ <-.
      exists (ACall (DriverGet url) :: t1). repeat split; try assumption.
      change (attempts_made (ACall (DriverGet url) :: t1))
        with (S (attempts_made t1)). lia.
    + intros H. injection H as _ <-.
      exists (ACall (DriverGet url) :: t1). repeat split; try assumption.
      change (attempts_made (ACall (DriverGet url) :: t1))
        with (S (attempts_made t1)). lia.
Qed.

Lemma fetch_adds (url username : pystr) :
  adds loop_step (QuestScraper.fetch_and_interact env url username).
Proof.
  intros w r w' H. apply attempt_loop_trace in H as [t [E [_ F]]].
  exists t. split; [assumption|].
  exact (forallb_weaken _ _ _ fetch_step_loop_step F).
Qed.

Lemma parse_data_adds (user : option pystr) (html : pystr) :
  adds loop_step (parse_data_for BeautifulSoup user html : M B (list quest)).
Proof.
  intros w r w' H.
  destruct (parse_data_returns BeautifulSoup user html w)
    as [rs [entries E]].
  rewrite E in H. injection H as _ <-.
  exists (List.map ALog entries). split; [reflexivity|].
  apply forallb_forall. intros a Ha.
  apply in_map_iff in Ha as [entry [<- _]]. reflexivity.
Qed.

Lemma save_to_json_adds (data : list quest) (filename : pystr) :
  adds loop_step (save_to_json env data filename).
Proof. unfold save_to_json. solve_adds. Qed.

Lemma for_usernames_adds (usernames : list pystr) :
  adds loop_step (QuestScraper.for_usernames env BeautifulSoup ucd usernames).
Proof.
  induction usernames as [|username rest IH]; simpl.
  - apply adds_ret.
  - apply adds_bind; [|intros _; exact IH].
    unfold QuestScraper.process_user, QuestScraper.parse_data.
    apply adds_bind; [apply fetch_adds|]. intros html. cbv beta.
    apply adds_bind; [|intros; apply adds_sleep; reflexivity].
    destruct html as [[|c html]|].
    + apply adds_log; reflexivity.
    + apply adds_bind; [apply parse_data_adds|].
      intros extracted_data. apply save_to_json_adds.
    + apply adds_log; reflexivity.
Qed.
End Driver.

(* ================================================================== *)
(** ** The Interaction Driver *)

Section Attempts.
Context {B : Type} (env : environment B).
Variables url username : pystr.

Lemma attempt_succeeds (attempt : nat) (rest : list nat)
    (w w1 : world B) (page_source : pystr) :
  QuestScraper.interaction env url username w = (Return page_source, w1) ->
  QuestScraper.attempt_loop env url username (attempt :: rest) w
  = (Return (Some page_source), w1).
Proof.
  intros Hi. cbn [QuestScraper.attempt_loop].
  unfold bind at 1. unfold try_except. unfold bind at 1.
  now rewrite Hi.
Qed.

Lemma attempt_retried (attempt : nat) (rest : list nat)
    (w w1 : world B) (e : exception) :
  QuestScraper.interaction env url username w = (Raised (Exc e), w1) ->
  (attempt <? QuestScraper.attempts - 1) = true ->
  QuestScraper.attempt_loop env url username (attempt :: rest) w
  = QuestScraper.attempt_loop env url username rest
      (retry_pause env (attempt + 1) username e w1).
Proof.
  intros Hi Hlt. cbn [QuestScraper.attempt_loop].
  unfold bind at 1. unfold try_except. unfold bind at 1.
  rewrite Hi. unfold bind, log_error. rewrite Hlt. reflexivity.
Qed.

Lemma attempt_given_up (attempt : nat) (rest : list nat)
    (w w1 : world B) (e : exception) :
  QuestScraper.interaction env url username w = (Raised (Exc e), w1) ->
  (attempt <? QuestScraper.attempts - 1) = false ->
  QuestScraper.attempt_loop env url username (attempt :: rest) w
  = (Return None,
     emit [ALog (LogAttemptFailed (attempt + 1) username e)] w1).
Proof.
  intros Hi Hlt. cbn [QuestScraper.attempt_loop].
  unfold bind at 1. unfold try_except. unfold bind at 1.
  rewrite Hi. unfold bind, log_error. rewrite Hlt. reflexivity.
Qed.
End Attempts.

(** C2: the batch driver never makes more than three attempts.  When three
    attempts in a row end in an [Exception] (a timeout, the echo mismatch,
    anything else), the driver returns [None]; what it has added to the
    trace is the three attempts, each followed by its log entry, with a
    sleep of two seconds after the first and after the second; the log has
    gained exactly these three entries; and the main loop writes no output
    file for the user, logs the skip, sleeps, and goes on with the rest of
    the list. *)
Theorem three_failed_attempts :
  forall (B : Type) (env : environment B)
         (BeautifulSoup : pystr -> outcome node) (ucd : N -> bool)
         (url username : pystr),
    (forall w,
        exists t,
          trace (snd (QuestScraper.fetch_and_interact env url username w))
          = trace w ++ t
          /\ attempts_made t <= 3)
    /\ forall (w0 w1 w2 w3 : world B) (e1 e2 e3 : exception),
        QuestScraper.interaction env url username w0
        = (Raised (Exc e1), w1) ->
        QuestScraper.interaction env url username
          (retry_pause env 1 username e1 w1) = (Raised (Exc e2), w2) ->
        QuestScraper.interaction env url username
          (retry_pause env 2 username e2 w2) = (Raised (Exc e3), w3) ->
        let w4 := emit [ALog (LogAttemptFailed 3 username e3)] w3 in
        QuestScraper.fetch_and_interact env url username w0 = (Return None, w4)
        /\ (exists t1 t2 t3,
               trace w4
               = trace w0
                 ++ (ACall (DriverGet url) :: t1)
                 ++ [ALog (LogAttemptFailed 1 username e1); ASleep 2000]
                 ++ (ACall (DriverGet url) :: t2)
                 ++ [ALog (LogAttemptFailed 2 username e2); ASleep 2000]
                 ++ (ACall (DriverGet url) :: t3)
                 ++ [ALog (LogAttemptFailed 3 username e3)]
               /\ forallb attempt_step (t1 ++ t2 ++ t3) = true)
        /\ log_of (trace w4)
           = log_of (trace w0)
             ++ [LogAttemptFailed 1 username e1;
                 LogAttemptFailed 2 username e2;
                 LogAttemptFailed 3 username e3]
        /\ (url = TARGET_URL ->
            (forall rest,
                QuestScraper.for_usernames env BeautifulSoup ucd
                  (username :: rest) w0
                = QuestScraper.for_usernames env BeautifulSoup ucd rest
                    (next_user env username w4))
            /\ exists t,
                trace (next_user env username w4) = trace w0 ++ t
                /\ existsb is_json_dump t = false).
Proof.
  intros B env bs ucd url username. split.
  { intros w.
    destruct (QuestScraper.fetch_and_interact env url username w)
      as [r w'] eqn:H.
    unfold QuestScraper.fetch_and_interact in H.
    apply attempt_loop_trace in H as [t [E [Hn _]]].
    exists t. split; [assumption|]. exact Hn. }
  intros w0 w1 w2 w3 e1 e2 e3 H1 H2 H3 w4.
  assert (Hfetch : QuestScraper.fetch_and_interact env url username w0
                   = (Return None, w4)).
  { unfold QuestScraper.fetch_and_interact.
    change (seq 0 QuestScraper.attempts) with [0; 1; 2].
    rewrite (attempt_retried env url username 0 [1; 2] w0 w1 e1 H1 eq_refl).
    change (0 + 1) with 1.
    rewrite (attempt_retried env url username 1 [2] _ w2 e2 H2 eq_refl).
    change (1 + 1) with 2.
    exact (attempt_given_up env url username 2 [] _ w3 e3 H3 eq_refl). }
  destruct (interaction_trace env _ _ _ _ _ H1) as [t1 [E1 F1]].
  destruct (interaction_trace env _ _ _ _ _ H2) as [t2 [E2 F2]].
  destruct (interaction_trace env _ _ _ _ _ H3) as [t3 [E3 F3]].
  assert (Hshape :
    trace w4
    = trace w0
      ++ (ACall (DriverGet url) :: t1)
      ++ [ALog (LogAttemptFailed 1 username e1); ASleep 2000]
      ++ (ACall (DriverGet url) :: t2)
      ++ [ALog (LogAttemptFailed 2 username e2); ASleep 2000]
      ++ (ACall (DriverGet url) :: t3)
      ++ [ALog (LogAttemptFailed 3 username e3)]).
  { unfold w4, emit. cbn [trace]. rewrite E3.
    unfold retry_pause, pause, emit. cbn [trace]. rewrite E2.
    unfold retry_pause, pause, emit. cbn [trace]. rewrite E1.
    rewrite <- !app_assoc. reflexivity. }
  split; [exact Hfetch|]. split; [|split].
  - exists t1, t2, t3. split; [exact Hshape|].
    now rewrite !forallb_app, F1, F2, F3.
  - rewrite Hshape. rewrite !log_of_app.
    change (log_of (ACall (DriverGet url) :: t1)) with (log_of t1).
    change (log_of (ACall (DriverGet url) :: t2)) with (log_of t2).
    change (log_of (ACall (DriverGet url) :: t3)) with (log_of t3).
    rewrite (attempt_steps_no_log _ F1), (attempt_steps_no_log _ F2),
      (attempt_steps_no_log _ F3).
    reflexivity.
  - intros ->. split.
    + intros rest. cbn [QuestScraper.for_usernames].
      unfold bind at 1. unfold QuestScraper.process_user.
      unfold bind at 1. unfold bind at 1. rewrite Hfetch. reflexivity.
    + eexists. split.
      * change (trace (next_user env username w4))
          with ((trace w4 ++ [ALog (LogFetchFailed username)])
                ++ [ASleep 2000]).
        rewrite Hshape. rewrite <- !app_assoc. reflexivity.
      * rewrite !existsb_app. cbn [existsb app is_json_dump orb].
        assert (Hno : forall t, forallb attempt_step t = true ->
                                existsb is_json_dump t = false).
        { intros t Ft. apply fetch_step_no_json.
          exact (forallb_weaken _ _ _ attempt_step_fetch_step Ft). }
        rewrite (Hno _ F1), (Hno _ F2), (Hno _ F3). reflexivity.
Qed.

Lemma three_failed_attempts_witness :
  QuestScraper.interaction results_time_out TARGET_URL (py "Alice") started
  = (Raised (Exc TimeoutException), alice_first)
  /\ QuestScraper.interaction results_time_out TARGET_URL (py "Alice")
       (retry_pause results_time_out 1 (py "Alice") TimeoutException
          alice_first)
     = (Raised (Exc TimeoutException), alice_second)
  /\ QuestScraper.interaction results_time_out TARGET_URL (py "Alice")
       (retry_pause results_time_out 2 (py "Alice") TimeoutException
          alice_second)
     = (Raised (Exc TimeoutException), alice_third)
  /\ QuestScraper.fetch_and_interact results_time_out TARGET_URL (py "Alice")
       started
     = (Return None,
        emit [ALog (LogAttemptFailed 3 (py "Alice") TimeoutException)]
          alice_third)
  /\ log_of (trace (emit [ALog (LogAttemptFailed 3 (py "Alice")
                                  TimeoutException)] alice_third))
     = log_of (trace started)
       ++ [LogAttemptFailed 1 (py "Alice") TimeoutException;
           LogAttemptFailed 2 (py "Alice") TimeoutException;
           LogAttemptFailed 3 (py "Alice") TimeoutException].
Proof.
  assert (H1 : QuestScraper.interaction results_time_out TARGET_URL
                 (py "Alice") started
               = (Raised (Exc TimeoutException), alice_first))
    by reflexivity.
  assert (H2 : QuestScraper.interaction results_time_out TARGET_URL
                 (py "Alice")
                 (retry_pause results_time_out 1 (py "Alice")
                    TimeoutException alice_first)
               = (Raised (Exc TimeoutException), alice_second))
    by reflexivity.
  assert (H3 : QuestScraper.interaction results_time_out TARGET_URL
                 (py "Alice")
                 (retry_pause results_time_out 2 (py "Alice")
                    TimeoutException alice_second)
               = (Raised (Exc TimeoutException), alice_third))
    by reflexivity.
  split; [exact H1|]. split; [exact H2|]. split; [exact H3|].
  pose proof (proj2 (three_failed_attempts pystr results_time_out
                       (parser_giving page_three_quests) (fun _ => false)
                       TARGET_URL (py "Alice"))
                started alice_first alice_second alice_third
                TimeoutException TimeoutException TimeoutException
                H1 H2 H3) as H.
  cbv zeta in H. destruct H as [Hf [_ [Hl _]]].
  split; [exact Hf | exact Hl].
Defined.

(* ================================================================== *)
(** ** The browser session *)

(** C4: in the batch run, once [setup_driver] has started the browser, the
    run ends -- whether the loop finishes, an [Exception] escapes it and is
    logged, or something that is no [Exception] passes through -- with the
    browser having been quit exactly once, as the last thing done. *)
Theorem browser_quit_exactly_once :
  forall (B : Type) (env : environment B)
         (BeautifulSoup : pystr -> outcome node) (ucd : N -> bool)
         (usernames : list pystr) (w : world B) (b1 : B),
    usernames <> [] ->
    respond env ChromeStart (browser w) = (Return tt, b1) ->
    exists r w' t,
      QuestScraper.main env BeautifulSoup ucd usernames w = (r, w')
      /\ trace w' = trace w ++ [ACall ChromeStart] ++ t ++ [ACall DriverQuit]
      /\ forallb loop_step t = true
      /\ List.length
           (filter is_quit ([ACall ChromeStart] ++ t ++ [ACall DriverQuit]))
         = 1.
Proof.
  intros B env bs ucd usernames w b1 Hne Hstart.
  destruct usernames as [|username rest]; [contradiction|].
  unfold QuestScraper.main. unfold bind at 1.
  unfold setup_driver, try_except. unfold bind at 1. unfold call at 1.
  rewrite Hstart. unfold ret at 1. cbv beta iota.
  unfold try_finally, try_except.
  set (w1 := {| browser := b1; trace := trace w ++ [ACall ChromeStart] |}).
  assert (Hcount : forall t,
             forallb loop_step t = true ->
             List.length
               (filter is_quit
                  ([ACall ChromeStart] ++ t ++ [ACall DriverQuit])) = 1).
  { intros t Ft. cbn [app filter is_quit]. rewrite filter_app.
    rewrite (loop_step_no_quit _ Ft). reflexivity. }
  destruct (QuestScraper.for_usernames env bs ucd (username :: rest) w1)
    as [[[]|[e| |]] w2] eqn:Hloop;
    destruct (for_usernames_adds env bs ucd _ _ _ _ Hloop) as [t [E F]].
  - destruct (call env DriverQuit w2) as [[[]|x] w3] eqn:Hq;
      pose proof (call_trace env _ _ _ _ Hq) as Eq;
      eexists; exists w3, t;
      (split; [reflexivity|]); (split; [|split; [exact F | exact (Hcount t F)]]);
      rewrite Eq, E; unfold w1; cbn [trace]; now rewrite <- !app_assoc.
  - unfold log_error.
    set (w2' := {| browser := browser w2;
                   trace := trace w2 ++ [ALog (LogMainError e)] |}).
    assert (F' : forallb loop_step (t ++ [ALog (LogMainError e)]) = true)
      by (rewrite forallb_app, F; reflexivity).
    destruct (call env DriverQuit w2') as [[[]|x] w3] eqn:Hq;
      pose proof (call_trace env _ _ _ _ Hq) as Eq;
      eexists; exists w3, (t ++ [ALog (LogMainError e)]);
      (split; [reflexivity|]);
      (split; [|split; [exact F' | exact (Hcount _ F')]]);
      rewrite Eq; unfold w2'; cbn [trace]; rewrite E; unfold w1; cbn [trace];
      now rewrite <- !app_assoc.
  - destruct (call env DriverQuit w2) as [[[]|x] w3] eqn:Hq;
      pose proof (call_trace env _ _ _ _ Hq) as Eq;
      eexists; exists w3, t;
      (split; [reflexivity|]); (split; [|split; [exact F | exact (Hcount t F)]]);
      rewrite Eq, E; unfold w1; cbn [trace]; now rewrite <- !app_assoc.
  - destruct (call env DriverQuit w2) as [[[]|x] w3] eqn:Hq;
      pose proof (call_trace env _ _ _ _ Hq) as Eq;
      eexists; exists w3, t;
      (split; [reflexivity|]); (split; [|split; [exact F | exact (Hcount t F)]]);
      rewrite Eq, E; unfold w1; cbn [trace]; now rewrite <- !app_assoc.
Qed.

Lemma browser_quit_exactly_once_witness :
  [py "Alice"; py "Bob"] <> []
  /\ respond results_time_out ChromeStart (browser started) = (Return tt, [])
  /\ exists r w' t,
      QuestScraper.main results_time_out (parser_giving page_three_quests)
        (fun _ => false) [py "Alice"; py "Bob"] started = (r, w')
      /\ trace w'
         = trace started ++ [ACall ChromeStart] ++ t ++ [ACall DriverQuit]
      /\ forallb loop_step t = true
      /\ List.length
           (filter is_quit ([ACall ChromeStart] ++ t ++ [ACall DriverQuit]))
         = 1.
Proof.
  assert (Hne : [py "Alice"; py "Bob"] <> []) by discriminate.
  split; [exact Hne|]. split; [reflexivity|].
  exact (browser_quit_exactly_once pystr results_time_out
           (parser_giving page_three_quests) (fun _ => false)
           [py "Alice"; py "Bob"] started [] Hne eq_refl).
Defined.

(** A run that the user interrupts during the first wait for the results:
    the interrupt leaves the loop, passes [except Exception], and the
    browser is still quit, once, before the interrupt leaves the script. *)
Example interrupted_run_quits :
  exists w',
    QuestScraper.main interrupted (parser_giving page_three_quests)
      (fun _ => false) [py "Alice"; py "Bob"] started
    = (Raised KeyboardInterrupt, w')
    /\ filter is_quit (trace w') = [ACall DriverQuit]
    /\ last (trace w') (ASleep 0) = ACall DriverQuit.
Proof. eexists. split; [reflexivity|]. split; reflexivity. Qed.

(* ================================================================== *)
(** ** The two drivers *)






(** With the echo in place the two drivers return the same markup. *)
Example matching_echo_same_markup :
  fst (QuestScraper.fetch_and_interact echo_zezima TARGET_URL (py "Zezima")
         started)
  = fst (QuestScraperSingelRun.fetch_and_interact echo_zezima TARGET_URL
           (py "Zezima") started).
Proof. reflexivity. Qed.

(* ================================================================== *)
(** ** The output file name *)

Lemma filename_char_underscore (ucd : N -> bool) :
  filename_char ucd 95 = true.
Proof. unfold filename_char. now rewrite orb_true_r. Qed.

Lemma safe_username_chars (ucd : N -> bool) (username : pystr) :
  Forall (fun c => filename_char ucd c = true) (safe_username ucd username).
Proof.
  rewrite safe_username_map. fold (filename_char ucd).
  induction username as [|c u IH]; simpl; constructor; try exact IH.
  change (if (str_isalnum ucd c || (c =? 45) || (c =? 95))%N then c else 95%N)
    with (if filename_char ucd c then c else 95%N).
  destruct (filename_char ucd c) eqn:E;
    [exact E | apply filename_char_underscore].
Qed.

(** X1: the file name built for a user is the sanitized name followed by
    [_quest_status.json]; every character of the sanitized name is
    alphanumeric, a hyphen or an underscore, so the file name holds no
    slash, no backslash and no NUL, and the sanitized name no dot: the file
    is always created in the working directory. *)
Theorem output_file_stays_in_directory :
  forall (ucd : N -> bool) (username : pystr),
    let safe := safe_username ucd username in
    let output_file := OUTPUT_FILENAME_TEMPLATE safe in
    Forall (fun c => filename_char ucd c = true) safe
    /\ ~ In 46%N safe
    /\ ~ In 47%N output_file
    /\ ~ In 92%N output_file
    /\ ~ In 0%N output_file
    /\ List.length output_file = List.length username + 18.
Proof.
  intros ucd username safe output_file.
  pose proof (safe_username_chars ucd username) as Hall.
  fold safe in Hall.
  assert (Hnot : forall c, filename_char ucd c = false -> ~ In c safe).
  { intros c Hc Hin. rewrite Forall_forall in Hall.
    rewrite (Hall c Hin) in Hc. discriminate. }
  assert (Hfile : forall c,
             filename_char ucd c = false ->
             ~ In c (py "_quest_status.json") -> ~ In c output_file).
  { intros c Hc Hs Hin. unfold output_file, OUTPUT_FILENAME_TEMPLATE in Hin.
    apply in_app_or in Hin as [Hin|Hin]; [exact (Hnot c Hc Hin) | auto]. }
  split; [exact Hall|].
  split; [apply Hnot; reflexivity|].
  split; [apply Hfile; [reflexivity | vm_compute; intuition discriminate]|].
  split; [apply Hfile; [reflexivity | vm_compute; intuition discriminate]|].
  split; [apply Hfile; [reflexivity | vm_compute; intuition discriminate]|].
  unfold output_file, OUTPUT_FILENAME_TEMPLATE, safe.
  rewrite length_app, safe_username_map, length_map. reflexivity.
Qed.

(** X2: sanitizing is idempotent: a sanitized name is left as it is. *)
Theorem safe_username_idempotent :
  forall (ucd : N -> bool) (username : pystr),
    safe_username ucd (safe_username ucd username) = safe_username ucd username.
Proof.
  intros ucd username. rewrite !safe_username_map, map_map.
  apply map_ext. intros c. fold (filename_char ucd c).
  destruct (filename_char ucd c) eqn:E.
  - fold (filename_char ucd c). now rewrite E.
  - fold (filename_char ucd 95). now rewrite filename_char_underscore.
Qed.

(* ================================================================== *)
(** ** Saving the records *)

(** X3: [save_to_json] never lets an [Exception] out.  With no records it
    does nothing at all; with records it opens and writes the file once,
    and logs one message exactly when that raised an [Exception] (the
    write-error message for an [IOError], the other one otherwise). *)
Theorem save_to_json_contained :
  forall (B : Type) (env : environment B) (data : list quest)
         (filename : pystr) (w : world B),
    (data = [] -> save_to_json env data filename w = (Return tt, w))
    /\ (data <> [] ->
        exists r b,
          respond env (JsonDump filename data) (browser w) = (r, b)
          /\ save_to_json env data filename w
             = match r with
               | Return _ =>
                   (Return tt,
                    {| browser := b;
                       trace := trace w ++ [ACall (JsonDump filename data)] |})
               | Raised (Exc e) =>
                   (Return tt,
                    {| browser := b;
                       trace :=
                         (trace w ++ [ACall (JsonDump filename data)])
                         ++ [ALog (if isinstance e CIOError
                                   then LogWriteError filename e
                                   else LogSaveError filename e)] |})
               | Raised x =>
                   (Raised x,
                    {| browser := b;
                       trace := trace w ++ [ACall (JsonDump filename data)] |})
               end)
    /\ forall e, fst (save_to_json env data filename w) <> Raised (Exc e).
Proof.
  intros B env data filename w.
  assert (Hrun : data <> [] ->
    exists r b,
      respond env (JsonDump filename data) (browser w) = (r, b)
      /\ save_to_json env data filename w
         = match r with
           | Return _ =>
               (Return tt,
                {| browser := b;
                   trace := trace w ++ [ACall (JsonDump filename data)] |})
           | Raised (Exc e) =>
               (Return tt,
                {| browser := b;
                   trace :=
                     (trace w ++ [ACall (JsonDump filename data)])
                     ++ [ALog (if isinstance e CIOError
                               then LogWriteError filename e
                               else LogSaveError filename e)] |})
           | Raised x =>
               (Raised x,
                {| browser := b;
                   trace := trace w ++ [ACall (JsonDump filename data)] |})
           end).
  { intros Hne. destruct data as [|q data]; [contradiction|].
    unfold save_to_json, try_except, call.
    destruct (respond env (JsonDump filename (q :: data)) (browser w))
      as [r b].
    exists r, b. split; [reflexivity|].
    destruct r as [[]|[e| |]]; try reflexivity.
    unfold log_error. now destruct (isinstance e CIOError). }
  split; [intros ->; reflexivity|]. split; [exact Hrun|].
  intros e. destruct data as [|q data]; [discriminate|].
  destruct (Hrun ltac:(discriminate)) as [r [b [_ E]]]. rewrite E.
  destruct r as [[]|[e'| |]]; discriminate.
Qed.

Lemma save_to_json_contained_witness :
  [{| title := VStr (py "Cook's Assistant"); status := py "complete" |}] <> []
  /\ exists r b,
      respond results_time_out
        (JsonDump (py "Zezima_quest_status.json")
           [{| title := VStr (py "Cook's Assistant");
               status := py "complete" |}]) (browser started) = (r, b)
      /\ save_to_json results_time_out
           [{| title := VStr (py "Cook's Assistant");
               status := py "complete" |}]
           (py "Zezima_quest_status.json") started
         = match r with
           | Return _ =>
               (Return tt,
                {| browser := b;
                   trace :=
                     trace started
                     ++ [ACall (JsonDump (py "Zezima_quest_status.json")
                                  [{| title := VStr (py "Cook's Assistant");
                                      status := py "complete" |}])] |})
           | Raised (Exc e) =>
               (Return tt,
                {| browser := b;
                   trace :=
                     (trace started
                      ++ [ACall (JsonDump (py "Zezima_quest_status.json")
                                   [{| title := VStr (py "Cook's Assistant");
                                       status := py "complete" |}])])
                     ++ [ALog (if isinstance e CIOError
                               then LogWriteError
                                      (py "Zezima_quest_status.json") e
                               else LogSaveError
                                      (py "Zezima_quest_status.json") e)] |})
           | Raised x =>
               (Raised x,
                {| browser := b;
                   trace :=
                     trace started
                     ++ [ACall (JsonDump (py "Zezima_quest_status.json")
                                  [{| title := VStr (py "Cook's Assistant");
                                      status := py "complete" |}])] |})
           end.
Proof.
  assert (Hne : [{| title := VStr (py "Cook's Assistant");
                    status := py "complete" |}] <> []) by discriminate.
  split; [exact Hne|].
  exact (proj1 (proj2 (save_to_json_contained pystr results_time_out
                         [{| title := VStr (py "Cook's Assistant");
                             status := py "complete" |}]
                         (py "Zezima_quest_status.json") started)) Hne).
Defined.

(* ================================================================== *)
(** ** The records [parse_data] returns, on any input *)

Lemma link_quests_short (link : node) : List.length (link_quests link) <= 1.
Proof.
  destruct (link_quests link) as [|q rest] eqn:E; [simpl; lia|].
  assert (Hq : In q (link_quests link)) by (rewrite E; now left).
  destruct (link_quests_inv _ _ Hq) as [E' _].
  rewrite E in E'. injection E' as ->. simpl. lia.
Qed.

Lemma flat_map_quests_short (links : list node) :
  List.length (flat_map link_quests links) <= List.length links.
Proof.
  induction links as [|link rest IH]; simpl; [lia|].
  rewrite length_app. pose proof (link_quests_short link). lia.
Qed.

Lemma link_quests_status_ok (link : node) (q : quest) :
  In q (link_quests link) -> status_ok q = true.
Proof.
  intros Hq. destruct (link_quests_inv _ _ Hq) as [_ [[E|E] _]];
    unfold status_ok; rewrite E; reflexivity.
Qed.

(** X4: whatever the markup and whatever the parser does with it, in both
    scripts every record [parse_data] returns has the status [complete] or
    [not started], and when the markup parses there are at most as many
    records as links enumerated in the containers. *)
Theorem parse_data_records_bounded :
  forall (B : Type) (BeautifulSoup : pystr -> outcome node)
         (html username : pystr) (w : world B),
  exists rs,
    fst (QuestScraper.parse_data BeautifulSoup html username w) = Return rs
    /\ fst (QuestScraperSingelRun.parse_data BeautifulSoup html w) = Return rs
    /\ Forall (fun q => status q = py "complete"
                        \/ status q = py "not started") rs
    /\ forall soup,
        BeautifulSoup html = Ok soup ->
        List.length rs <= List.length (quest_anchors soup).
Proof.
  intros B bs html username w.
  unfold QuestScraper.parse_data, QuestScraperSingelRun.parse_data.
  rewrite !parse_data_unrolled.
  destruct html as [|c html].
  { exists []. repeat split; try constructor. intros; simpl; lia. }
  destruct (bs (c :: html)) as [soup|e].
  - exists (flat_map link_quests (quest_anchors soup)).
    assert (Hfst : forall t1 t2 : list action,
               fst (match quest_containers_of soup with
                    | [] => (Return (@nil quest), emit t1 w)
                    | _ :: _ =>
                        (Return (flat_map link_quests (quest_anchors soup)),
                         emit t2 w)
                    end)
               = Return (flat_map link_quests (quest_anchors soup))).
    { intros t1 t2. unfold quest_anchors.
      destruct (quest_containers_of soup); reflexivity. }
    split; [apply Hfst|]. split; [apply Hfst|].
    split.
    + apply Forall_flat_map_quests. intros link q _ Hq.
      destruct (link_quests_inv _ _ Hq) as [_ [Hs _]]. exact Hs.
    + intros soup' E. injection E as <-. apply flat_map_quests_short.
  - exists []. repeat split; try constructor. intros soup E. discriminate.
Qed.

(** X5: when the parser itself raises, in either script, [parse_data]
    returns the empty list and logs exactly one message, the major parsing
    error with the exception; nothing else is done. *)
Theorem parse_data_parser_failure :
  forall (B : Type) (BeautifulSoup : pystr -> outcome node)
         (html username : pystr) (e : exception) (w : world B),
    html <> [] ->
    BeautifulSoup html = Err e ->
    QuestScraper.parse_data BeautifulSoup html username w
    = (Return [], emit [ALog (LogMajorParseError (Some username) e)] w)
    /\ QuestScraperSingelRun.parse_data BeautifulSoup html w
       = (Return [], emit [ALog (LogMajorParseError None e)] w).
Proof.
  intros B bs html username e w Hne Hparse.
  unfold QuestScraper.parse_data, QuestScraperSingelRun.parse_data.
  rewrite !parse_data_unrolled.
  destruct html as [|c html]; [contradiction|]. now rewrite Hparse.
Qed.

Lemma parse_data_parser_failure_witness :
  py "<html" <> []
  /\ (fun _ : pystr => @Err node (OtherException 0)) (py "<html")
     = Err (OtherException 0)
  /\ QuestScraper.parse_data (fun _ => Err (OtherException 0)) (py "<html")
       (py "Zezima") fresh
     = (Return [],
        emit [ALog (LogMajorParseError (Some (py "Zezima"))
                      (OtherException 0))] fresh).
Proof.
  assert (Hne : py "<html" <> []) by discriminate.
  split; [exact Hne|]. split; [reflexivity|].
  exact (proj1 (parse_data_parser_failure unit
                  (fun _ => Err (OtherException 0)) (py "<html")
                  (py "Zezima") (OtherException 0) fresh Hne eq_refl)).
Defined.

(* ================================================================== *)
(** ** Loading the usernames *)

Lemma strings_of_strings (l : list pystr) :
  strings_of (List.map JString l) = Some l.
Proof. induction l as [|s l IH]; simpl; [reflexivity | now rewrite IH]. Qed.

Lemma strings_of_inv (items : list json) (l : list pystr) :
  strings_of items = Some l -> items = List.map JString l.
Proof.
  revert l. induction items as [|v items IH]; intros l; simpl.
  - intros H. injection H as <-. reflexivity.
  - destruct v; try discriminate.
    destruct (strings_of items) as [l'|]; [|discriminate].
    intros H. injection H as <-. simpl. now rewrite (IH l' eq_refl).
Qed.

(** X6: the loader gives back the list in the file, in order and with
    nothing logged, exactly when the file holds a JSON list of strings; in
    every other case (no file, undecodable or unreadable file, a value
    that is no list, a list with a non-string in it) it gives the empty
    list and logs exactly one message. *)
Theorem load_usernames_validates :
  forall (file : usernames_file),
    (forall l, file = Holds (JArray (List.map JString l)) ->
               load_usernames file = (l, []))
    /\ ((forall l, file <> Holds (JArray (List.map JString l))) ->
        fst (load_usernames file) = []
        /\ List.length (snd (load_usernames file)) = 1).
Proof.
  intros file. split.
  - intros l ->. simpl. now rewrite strings_of_strings.
  - intros Hno. destruct file as [| |e|v]; try (split; reflexivity).
    destruct v; try (split; reflexivity).
    simpl. destruct (strings_of items) as [l|] eqn:E; [|split; reflexivity].
    exfalso. apply (Hno l). now rewrite <- (strings_of_inv _ _ E).
Qed.

Lemma load_usernames_validates_witness :
  Holds (JArray (List.map JString [py "Zezima"; py "Alice"]))
  = Holds (JArray (List.map JString [py "Zezima"; py "Alice"]))
  /\ load_usernames (Holds (JArray [JString (py "Zezima");
                                    JString (py "Alice")]))
     = ([py "Zezima"; py "Alice"], []).
Proof.
  split; [reflexivity|].
  exact (proj1 (load_usernames_validates
                  (Holds (JArray (List.map JString [py "Zezima"; py "Alice"]))))
           [py "Zezima"; py "Alice"] eq_refl).
Defined.

(** X7: unless [usernames.json] holds a non-empty JSON list of strings, the
    batch script never starts the browser.  All it does is hand the
    loader's message to [log_error]: one message, or none when the file
    holds the empty list.  No call is made to the browser, no result file
    is written, and the script does not sleep. *)
Theorem invalid_usernames_no_browser :
  forall (B : Type) (env : environment B)
         (BeautifulSoup : pystr -> outcome node) (ucd : N -> bool)
         (file : usernames_file) (w : world B),
    (forall s l, file <> Holds (JArray (List.map JString (s :: l)))) ->
    exists logged,
      batch_script env BeautifulSoup ucd file w = (logged, (Return tt, w))
      /\ logged = snd (load_usernames file)
      /\ List.length logged <= 1
      /\ (logged = [] <-> file = Holds (JArray [])).
Proof.
  intros B env bs ucd file w Hno.
  exists (snd (load_usernames file)). unfold batch_script.
  assert (E : fst (load_usernames file) = []).
  { destruct file as [| |e|v]; try reflexivity.
    destruct v; try reflexivity.
    simpl. destruct (strings_of items) as [l|] eqn:E; [|reflexivity].
    destruct l as [|s l]; [reflexivity|].
    exfalso. apply (Hno s l). now rewrite <- (strings_of_inv _ _ E). }
  destruct (load_usernames file) as [usernames logged] eqn:L.
  cbn [fst snd] in *. subst usernames.
  split; [reflexivity|]. split; [reflexivity|].
  destruct file as [| |e|v]; cbn in L.
  - injection L as <-. split; [simpl; lia|]. split; discriminate.
  - injection L as <-. split; [simpl; lia|]. split; discriminate.
  - injection L as <-. split; [simpl; lia|]. split; discriminate.
  - destruct v as [|b|n|s|items|members];
      try (injection L as <-; split; [simpl; lia|]; split; discriminate).
    destruct (strings_of items) as [l|] eqn:Es.
    + injection L as El <-. subst l. split; [simpl; lia|].
      split; [|reflexivity]. intros _.
      destruct items as [|i items]; [reflexivity|].
      simpl in Es. destruct i; try discriminate.
      destruct (strings_of items); discriminate.
    + injection L as <-. split; [simpl; lia|]. split; [discriminate|].
      intros H. injection H as ->. discriminate.
Qed.

Lemma invalid_usernames_no_browser_witness :
  (forall s l,
      Holds (JObject [(py "users", JArray [JString (py "Zezima")])])
      <> Holds (JArray (List.map JString (s :: l))))
  /\ exists logged,
      batch_script results_time_out (parser_giving page_three_quests)
        (fun _ => false)
        (Holds (JObject [(py "users", JArray [JString (py "Zezima")])]))
        started
      = (logged, (Return tt, started))
      /\ logged
         = snd (load_usernames
                  (Holds (JObject
                            [(py "users", JArray [JString (py "Zezima")])])))
      /\ List.length logged <= 1
      /\ (logged = []
          <-> Holds (JObject [(py "users", JArray [JString (py "Zezima")])])
              = Holds (JArray [])).
Proof.
  assert (H : forall s l,
             Holds (JObject [(py "users", JArray [JString (py "Zezima")])])
             <> Holds (JArray (List.map JString (s :: l))))
    by (intros; discriminate).
  split; [exact H|].
  exact (invalid_usernames_no_browser pystr results_time_out
           (parser_giving page_three_quests) (fun _ => false) _ started H).
Defined.

(** A file that holds an object: the script logs that the content is not
    a list and ends there. *)
Example object_file_is_logged :
  batch_script results_time_out (parser_giving page_three_quests)
    (fun _ => false)
    (Holds (JObject [(py "users", JArray [JString (py "Zezima")])]))
    started
  = ([UsernamesNotAList], (Return tt, started)).
Proof. reflexivity. Qed.

(* ================================================================== *)
(** ** Starting the browser *)

(** X8: when the browser cannot be started, the batch run is over: the
    only call made is the attempt to start it, nothing is navigated to and
    nothing is quit; a [WebDriverException] is only printed, any other
    [Exception] is logged once. *)
Theorem setup_failure_ends_run :
  forall (B : Type) (env : environment B)
         (BeautifulSoup : pystr -> outcome node) (ucd : N -> bool)
         (usernames : list pystr) (w : world B) (e : exception) (b1 : B),
    usernames <> [] ->
    respond env ChromeStart (browser w) = (Raised (Exc e), b1) ->
    QuestScraper.main env BeautifulSoup ucd usernames w
    = (Return tt,
       {| browser := b1;
          trace :=
            if isinstance e CWebDriverException
            then trace w ++ [ACall ChromeStart]
            else (trace w ++ [ACall ChromeStart])
                 ++ [ALog (LogSetupFailed e)] |}).
Proof.
  intros B env bs ucd usernames w e b1 Hne Hstart.
  destruct usernames as [|u us]; [contradiction|].
  unfold QuestScraper.main. unfold bind at 1.
  unfold setup_driver, try_except. unfold bind at 1. unfold call at 1.
  rewrite Hstart.
  destruct (isinstance e CWebDriverException); reflexivity.
Qed.

Lemma setup_failure_ends_run_witness :
  [py "Zezima"] <> []
  /\ respond (no_browser WebDriverException) ChromeStart (browser fresh)
     = (Raised (Exc WebDriverException), tt)
  /\ QuestScraper.main (no_browser WebDriverException)
       (parser_giving page_three_quests) (fun _ => false) [py "Zezima"] fresh
     = (Return tt, {| browser := tt; trace := [ACall ChromeStart] |}).
Proof.
  assert (Hne : [py "Zezima"] <> []) by discriminate.
  split; [exact Hne|]. split; [reflexivity|].
  exact (setup_failure_ends_run unit (no_browser WebDriverException)
           (parser_giving page_three_quests) (fun _ => false) [py "Zezima"]
           fresh WebDriverException tt Hne eq_refl).
Defined.

(* ================================================================== *)
(** ** The batch driver, attempt by attempt *)

Lemma attempt_interrupted {B : Type} (env : environment B)
    (url username : pystr) (attempt : nat) (rest : list nat)
    (w w1 : world B) (x : raised) :
  QuestScraper.interaction env url username w = (Raised x, w1) ->
  (forall e, x <> Exc e) ->
  QuestScraper.attempt_loop env url username (attempt :: rest) w
  = (Raised x, w1).
Proof.
  intros Hi Hx. cbn [QuestScraper.attempt_loop].
  unfold bind at 1. unfold try_except. unfold bind at 1.
  rewrite Hi. destruct x as [e| |]; [|reflexivity|reflexivity].
  exfalso. exact (Hx e eq_refl).
Qed.

Lemma attempt_trace_counts (url : pystr) (t : list action) :
  forallb attempt_step t = true ->
  attempts_made (ACall (DriverGet url) :: t) = 1
  /\ log_of (ACall (DriverGet url) :: t) = []
  /\ forallb fetch_step (ACall (DriverGet url) :: t) = true.
Proof.
  intros F. split; [|split].
  - change (attempts_made (ACall (DriverGet url) :: t))
      with (S (attempts_made t)).
    now rewrite (attempt_steps_no_navigation _ F).
  - change (log_of (ACall (DriverGet url) :: t)) with (log_of t).
    exact (attempt_steps_no_log _ F).
  - cbn [forallb]. rewrite (forallb_weaken _ _ _ attempt_step_fetch_step F).
    reflexivity.
Qed.

(** The attempts still to make are [k], [k + 1], ... up to the third. *)
Lemma attempt_loop_account {B : Type} (env : environment B)
    (url username : pystr) (n k : nat) (w : world B) :
  k + n = QuestScraper.attempts ->
  exists t,
    trace (snd (QuestScraper.attempt_loop env url username (seq k n) w))
    = trace w ++ t
    /\ forallb fetch_step t = true
    /\ attempts_made t <= n
    /\ match fst (QuestScraper.attempt_loop env url username (seq k n) w) with
       | Return (Some _) => attempts_made t = S (List.length (log_of t))
       | Return None =>
           attempts_made t = n /\ List.length (log_of t) = n
       | Raised (Exc _) => False
       | Raised _ => attempts_made t = S (List.length (log_of t))
       end.
Proof.
  revert k w. induction n as [|n IH]; intros k w Hk.
  - exists []. simpl. rewrite app_nil_r. repeat split; reflexivity.
  - cbn [seq].
    destruct (QuestScraper.interaction env url username w)
      as [[html|[e| |]] w1] eqn:Hi;
      destruct (interaction_trace env _ _ _ _ _ Hi) as [t1 [E1 F1]];
      destruct (attempt_trace_counts url t1 F1) as [N1 [L1 G1]].
    + rewrite (attempt_succeeds env url username k _ w w1 html Hi).
      exists (ACall (DriverGet url) :: t1). cbn [fst snd].
      rewrite N1, L1. repeat split; try assumption; simpl; lia.
    + destruct n as [|m].
      * assert (Hlt : (k <? QuestScraper.attempts - 1) = false).
        { apply Nat.ltb_ge. unfold QuestScraper.attempts in *. simpl. lia. }
        rewrite (attempt_given_up env url username k _ w w1 e Hi Hlt).
        exists ((ACall (DriverGet url) :: t1)
                ++ [ALog (LogAttemptFailed (k + 1) username e)]).
        cbn [fst snd emit trace]. rewrite E1, <- app_assoc.
        rewrite attempts_made_app, log_of_app, forallb_app, N1, L1, G1.
        repeat split; unfold attempts_made; simpl; lia.
      * assert (Hlt : (k <? QuestScraper.attempts - 1) = true).
        { apply Nat.ltb_lt. unfold QuestScraper.attempts in *. simpl. lia. }
        rewrite (attempt_retried env url username k _ w w1 e Hi Hlt).
        destruct (IH (S k) (retry_pause env (k + 1) username e w1)
                    ltac:(lia)) as [t2 [E2 [F2 [N2 R2]]]].
        exists ((ACall (DriverGet url) :: t1)
                ++ [ALog (LogAttemptFailed (k + 1) username e); ASleep 2000]
                ++ t2).
        rewrite E2. cbn [retry_pause pause emit trace]. rewrite E1.
        rewrite !attempts_made_app, !log_of_app, !forallb_app, N1, L1, G1, F2.
        split; [now rewrite <- !app_assoc|].
        split; [reflexivity|].
        change (attempts_made
                  [ALog (LogAttemptFailed (k + 1) username e); ASleep 2000])
          with 0.
        change (log_of
                  [ALog (LogAttemptFailed (k + 1) username e); ASleep 2000])
          with [LogAttemptFailed (k + 1) username e].
        split; [lia|].
        destruct (fst (QuestScraper.attempt_loop env url username
                         (seq (S k) (S m))
                         (retry_pause env (k + 1) username e w1)))
          as [[page|]|[e'| |]]; simpl in *; try lia; try contradiction.
    + rewrite (attempt_interrupted env url username k _ w w1
                 KeyboardInterrupt Hi ltac:(discriminate)).
      exists (ACall (DriverGet url) :: t1). cbn [fst snd].
      rewrite N1, L1. repeat split; try assumption; simpl; lia.
    + rewrite (attempt_interrupted env url username k _ w w1
                 SystemExit Hi ltac:(discriminate)).
      exists (ACall (DriverGet url) :: t1). cbn [fst snd].
      rewrite N1, L1. repeat split; try assumption; simpl; lia.
Qed.

(** The driver always makes a first attempt. *)
Lemma fetch_attempts_once {B : Type} (env : environment B)
    (url username : pystr) (w : world B) :
  exists t,
    trace (snd (QuestScraper.fetch_and_interact env url username w))
    = trace w ++ ACall (DriverGet url) :: t.
Proof.
  unfold QuestScraper.fetch_and_interact.
  change (seq 0 QuestScraper.attempts) with (0 :: [1; 2]).
  destruct (QuestScraper.interaction env url username w)
    as [[html|[e| |]] w1] eqn:Hi;
    destruct (interaction_trace env _ _ _ _ _ Hi) as [t1 [E1 F1]].
  - rewrite (attempt_succeeds env url username 0 _ w w1 html Hi).
    now exists t1.
  - rewrite (attempt_retried env url username 0 _ w w1 e Hi eq_refl).
    destruct (QuestScraper.attempt_loop env url username [1; 2]
                (retry_pause env (0 + 1) username e w1)) as [r w'] eqn:Hl.
    destruct (attempt_loop_trace env _ _ _ _ _ _ Hl) as [t2 [E2 _]].
    cbn [snd]. rewrite E2. cbn [retry_pause pause emit trace]. rewrite E1.
    eexists. rewrite <- !app_assoc. cbn [app]. reflexivity.
  - rewrite (attempt_interrupted env url username 0 _ w w1
               KeyboardInterrupt Hi ltac:(discriminate)).
    now exists t1.
  - rewrite (attempt_interrupted env url username 0 _ w w1
               SystemExit Hi ltac:(discriminate)).
    now exists t1.
Qed.

Lemma fetch_run {B : Type} (env : environment B) (url username : pystr)
    (w : world B) :
  exists t,
    trace (snd (QuestScraper.fetch_and_interact env url username w))
    = trace w ++ t
    /\ forallb fetch_step t = true
    /\ 1 <= attempts_made t <= 3
    /\ match fst (QuestScraper.fetch_and_interact env url username w) with
       | Return (Some _) => attempts_made t = S (List.length (log_of t))
       | Return None => attempts_made t = 3 /\ List.length (log_of t) = 3
       | Raised (Exc _) => False
       | Raised _ => attempts_made t = S (List.length (log_of t))
       end.
Proof.
  destruct (attempt_loop_account env url username 3 0 w eq_refl)
    as [t [E [F [N R]]]].
  change (QuestScraper.attempt_loop env url username (seq 0 3) w)
    with (QuestScraper.fetch_and_interact env url username w) in E, R.
  exists t. split; [exact E|]. split; [exact F|]. split; [|exact R].
  split; [|exact N].
  destruct (fetch_attempts_once env url username w) as [t' E'].
  rewrite E' in E. apply app_inv_head in E. subst t.
  change (attempts_made (ACall (DriverGet url) :: t'))
    with (S (attempts_made t')). lia.
Qed.

(** X9: the batch driver makes at least one and at most three attempts,
    writes no file and never lets an [Exception] out.  When it returns the
    markup, every attempt but the last was logged as failed; when it
    returns [None], it made three attempts and logged three failures.
    When an interrupt ends it, no more failures were logged than attempts
    made, and at most one attempt went unlogged. *)
Theorem fetch_and_interact_accounting :
  forall (B : Type) (env : environment B) (url username : pystr)
         (w : world B),
  exists t,
    trace (snd (QuestScraper.fetch_and_interact env url username w))
    = trace w ++ t
    /\ 1 <= attempts_made t <= 3
    /\ existsb is_json_dump t = false
    /\ match fst (QuestScraper.fetch_and_interact env url username w) with
       | Return (Some _) => attempts_made t = S (List.length (log_of t))
       | Return None => attempts_made t = 3 /\ List.length (log_of t) = 3
       | Raised (Exc _) => False
       | Raised _ =>
           List.length (log_of t) <= attempts_made t
           <= S (List.length (log_of t))
       end.
Proof.
  intros B env url username w.
  destruct (fetch_run env url username w) as [t [E [F [N R]]]].
  exists t. split; [exact E|]. split; [exact N|].
  split; [exact (fetch_step_no_json _ F)|].
  destruct (fst (QuestScraper.fetch_and_interact env url username w))
    as [[page_source|]|[e| |]]; first [exact R | lia].
Qed.

(** X10: when the first attempt ends in an [Exception] and the second one
    returns the markup, the batch driver returns that markup in the world
    the second attempt ended in; between the two attempts it has logged
    the first failure and slept two seconds, and that is all it logged. *)
Theorem second_attempt_succeeds :
  forall (B : Type) (env : environment B) (url username page_source : pystr)
         (w0 w1 w2 : world B) (e1 : exception),
    QuestScraper.interaction env url username w0 = (Raised (Exc e1), w1) ->
    QuestScraper.interaction env url username
      (retry_pause env 1 username e1 w1) = (Return page_source, w2) ->
    QuestScraper.fetch_and_interact env url username w0
    = (Return (Some page_source), w2)
    /\ exists t1 t2,
        trace w2
        = trace w0
          ++ (ACall (DriverGet url) :: t1)
          ++ [ALog (LogAttemptFailed 1 username e1); ASleep 2000]
          ++ (ACall (DriverGet url) :: t2)
        /\ forallb attempt_step (t1 ++ t2) = true
        /\ log_of (trace w2)
           = log_of (trace w0) ++ [LogAttemptFailed 1 username e1].
Proof.
  intros B env url username page_source w0 w1 w2 e1 H1 H2. split.
  - unfold QuestScraper.fetch_and_interact.
    change (seq 0 QuestScraper.attempts) with [0; 1; 2].
    rewrite (attempt_retried env url username 0 [1; 2] w0 w1 e1 H1 eq_refl).
    change (0 + 1) with 1.
    exact (attempt_succeeds env url username 1 [2] _ w2 page_source H2).
  - destruct (interaction_trace env _ _ _ _ _ H1) as [t1 [E1 F1]].
    destruct (interaction_trace env _ _ _ _ _ H2) as [t2 [E2 F2]].
    assert (Hshape :
      trace w2
      = trace w0
        ++ (ACall (DriverGet url) :: t1)
        ++ [ALog (LogAttemptFailed 1 username e1); ASleep 2000]
        ++ (ACall (DriverGet url) :: t2)).
    { rewrite E2. cbn [retry_pause pause emit trace]. rewrite E1.
      now rewrite <- !app_assoc. }
    exists t1, t2. split; [exact Hshape|].
    split; [now rewrite forallb_app, F1, F2|].
    rewrite Hshape, !log_of_app.
    destruct (attempt_trace_counts url t1 F1) as [_ [L1 _]].
    destruct (attempt_trace_counts url t2 F2) as [_ [L2 _]].
    rewrite L1, L2. reflexivity.
Qed.

Lemma second_attempt_succeeds_witness :
  QuestScraper.interaction second_time_lucky TARGET_URL (py "Zezima")
    {| browser := 0; trace := [] |}
  = (Raised (Exc TimeoutException),
     snd (QuestScraper.interaction second_time_lucky TARGET_URL (py "Zezima")
            {| browser := 0; trace := [] |}))
  /\ QuestScraper.fetch_and_interact second_time_lucky TARGET_URL
       (py "Zezima") {| browser := 0; trace := [] |}
     = (Return (Some sample_page_source),
        snd (QuestScraper.interaction second_time_lucky TARGET_URL
               (py "Zezima")
               (retry_pause second_time_lucky 1 (py "Zezima")
                  TimeoutException
                  (snd (QuestScraper.interaction second_time_lucky TARGET_URL
                          (py "Zezima") {| browser := 0; trace := [] |}))))).
Proof.
  assert (H1 : QuestScraper.interaction second_time_lucky TARGET_URL
                 (py "Zezima") {| browser := 0; trace := [] |}
               = (Raised (Exc TimeoutException),
                  snd (QuestScraper.interaction second_time_lucky TARGET_URL
                         (py "Zezima") {| browser := 0; trace := [] |})))
    by reflexivity.
  split; [exact H1|].
  exact (proj1 (second_attempt_succeeds nat second_time_lucky TARGET_URL
                  (py "Zezima") sample_page_source _ _ _ TimeoutException
                  H1 eq_refl)).
Defined.

(* ================================================================== *)
(** ** The main loop, user by user *)

Lemma attempts_made_logs (entries : list log_entry) :
  attempts_made (List.map ALog entries) = 0.
Proof.
  unfold attempts_made.
  induction entries as [|en l IH]; simpl; [reflexivity | exact IH].
Qed.

Lemma batch_step_fetch (ucd : N -> bool) (usernames : list pystr)
    (a : action) :
  fetch_step a = true -> batch_step ucd usernames a = true.
Proof. intros H. unfold batch_step. now rewrite H. Qed.

Lemma batch_step_head (ucd : N -> bool) (u : pystr) (rest : list pystr)
    (a : action) :
  batch_step ucd [u] a = true -> batch_step ucd (u :: rest) a = true.
Proof.
  unfold batch_step. cbn [existsb]. rewrite orb_false_r.
  intros H. apply orb_true_iff in H as [H|H]; rewrite H;
    [reflexivity | apply orb_true_r].
Qed.

Lemma batch_step_tail (ucd : N -> bool) (u : pystr) (rest : list pystr)
    (a : action) :
  batch_step ucd rest a = true -> batch_step ucd (u :: rest) a = true.
Proof.
  unfold batch_step. cbn [existsb].
  intros H. apply orb_true_iff in H as [H|H]; rewrite H;
    [reflexivity | now rewrite !orb_true_r].
Qed.

Lemma batch_step_user (ucd : N -> bool) (u : pystr) (a : action) :
  user_step ucd u a = true -> batch_step ucd [u] a = true.
Proof.
  intros H. unfold batch_step. cbn [existsb]. rewrite H.
  now rewrite orb_true_r.
Qed.

Lemma parse_data_run {B : Type} (BeautifulSoup : pystr -> outcome node)
    (user : option pystr) (html : pystr) (w : world B) :
  exists rs entries,
    parse_data_for BeautifulSoup user html w
    = (Return rs, emit (List.map ALog entries) w)
    /\ forallb status_ok rs = true
    /\ forallb parse_entry entries = true.
Proof.
  rewrite parse_data_unrolled. destruct html as [|c html].
  - exists [], []. now rewrite emit_nil.
  - destruct (BeautifulSoup (c :: html)) as [soup|e].
    + destruct (quest_containers_of soup).
      * now exists [], [LogNoContainers user].
      * exists (flat_map link_quests (quest_anchors soup)),
               (flat_map (link_logs user) (quest_anchors soup)).
        split; [reflexivity|]. split.
        -- apply forallb_forall. intros q Hq.
           apply in_flat_map in Hq as [link [_ Hq]].
           exact (link_quests_status_ok _ _ Hq).
        -- apply forallb_forall. intros en Hen.
           apply in_flat_map in Hen as [link [_ Hen]].
           unfold link_logs in Hen.
           destruct (link_body link []); [contradiction|].
           destruct Hen as [<-|[]]. reflexivity.
    + now exists [], [LogMajorParseError user e].
Qed.

Lemma parse_entries_user_steps (ucd : N -> bool) (u : pystr)
    (entries : list log_entry) :
  forallb parse_entry entries = true ->
  forallb (batch_step ucd [u]) (List.map ALog entries) = true.
Proof.
  intros H. apply forallb_forall. intros a Ha.
  apply in_map_iff in Ha as [en [<- Hen]].
  rewrite forallb_forall in H. specialize (H en Hen).
  apply batch_step_user. destruct en; try discriminate; reflexivity.
Qed.

Lemma dump_is_user_step (ucd : N -> bool) (u : pystr) (q : quest)
    (data : list quest) :
  forallb status_ok (q :: data) = true ->
  batch_step ucd [u]
    (ACall (JsonDump (OUTPUT_FILENAME_TEMPLATE (safe_username ucd u))
              (q :: data))) = true.
Proof.
  intros H. apply batch_step_user. unfold user_step.
  rewrite pystr_eqb_refl, H. reflexivity.
Qed.

Ltac count_concrete :=
  repeat match goal with
         | |- context [attempts_made (?a :: ?l)] =>
             change (attempts_made (a :: l)) with 0
         end.

Section Loop.
Context {B : Type} (env : environment B).
Variable BeautifulSoup : pystr -> outcome node.
Variable ucd : N -> bool.

Lemma process_user_run (username : pystr) (w : world B) :
  exists t,
    trace (snd (QuestScraper.process_user env BeautifulSoup ucd username w))
    = trace w ++ t
    /\ forallb (batch_step ucd [username]) t = true
    /\ 1 <= attempts_made t <= 3
    /\ forall e,
        fst (QuestScraper.process_user env BeautifulSoup ucd username w)
        <> Raised (Exc e).
Proof.
  destruct (fetch_run env TARGET_URL username w) as [t1 [E1 [F1 [N1 R1]]]].
  pose proof (forallb_weaken _ _ _ (batch_step_fetch ucd [username]) F1)
    as G1.
  remember (QuestScraper.process_user env BeautifulSoup ucd username w)
    as run eqn:Hrun.
  unfold QuestScraper.process_user in Hrun. unfold bind at 1 in Hrun.
  destruct (QuestScraper.fetch_and_interact env TARGET_URL username w)
    as [r1 w1].
  cbn [fst snd] in E1, R1.
  assert (Hskip :
    forall run',
      run' = bind (log_error (LogFetchFailed username))
               (fun _ => sleep env 2000) w1 ->
      exists t,
        trace (snd run') = trace w ++ t
        /\ forallb (batch_step ucd [username]) t = true
        /\ 1 <= attempts_made t <= 3
        /\ forall e, fst run' <> Raised (Exc e)).
  { intros run' ->.
    exists (t1 ++ [ALog (LogFetchFailed username); ASleep 2000]).
    unfold bind, log_error, sleep. cbn [fst snd trace]. rewrite E1.
    rewrite <- !app_assoc, forallb_app, attempts_made_app, G1.
    change (attempts_made [ALog (LogFetchFailed username); ASleep 2000])
      with 0.
    repeat split; try reflexivity; try lia. discriminate. }
  destruct r1 as [[[|c html]|]|x].
  - exact (Hskip run Hrun).
  - unfold QuestScraper.parse_data in Hrun.
    unfold bind at 1 in Hrun. unfold bind at 1 in Hrun.
    destruct (parse_data_run BeautifulSoup (Some username) (c :: html) w1)
      as [rs [entries [Ep [Hs He]]]].
    rewrite Ep in Hrun.
    pose proof (parse_entries_user_steps ucd username entries He) as Ge.
    destruct rs as [|q rs].
    + exists (t1 ++ List.map ALog entries ++ [ASleep 2000]).
      unfold save_to_json, ret, sleep in Hrun. subst run.
      cbn [fst snd trace emit]. rewrite E1.
      rewrite <- !app_assoc, !forallb_app, !attempts_made_app, G1, Ge.
      rewrite attempts_made_logs.
      change (attempts_made [ASleep 2000]) with 0.
      repeat split; try reflexivity; try lia. discriminate.
    + pose proof (dump_is_user_step ucd username q rs Hs) as Gd.
      unfold save_to_json, try_except, call in Hrun.
      cbn [browser trace emit] in Hrun.
      destruct (respond env
                  (JsonDump
                     (OUTPUT_FILENAME_TEMPLATE (safe_username ucd username))
                     (q :: rs)) (browser w1)) as [[[]|[e| |]] b].
      * exists (t1 ++ List.map ALog entries
                ++ [ACall (JsonDump
                             (OUTPUT_FILENAME_TEMPLATE
                                (safe_username ucd username)) (q :: rs));
                    ASleep 2000]).
        unfold sleep in Hrun. subst run. cbn [fst snd trace]. rewrite E1.
        rewrite <- !app_assoc, !forallb_app, !attempts_made_app, G1, Ge.
        rewrite attempts_made_logs. cbn [forallb]. rewrite Gd.
        count_concrete.
        repeat split; try reflexivity; try lia; discriminate.
      * exists (t1 ++ List.map ALog entries
                ++ [ACall (JsonDump
                             (OUTPUT_FILENAME_TEMPLATE
                                (safe_username ucd username)) (q :: rs));
                    ALog (if isinstance e CIOError
                          then LogWriteError
                                 (OUTPUT_FILENAME_TEMPLATE
                                    (safe_username ucd username)) e
                          else LogSaveError
                                 (OUTPUT_FILENAME_TEMPLATE
                                    (safe_username ucd username)) e);
                    ASleep 2000]).
        destruct (isinstance e CIOError);
          unfold log_error, sleep in Hrun; subst run;
          cbn [fst snd trace browser]; rewrite E1;
          rewrite <- !app_assoc, !forallb_app, !attempts_made_app, G1, Ge;
          rewrite attempts_made_logs; cbn [forallb]; rewrite Gd;
          count_concrete;
          (repeat split; try reflexivity; try lia; discriminate).
      * exists (t1 ++ List.map ALog entries
                ++ [ACall (JsonDump
                             (OUTPUT_FILENAME_TEMPLATE
                                (safe_username ucd username)) (q :: rs))]).
        subst run. cbn [fst snd trace]. rewrite E1.
        rewrite <- !app_assoc, !forallb_app, !attempts_made_app, G1, Ge.
        rewrite attempts_made_logs. cbn [forallb]. rewrite Gd.
        count_concrete.
        repeat split; try reflexivity; try lia; discriminate.
      * exists (t1 ++ List.map ALog entries
                ++ [ACall (JsonDump
                             (OUTPUT_FILENAME_TEMPLATE
                                (safe_username ucd username)) (q :: rs))]).
        subst run. cbn [fst snd trace]. rewrite E1.
        rewrite <- !app_assoc, !forallb_app, !attempts_made_app, G1, Ge.
        rewrite attempts_made_logs. cbn [forallb]. rewrite Gd.
        count_concrete.
        repeat split; try reflexivity; try lia; discriminate.
  - exact (Hskip run Hrun).
  - exists t1. subst run. cbn [fst snd].
    repeat split; try assumption; try lia.
    destruct x as [e| |]; [contradiction | discriminate | discriminate].
Qed.

Lemma for_usernames_run (usernames : list pystr) (w : world B) :
  exists t,
    trace (snd (QuestScraper.for_usernames env BeautifulSoup ucd usernames w))
    = trace w ++ t
    /\ forallb (batch_step ucd usernames) t = true
    /\ attempts_made t <= 3 * List.length usernames
    /\ (fst (QuestScraper.for_usernames env BeautifulSoup ucd usernames w)
        = Return tt -> List.length usernames <= attempts_made t)
    /\ forall e,
        fst (QuestScraper.for_usernames env BeautifulSoup ucd usernames w)
        <> Raised (Exc e).
Proof.
  revert w. induction usernames as [|u rest IH]; intros w.
  - exists []. cbn. rewrite app_nil_r.
    repeat split; try reflexivity; try (unfold attempts_made; simpl; lia).
    discriminate.
  - remember (QuestScraper.for_usernames env BeautifulSoup ucd (u :: rest) w)
      as run eqn:Hrun.
    cbn [QuestScraper.for_usernames] in Hrun. unfold bind at 1 in Hrun.
    destruct (process_user_run u w) as [t1 [E1 [F1 [N1 X1]]]].
    pose proof (forallb_weaken _ _ _ (batch_step_head ucd u rest) F1) as G1.
    destruct (QuestScraper.process_user env BeautifulSoup ucd u w)
      as [[[]|x] w1]; cbn [fst snd] in E1, X1; subst run.
    + destruct (IH w1) as [t2 [E2 [F2 [N2 [L2 X2]]]]].
      pose proof (forallb_weaken _ _ _ (batch_step_tail ucd u rest) F2) as G2.
      exists (t1 ++ t2). rewrite E2, E1, <- app_assoc.
      rewrite forallb_app, attempts_made_app, G1, G2. cbn [List.length].
      repeat split; try reflexivity; try lia.
      * intros Hr. specialize (L2 Hr). lia.
      * exact X2.
    + exists t1. cbn [fst snd List.length].
      repeat split; try assumption; try lia;
        first [ discriminate
              | intros e He; injection He as ->; exact (X1 e eq_refl) ].
Qed.
End Loop.


(** X12: every file the loop writes is the file of one of the listed
    users, named after the sanitized username, and what is written into it
    is a non-empty list of records whose statuses are [complete] or
    [not started]. *)
Theorem batch_loop_files :
  forall (B : Type) (env : environment B)
         (BeautifulSoup : pystr -> outcome node) (ucd : N -> bool)
         (usernames : list pystr) (w : world B),
  exists t,
    trace (snd (QuestScraper.for_usernames env BeautifulSoup ucd usernames w))
    = trace w ++ t
    /\ forall filename data,
        In (ACall (JsonDump filename data)) t ->
        (exists u,
            In u usernames
            /\ filename = OUTPUT_FILENAME_TEMPLATE (safe_username ucd u))
        /\ data <> []
        /\ Forall (fun q => status q = py "complete"
                            \/ status q = py "not started") data.
Proof.
  intros B env bs ucd usernames w.
  destruct (for_usernames_run env bs ucd usernames w) as [t [E [F _]]].
  exists t. split; [exact E|].
  intros filename data Hin.
  rewrite forallb_forall in F. specialize (F _ Hin).
  unfold batch_step in F. cbn [fetch_step attempt_step is_navigation] in F.
  cbn [orb] in F. apply existsb_exists in F as [u [Hu Hstep]].
  cbn [user_step] in Hstep.
  apply andb_true_iff in Hstep as [Hstep Hok].
  apply andb_true_iff in Hstep as [Hname Hlen].
  split; [|split].
  - exists u. split; [exact Hu | now apply pystr_eqb_eq].
  - intros ->. discriminate.
  - apply Forall_forall. intros q Hq.
    rewrite forallb_forall in Hok. specialize (Hok q Hq).
    unfold status_ok in Hok. apply orb_true_iff in Hok as [H|H];
      apply pystr_eqb_eq in H; [now left | now right].
Qed.

(** X13: when the first attempt returns a non-empty page source, that page
    source, whole, is what [parse_data] is given; and when [parse_data]
    returns records and writing them succeeds, the loop body has written
    exactly those records to the user's own file, then slept two seconds
    and returned. *)
Theorem successful_user_is_saved :
  forall (B : Type) (env : environment B)
         (BeautifulSoup : pystr -> outcome node) (ucd : N -> bool)
         (username page_source : pystr) (records : list quest)
         (w w1 w2 : world B) (b3 : B),
    QuestScraper.interaction env TARGET_URL username w
    = (Return page_source, w1) ->
    page_source <> [] ->
    QuestScraper.parse_data BeautifulSoup page_source username w1
    = (Return records, w2) ->
    records <> [] ->
    respond env
      (JsonDump (OUTPUT_FILENAME_TEMPLATE (safe_username ucd username))
         records) (browser w2) = (Return tt, b3) ->
    QuestScraper.process_user env BeautifulSoup ucd username w
    = (Return tt,
       pause env 2000
         {| browser := b3;
            trace :=
              trace w2
              ++ [ACall (JsonDump
                           (OUTPUT_FILENAME_TEMPLATE
                              (safe_username ucd username)) records)] |}).
Proof.
  intros B env bs ucd username page_source records w w1 w2 b3
         Hi Hne Hparse Hrec Hdump.
  unfold QuestScraper.process_user. unfold bind at 1.
  unfold QuestScraper.fetch_and_interact.
  change (seq 0 QuestScraper.attempts) with [0; 1; 2].
  rewrite (attempt_succeeds env TARGET_URL username 0 [1; 2] w w1
             page_source Hi).
  destruct page_source as [|c html]; [contradiction|].
  unfold bind at 1. unfold bind at 1. rewrite Hparse.
  destruct records as [|q rs]; [contradiction|].
  unfold save_to_json, try_except, call. rewrite Hdump. reflexivity.
Qed.

Lemma successful_user_is_saved_witness :
  QuestScraper.interaction (scripted (Return 0%N) Some) TARGET_URL
    (py "Zezima") started
  = (Return sample_page_source,
     snd (QuestScraper.interaction (scripted (Return 0%N) Some) TARGET_URL
            (py "Zezima") started))
  /\ sample_page_source <> []
  /\ [{| title := VStr (py "Cook's Assistant"); status := py "complete" |};
      {| title := VStr (py "Demon Slayer"); status := py "not started" |}]
     <> []
  /\ log_of (trace (snd (QuestScraper.process_user
                           (scripted (Return 0%N) Some) sample_parser
                           (fun _ => false) (py "Zezima") started))) = []
  /\ filter is_json_dump
       (trace (snd (QuestScraper.process_user
                      (scripted (Return 0%N) Some) sample_parser
                      (fun _ => false) (py "Zezima") started)))
     = [ACall (JsonDump (py "Zezima_quest_status.json")
                 [{| title := VStr (py "Cook's Assistant");
                     status := py "complete" |};
                  {| title := VStr (py "Demon Slayer");
                     status := py "not started" |}])].
Proof.
  assert (Hi : QuestScraper.interaction (scripted (Return 0%N) Some)
                 TARGET_URL (py "Zezima") started
               = (Return sample_page_source,
                  snd (QuestScraper.interaction (scripted (Return 0%N) Some)
                         TARGET_URL (py "Zezima") started)))
    by reflexivity.
  assert (Hne : sample_page_source <> []) by discriminate.
  assert (Hrec : [{| title := VStr (py "Cook's Assistant");
                     status := py "complete" |};
                  {| title := VStr (py "Demon Slayer");
                     status := py "not started" |}] <> []) by discriminate.
  split; [exact Hi|]. split; [exact Hne|]. split; [exact Hrec|].
  rewrite (successful_user_is_saved pystr (scripted (Return 0%N) Some)
             sample_parser (fun _ => false) (py "Zezima")
             sample_page_source _ _ _ _ _ Hi Hne eq_refl Hrec eq_refl).
  split; reflexivity.
Defined.

(* ================================================================== *)
(** ** The single-run script *)

Lemma inside_session_no_quit (t : list action) :
  forallb inside_session t = true -> filter is_quit t = [].
Proof.
  induction t as [|a t IH]; simpl; [reflexivity|].
  intros H. apply andb_true_iff in H as [Ha Ht].
  destruct a as [[]|ms|entry]; simpl in *; try discriminate; auto.
Qed.

Lemma loop_step_inside_session (a : action) :
  loop_step a = true -> inside_session a = true.
Proof. destruct a as [[]|ms|entry]; simpl; intros H; congruence. Qed.

Ltac step_calls env :=
  repeat (match goal with
          | |- context [respond env ?c ?b] =>
              destruct (respond env c b) as [[?|[?| |]] ?]
          | |- context [isinstance ?e ?c] => destruct (isinstance e c)
          end;
          cbn [browser trace fst snd]).

Lemma single_fetch_run {B : Type} (env : environment B)
    (url username : pystr) (w : world B) :
  single_run_account w
    (QuestScraperSingelRun.fetch_and_interact env url username w).
Proof.
  unfold QuestScraperSingelRun.fetch_and_interact,
    QuestScraperSingelRun.lookup_and_wait, click_lookup,
    bind, try_except, call, sleep, ret, raise, log_error.
  cbn [browser trace fst snd].
  step_calls env;
    unfold single_run_account; cbn [fst snd trace];
    (eexists; split; [rewrite <- ?app_assoc; reflexivity|]);
    repeat split.
Qed.

(** X14: a call of the single-run driver navigates exactly once, never
    lets an [Exception] out and writes no file; it logs nothing when it
    returns the markup or is interrupted, and exactly one message when it
    returns [None]. *)
Theorem single_run_fetch_accounting :
  forall (B : Type) (env : environment B) (url username : pystr)
         (w : world B),
  exists t,
    trace (snd (QuestScraperSingelRun.fetch_and_interact env url username w))
    = trace w ++ t
    /\ attempts_made t = 1
    /\ existsb is_json_dump t = false
    /\ match fst (QuestScraperSingelRun.fetch_and_interact env url username w)
       with
       | Return (Some _) => log_of t = []
       | Return None => List.length (log_of t) = 1
       | Raised (Exc _) => False
       | Raised _ => log_of t = []
       end.
Proof. intros B env url username w. apply single_fetch_run. Qed.

Section SingleRun.
Context {B : Type} (env : environment B).
Variable BeautifulSoup : pystr -> outcome node.

Lemma click_lookup_inside (fetch_button : elem) :
  adds inside_session (click_lookup env fetch_button).
Proof. unfold click_lookup. solve_adds. Qed.

Lemma single_fetch_adds (url username : pystr) :
  adds inside_session
    (QuestScraperSingelRun.fetch_and_interact env url username).
Proof.
  unfold QuestScraperSingelRun.fetch_and_interact,
    QuestScraperSingelRun.lookup_and_wait.
  pose proof click_lookup_inside. solve_adds; auto.
Qed.

Lemma single_body_adds :
  adds inside_session
    (bind (QuestScraperSingelRun.fetch_and_interact env TARGET_URL
             QuestScraperSingelRun.USERNAME_TO_SELECT)
       (fun html_after_interaction =>
          match html_after_interaction with
          | Some ((_ :: _) as html) =>
              bind (QuestScraperSingelRun.parse_data BeautifulSoup html)
                (fun extracted_data =>
                   save_to_json env extracted_data
                     QuestScraperSingelRun.OUTPUT_FILENAME)
          | _ => ret tt
          end)).
Proof.
  apply adds_bind; [apply single_fetch_adds|]. intros html.
  destruct html as [[|c html]|].
  - apply adds_ret.
  - apply adds_bind.
    + apply (adds_weaken loop_step inside_session);
        [exact loop_step_inside_session|].
      apply parse_data_adds.
    + intros extracted_data.
      apply (adds_weaken loop_step inside_session);
        [exact loop_step_inside_session|].
      apply save_to_json_adds.
  - apply adds_ret.
Qed.
End SingleRun.

(** X15: in the single-run script too, once the browser has started it is
    quit exactly once, as the last thing done, whatever happened in
    between. *)
Theorem single_run_quits_once :
  forall (B : Type) (env : environment B)
         (BeautifulSoup : pystr -> outcome node) (w : world B) (b1 : B),
    respond env ChromeStart (browser w) = (Return tt, b1) ->
    exists r w' t,
      QuestScraperSingelRun.main env BeautifulSoup w = (r, w')
      /\ trace w' = trace w ++ [ACall ChromeStart] ++ t ++ [ACall DriverQuit]
      /\ forallb inside_session t = true
      /\ List.length
           (filter is_quit ([ACall ChromeStart] ++ t ++ [ACall DriverQuit]))
         = 1.
Proof.
  intros B env bs w b1 Hstart.
  unfold QuestScraperSingelRun.main. unfold bind at 1.
  unfold setup_driver, try_except. unfold bind at 1. unfold call at 1.
  rewrite Hstart. unfold ret at 1. cbv beta iota.
  unfold try_finally, try_except.
  set (w1 := {| browser := b1; trace := trace w ++ [ACall ChromeStart] |}).
  assert (Hcount : forall t,
             forallb inside_session t = true ->
             List.length
               (filter is_quit
                  ([ACall ChromeStart] ++ t ++ [ACall DriverQuit])) = 1).
  { intros t Ft. cbn [app filter is_quit]. rewrite filter_app.
    rewrite (inside_session_no_quit _ Ft). reflexivity. }
  match goal with
  | |- context [match ?body w1 with _ => _ end] =>
      destruct (body w1) as [[[]|[e| |]] w2] eqn:Hbody;
      destruct (single_body_adds env bs _ _ _ Hbody) as [t [E F]]
  end.
  - destruct (call env DriverQuit w2) as [[[]|x] w3] eqn:Hq;
      pose proof (call_trace env _ _ _ _ Hq) as Eq;
      eexists; exists w3, t;
      (split; [reflexivity|]); (split; [|split; [exact F | exact (Hcount t F)]]);
      rewrite Eq, E; unfold w1; cbn [trace]; now rewrite <- !app_assoc.
  - unfold log_error.
    set (w2' := {| browser := browser w2;
                   trace := trace w2 ++ [ALog (LogMainError e)] |}).
    assert (F' : forallb inside_session (t ++ [ALog (LogMainError e)]) = true)
      by (rewrite forallb_app, F; reflexivity).
    destruct (call env DriverQuit w2') as [[[]|x] w3] eqn:Hq;
      pose proof (call_trace env _ _ _ _ Hq) as Eq;
      eexists; exists w3, (t ++ [ALog (LogMainError e)]);
      (split; [reflexivity|]);
      (split; [|split; [exact F' | exact (Hcount _ F')]]);
      rewrite Eq; unfold w2'; cbn [trace]; rewrite E; unfold w1; cbn [trace];
      now rewrite <- !app_assoc.
  - destruct (call env DriverQuit w2) as [[[]|x] w3] eqn:Hq;
      pose proof (call_trace env _ _ _ _ Hq) as Eq;
      eexists; exists w3, t;
      (split; [reflexivity|]); (split; [|split; [exact F | exact (Hcount t F)]]);
      rewrite Eq, E; unfold w1; cbn [trace]; now rewrite <- !app_assoc.
  - destruct (call env DriverQuit w2) as [[[]|x] w3] eqn:Hq;
      pose proof (call_trace env _ _ _ _ Hq) as Eq;
      eexists; exists w3, t;
      (split; [reflexivity|]); (split; [|split; [exact F | exact (Hcount t F)]]);
      rewrite Eq, E; unfold w1; cbn [trace]; now rewrite <- !app_assoc.
Qed.

Lemma single_run_quits_once_witness :
  respond echo_lost ChromeStart (browser started) = (Return tt, [])
  /\ exists r w' t,
      QuestScraperSingelRun.main echo_lost sample_parser started = (r, w')
      /\ trace w' = trace started ++ [ACall ChromeStart] ++ t
                    ++ [ACall DriverQuit]
      /\ forallb inside_session t = true
      /\ List.length
           (filter is_quit ([ACall ChromeStart] ++ t ++ [ACall DriverQuit]))
         = 1.
Proof.
  split; [reflexivity|].
  exact (single_run_quits_once pystr echo_lost sample_parser started []
           eq_refl).
Defined.
